(** * AdvancedDiscordMCP: rule dispatch, deferred tasks and pattern scanning

    A shallow embedding of the stateful core of [src/discord_mcp/server.py]:
    the three gateway handlers that run automation rules
    ([on_member_join], [on_reaction_add], [on_reaction_remove]), the
    deferred-task runner ([run_scheduled_task] with the two tools that submit
    to it) and the [auto_moderate_by_pattern] tool.

    Python values are modelled by [pyval]; a [str] is a Rocq [string] holding
    its UTF-8 bytes, which is exact for equality, concatenation and the
    replacement of ASCII patterns.  The module globals live in [State]; the
    Discord platform and the interpreter builtins whose tables are not part of
    the repository are parameters ([Discord], [Python]).  Code that can raise
    runs in the monad [M], in which the state survives an exception, as it does
    in Python. *)

From Stdlib Require Import ZArith String Ascii List Bool Lia.
From Stdlib Require Import Floats Uint63 DecimalString DecimalZ.
From stdpp Require Import base option list gmap strings.
Import ListNotations.

Local Open Scope string_scope.
Local Open Scope list_scope.
Local Open Scope Z_scope.
Local Open Scope stdpp_scope.

Set Warnings "-register-all".

(** ** Python values *)

(** The JSON-shaped values a tool call carries and a rule stores. *)
Inductive pyval : Type :=
| VNone
| VBool (b : bool)
| VInt (z : Z)
| VFloat (f : float)
| VStr (s : string)
| VList (l : list pyval)
| VDict (d : list (string * pyval)).

(** A [dict] with [str] keys, in insertion order. *)
Definition dict : Type := list (string * pyval).

(** Instances of Python's [Exception]: the class name and [str(exc)]. *)
Record Exn : Type := mkExn { exn_class : string; exn_text : string }.

(** [d.get(key)] as an option, and [key in d]. *)
Fixpoint dict_lookup (k : string) (d : dict) : option pyval :=
  match d with
  | [] => None
  | (k', v) :: rest => if String.eqb k' k then Some v else dict_lookup k rest
  end.

(** [d.get(key, default)]. *)
Definition dict_get (d : dict) (k : string) (default : pyval) : pyval :=
  match dict_lookup k d with
  | Some v => v
  | None => default
  end.

(** [key in d]. *)
Definition dict_mem (k : string) (d : dict) : bool :=
  match dict_lookup k d with Some _ => true | None => false end.

(** Truth value testing: [if v:] / [not v]. *)
Definition truthy (v : pyval) : bool :=
  match v with
  | VNone => false
  | VBool b => b
  | VInt z => negb (z =? 0)
  | VFloat f => negb (PrimFloat.eqb f 0%float)
  | VStr s => negb (String.eqb s "")
  | VList l => match l with [] => false | _ => true end
  | VDict d => match d with [] => false | _ => true end
  end.

(** [v == s] and [v != s] for a string literal [s]. *)
Definition py_eq_str (v : pyval) (s : string) : bool :=
  match v with
  | VStr s' => String.eqb s' s
  | _ => false
  end.

Definition py_ne_str (v : pyval) (s : string) : bool := negb (py_eq_str v s).

(** [type(v).__name__]. *)
Definition type_name (v : pyval) : string :=
  match v with
  | VNone => "NoneType"
  | VBool _ => "bool"
  | VInt _ => "int"
  | VFloat _ => "float"
  | VStr _ => "str"
  | VList _ => "list"
  | VDict _ => "dict"
  end.

(** The [AttributeError] of a missing method. *)
Definition attribute_error (v : pyval) (attr : string) : Exn :=
  mkExn "AttributeError"
        ("'" +:+ type_name v +:+ "' object has no attribute '" +:+ attr +:+ "'").

(** [str(n)] for an [int]. *)
Definition str_of_Z (z : Z) : string := NilEmpty.string_of_int (Z.to_int z).

(** One item of a tool result; [TextContent] carries [text]. *)
Inductive Content : Type :=
| TextContent (text : string)
| OtherContent.

(** The interpreter builtins whose tables (Unicode classes, numeric parsing,
    [repr], [datetime]) are not re-implemented here.  A [datetime] is its
    number of microseconds since the epoch, in UTC.  Every theorem holds for
    every instance; [ascii_python] below is an executable one. *)
Record Python : Type := mkPython {
  int_of_str : string -> Exn + Z;          (* int(s) *)
  int_of_other : pyval -> Exn + Z;         (* int(v), v not an int, a bool or a str *)
  float_of : pyval -> Exn + float;         (* float(v), v not a float or a bool *)
  repr : pyval -> string;                  (* str(v) of floats, lists, dicts *)
  repr_contents : list Content -> string;  (* str(result) of a tool result *)
  chars : string -> list N;                (* the code points of a str *)
  isalpha : N -> bool;                     (* ch.isalpha() *)
  isupper : N -> bool;                     (* ch.isupper() *)
  strip : string -> string;                (* s.strip() *)
  lower : string -> string;                (* s.lower() *)
  isdigit : string -> bool;                (* s.isdigit() *)
  fromtimestamp : pyval -> Exn + Z;        (* datetime.fromtimestamp(v, tz=timezone.utc) *)
  fromisoformat : string -> Exn + Z;       (* datetime.fromisoformat(s), brought to UTC *)
  isoformat : Z -> string;                 (* t.isoformat() *)
  add_seconds : Z -> float -> Exn + Z;     (* t + timedelta(seconds=f) *)
  minutes : pyval -> Exn + Z               (* timedelta(minutes=v) *)
}.

(** [str(v)]. *)
Definition py_str (py : Python) (v : pyval) : string :=
  match v with
  | VNone => "None"
  | VBool true => "True"
  | VBool false => "False"
  | VInt z => str_of_Z z
  | VStr s => s
  | _ => repr py v
  end.

(** [int(v)]. *)
Definition py_int (py : Python) (v : pyval) : Exn + Z :=
  match v with
  | VInt z => inr z
  | VBool b => inr (if b then 1 else 0)
  | VStr s => int_of_str py s
  | _ => int_of_other py v
  end.

(** [float(v)]. *)
Definition py_float (py : Python) (v : pyval) : Exn + float :=
  match v with
  | VFloat f => inr f
  | VBool b => inr (if b then 1%float else 0%float)
  | _ => float_of py v
  end.

(** [a / b] on two non-negative [int]s below 2^53, where the quotient of the
    two conversions is the correctly rounded quotient Python returns. *)
Definition py_truediv (a b : Z) : Exn + float :=
  if b =? 0 then inl (mkExn "ZeroDivisionError" "division by zero")
  else inr (PrimFloat.div (PrimFloat.of_uint63 (Uint63.of_Z a))
                          (PrimFloat.of_uint63 (Uint63.of_Z b))).

(** [x >= y] on floats. *)
Definition float_ge (x y : float) : bool := PrimFloat.leb y x.

(** [sep.join(parts)]. *)
Fixpoint join (sep : string) (parts : list string) : string :=
  match parts with
  | [] => ""
  | [x] => x
  | x :: rest => x +:+ sep +:+ join sep rest
  end.

Definition newline : string := String (ascii_of_nat 10) EmptyString.

(** [s.replace(old, new)] for a non-empty [old]: every non-overlapping
    occurrence, leftmost first.  [skip] counts the characters of a match that
    are still to be passed over. *)
Fixpoint replace_from (old new : string) (skip : nat) (s : string) : string :=
  match s with
  | EmptyString => EmptyString
  | String c s' =>
      match skip with
      | S k => replace_from old new k s'
      | O =>
          if String.prefix old s
          then new +:+ replace_from old new (Nat.pred (String.length old)) s'
          else String c (replace_from old new O s')
      end
  end.

Definition str_replace (s old new : string) : string := replace_from old new O s.

(** [len(re.findall(r"https?://", s))]: the matches are counted leftmost
    first, and the search resumes after a match. *)
Fixpoint count_links_from (skip : nat) (s : string) : nat :=
  match s with
  | EmptyString => O
  | String c s' =>
      match skip with
      | S k => count_links_from k s'
      | O =>
          if String.prefix "https://" s then S (count_links_from 7 s')
          else if String.prefix "http://" s then S (count_links_from 6 s')
          else count_links_from O s'
      end
  end.

Definition count_links (s : string) : nat := count_links_from O s.

(** ** Discord objects *)

Record Role : Type := mkRole { id_of_role : Z; role_name : string }.

Record Guild : Type := mkGuild {
  guild_id : Z;
  guild_name : string;
  guild_roles : list Role                  (* the role cache behind get_role *)
}.

Record Member : Type := mkMember {
  member_id : Z;
  member_name : string;
  member_mention : string;
  member_roles : list Role;
  member_guild : Guild;
  member_avatar_url : option string        (* display_avatar.url, when there is one *)
}.

Record User : Type := mkUser { user_id : Z; user_bot : bool }.

(** The message a reaction sits on. *)
Record ReactedMessage : Type := mkReactedMessage {
  msg_id : Z;
  msg_guild : Guild;
  msg_in_text_channel : bool               (* isinstance(channel, discord.TextChannel) *)
}.

Record Reaction : Type := mkReaction {
  reaction_emoji : string;                 (* str(reaction.emoji) *)
  reaction_message : ReactedMessage
}.

Record Embed : Type := mkEmbed {
  embed_title : string;
  embed_description : string;
  embed_color : Z;
  embed_thumbnail : option string;
  embed_footer : option string
}.

Record Channel : Type := mkChannel {
  id_of_channel : Z;
  channel_has_history : bool               (* hasattr(channel, "history") *)
}.

(** A message of a channel's history. *)
Record Message : Type := mkMessage {
  message_id : Z;
  message_author_id : Z;
  message_author_is_member : bool;         (* isinstance(msg.author, discord.Member) *)
  message_content : option string;
  message_mentions : list Z;
  message_role_mentions : list Z
}.

(** [guild.get_role(role_id)]. *)
Definition get_role (g : Guild) (rid : Z) : option Role :=
  find (fun r => id_of_role r =? rid) (guild_roles g).

(** [role in member.roles]; discord.py compares roles by id. *)
Definition role_in (r : Role) (roles : list Role) : bool :=
  existsb (fun r' => id_of_role r' =? id_of_role r) roles.

(** ** The platform *)

(** The requests the embedded code sends to Discord, in the order sent. *)
Inductive Call : Type :=
| CFetchChannel (cid : Z)
| CSend (cid : Z) (e : Embed)
| CFetchMember (gid uid : Z)
| CAddRoles (mid rid : Z) (reason : string)
| CRemoveRoles (mid rid : Z) (reason : string)
| CHistory (cid limit : Z)
| CDelete (mid : Z) (reason : string)
| CTimeout (uid : Z) (minutes : pyval) (reason : string)
| CTool (name : string) (arguments : pyval).

(** Discord's answers.  Each may depend on every request sent so far, so a
    request can succeed once and fail later; [Some e] and [inl e] mean the
    call raises [e]. *)
Record Discord : Type := mkDiscord {
  fetch_channel : list Call -> Z -> Exn + Channel;
  channel_send : list Call -> Channel -> Embed -> option Exn;
  fetch_member : list Call -> Guild -> Z -> Exn + Member;
  add_roles : list Call -> Member -> Role -> string -> option Exn;
  remove_roles : list Call -> Member -> Role -> string -> option Exn;
  channel_history : list Call -> Channel -> Z -> Exn + list Message;
  message_delete : list Call -> Message -> string -> option Exn;
  author_timeout : list Call -> Message -> pyval -> string -> option Exn;
  proxied_tool : list Call -> string -> pyval -> Exn + list Content
}.

(** ** Module state *)

Inductive Level : Type := INFO | WARNING | ERROR.

(** A scheduled task's record (the dict stored in [scheduled_tasks]); the keys
    [result] and [error] are absent until the runner sets them. *)
Record Task : Type := mkTask {
  task_id : string;
  task_type : string;
  task_run_at : string;
  task_created_at : string;
  task_status : string;
  task_payload : pyval;
  task_result : option string;
  task_error : option string
}.

(** Where the coroutine of [run_scheduled_task] stands: before its lookup of
    the task (asleep until [run_at]), awaiting [task_callable()], or returned. *)
Inductive PC : Type := Sleeping | Awaiting | Finished.

(** A coroutine started by [asyncio.create_task(run_scheduled_task(...))],
    with the task type and payload its [task_callable] closes over. *)
Record Runner : Type := mkRunner {
  runner_task_id : string;
  runner_task_type : string;
  runner_payload : pyval;
  runner_pc : PC
}.

(** The globals of the module, the requests sent, the log written and the
    coroutines started. *)
Record State : Type := mkState {
  discord_client : bool;                   (* is discord_client set *)
  scheduled_tasks : gmap string Task;
  scheduled_task_counter : Z;
  automation_rules : list (string * dict);
  automation_rule_counter : Z;
  api_calls : list Call;
  log : list (Level * string);
  runners : list Runner
}.

Definition with_calls (st : State) (c : list Call) : State :=
  mkState (discord_client st) (scheduled_tasks st) (scheduled_task_counter st)
          (automation_rules st) (automation_rule_counter st) c (log st) (runners st).

Definition with_log (st : State) (l : list (Level * string)) : State :=
  mkState (discord_client st) (scheduled_tasks st) (scheduled_task_counter st)
          (automation_rules st) (automation_rule_counter st) (api_calls st) l (runners st).

Definition with_tasks (st : State) (m : gmap string Task) : State :=
  mkState (discord_client st) m (scheduled_task_counter st)
          (automation_rules st) (automation_rule_counter st) (api_calls st) (log st)
          (runners st).

Definition with_task_counter (st : State) (n : Z) : State :=
  mkState (discord_client st) (scheduled_tasks st) n
          (automation_rules st) (automation_rule_counter st) (api_calls st) (log st)
          (runners st).

Definition with_rules (st : State) (r : list (string * dict)) : State :=
  mkState (discord_client st) (scheduled_tasks st) (scheduled_task_counter st)
          r (automation_rule_counter st) (api_calls st) (log st) (runners st).

Definition with_rule_counter (st : State) (n : Z) : State :=
  mkState (discord_client st) (scheduled_tasks st) (scheduled_task_counter st)
          (automation_rules st) n (api_calls st) (log st) (runners st).

Definition with_runners (st : State) (r : list Runner) : State :=
  mkState (discord_client st) (scheduled_tasks st) (scheduled_task_counter st)
          (automation_rules st) (automation_rule_counter st) (api_calls st) (log st) r.

(** ** Computations that may raise *)

(** A computation returns or raises, and in both cases leaves a state. *)
Definition M (A : Type) : Type := State -> (Exn + A) * State.

Definition ret {A} (a : A) : M A := fun st => (inr a, st).

Definition raise {A} (e : Exn) : M A := fun st => (inl e, st).

Definition bind {A B} (m : M A) (k : A -> M B) : M B :=
  fun st =>
    match m st with
    | (inr a, st') => k a st'
    | (inl e, st') => (inl e, st')
    end.

(** A pure computation that may raise. *)
Definition lift {A} (r : Exn + A) : M A := fun st => (r, st).

(** [try: body / except Exception as exc: handler(exc)]. *)
Definition try_except {A} (body : M A) (handler : Exn -> M A) : M A :=
  fun st =>
    match body st with
    | (inl e, st') => handler e st'
    | r => r
    end.

(** [for x in l: body(x)]. *)
Fixpoint for_each {A} (body : A -> M unit) (l : list A) : M unit :=
  match l with
  | [] => ret tt
  | x :: rest => bind (body x) (fun _ => for_each body rest)
  end.

#[global] Instance M_ret : MRet M := @ret.
#[global] Instance M_bind : MBind M := fun A B k m => bind m k.

(** Binding in the pure error type. *)
Definition ebind {A B} (r : Exn + A) (k : A -> Exn + B) : Exn + B :=
  match r with
  | inr a => k a
  | inl e => inl e
  end.

#[global] Instance result_bind : MBind (sum Exn) := fun A B k r => ebind r k.

Definition get_state : M State := fun st => (inr st, st).

Definition modify (f : State -> State) : M unit := fun st => (inr tt, f st).

(** [logger.info(msg)], [logger.error(msg)]. *)
Definition logger (lvl : Level) (msg : string) : M unit :=
  modify (fun st => with_log st (log st ++ [(lvl, msg)])).

(** A request: it is appended to [api_calls], and the platform answers from
    the requests that came before it. *)
Definition request {A} (c : Call) (answer : list Call -> Exn + A) : M A :=
  fun st => (answer (api_calls st), with_calls st (api_calls st ++ [c])).

Definition outcome (o : option Exn) : Exn + unit :=
  match o with
  | Some e => inl e
  | None => inr tt
  end.

(** [v.get(key, default)] on a value that should be a dict. *)
Definition py_get (v : pyval) (k : string) (default : pyval) : Exn + pyval :=
  match v with
  | VDict d => inr (dict_get d k default)
  | _ => inl (attribute_error v "get")
  end.

(** [v.replace(old, new)] on a value that should be a str. *)
Definition py_replace (v : pyval) (old new : string) : Exn + string :=
  match v with
  | VStr s => inr (str_replace s old new)
  | _ => inl (attribute_error v "replace")
  end.

(** [d[key]]. *)
Definition py_index (d : dict) (k : string) : Exn + pyval :=
  match dict_lookup k d with
  | Some v => inr v
  | None => inl (mkExn "KeyError" ("'" +:+ k +:+ "'"))
  end.

(** [store[key] = value] on an insertion-ordered dict: an existing key keeps
    its place, a new one goes last. *)
Fixpoint store_set {V} (k : string) (v : V) (store : list (string * V)) : list (string * V) :=
  match store with
  | [] => [(k, v)]
  | (k', v') :: rest =>
      if String.eqb k' k then (k, v) :: rest else (k', v') :: store_set k v rest
  end.

(** [try: x = body / except: ...] with a bare [except], which the caller
    inspects. *)
Definition attempt {A} (body : M A) : M (Exn + A) :=
  fun st => let '(r, st') := body st in (inr r, st').

(** [s.endswith("Z")] and [s[:-1]]. *)
Fixpoint ends_with_Z (s : string) : bool :=
  match s with
  | EmptyString => false
  | String c EmptyString => Ascii.eqb c "Z"%char
  | String _ rest => ends_with_Z rest
  end.

Fixpoint drop_last (s : string) : string :=
  match s with
  | EmptyString => EmptyString
  | String _ EmptyString => EmptyString
  | String c rest => String c (drop_last rest)
  end.

(** [task_entry["status"] = status], and the like. *)
Definition set_status (status : string) (t : Task) : Task :=
  mkTask (task_id t) (task_type t) (task_run_at t) (task_created_at t) status
         (task_payload t) (task_result t) (task_error t).

Definition set_result (result : string) (t : Task) : Task :=
  mkTask (task_id t) (task_type t) (task_run_at t) (task_created_at t) (task_status t)
         (task_payload t) (Some result) (task_error t).

Definition set_error (error : string) (t : Task) : Task :=
  mkTask (task_id t) (task_type t) (task_run_at t) (task_created_at t) (task_status t)
         (task_payload t) (task_result t) (Some error).

Definition set_pc (pc : PC) (r : Runner) : Runner :=
  mkRunner (runner_task_id r) (runner_task_type r) (runner_payload r) pc.

(** ** The automation-rule handlers *)

Section Embedding.

Context (py : Python) (discord : Discord).

(** The server-scope test shared by the three handlers:
    [server_id and str(guild.id) != str(server_id)]. *)
Definition other_server (g : Guild) (server_id : pyval) : bool :=
  truthy server_id && negb (String.eqb (str_of_Z (guild_id g)) (py_str py server_id)).

(** *** on_member_join *)

(** The tests before the [try] of [on_member_join]; [false] is [continue]. *)
Definition member_join_match (member : Member) (rule : dict) : bool :=
  if negb (truthy (dict_get rule "enabled" (VBool true))) then false
  else if py_ne_str (dict_get rule "trigger_type" VNone) "member_join" then false
  else
    let server_id := dict_get rule "server_id" VNone in
    if other_server (member_guild member) server_id then false
    else true.

(** The body of the [try] of [on_member_join]. *)
Definition member_join_action (member : Member) (rule_id : string) (rule : dict) : M unit :=
  let action_type := dict_get rule "action_type" VNone in
  let action_payload := dict_get rule "action_payload" (VDict []) in
  if py_eq_str action_type "send_message" then
    channel_id ← lift (py_get action_payload "channel_id" VNone);
    if truthy channel_id then
      cid ← lift (py_int py channel_id);
      channel ← request (CFetchChannel cid) (fun h => fetch_channel discord h cid);
      content ← lift (py_get action_payload "content" (VStr "Welcome to the server!"));
      content ← lift (py_replace content "{user}" (member_mention member));
      let content := str_replace content "{username}" (member_name member) in
      let content := str_replace content "{server}" (guild_name (member_guild member)) in
      let embed := mkEmbed "Welcome!" content 0x5865F2 (member_avatar_url member) None in
      request (CSend (id_of_channel channel) embed)
              (fun h => outcome (channel_send discord h channel embed));;
      logger INFO ("Executed automation rule " +:+ rule_id +:+ ": sent welcome message")
    else mret tt
  else if py_eq_str action_type "assign_role" then
    role_id ← lift (py_get action_payload "role_id" VNone);
    if truthy role_id then
      rid ← lift (py_int py role_id);
      match get_role (member_guild member) rid with
      | Some role =>
          let reason := "Automation rule: " +:+ py_str py (dict_get rule "name" (VStr rule_id)) in
          request (CAddRoles (member_id member) (id_of_role role) reason)
                  (fun h => outcome (add_roles discord h member role reason));;
          logger INFO ("Executed automation rule " +:+ rule_id +:+ ": assigned role")
      | None => mret tt
      end
    else mret tt
  else if py_eq_str action_type "log" then
    logger INFO ("Automation rule " +:+ rule_id +:+ " triggered for member "
                 +:+ member_name member +:+ " (ID: " +:+ str_of_Z (member_id member) +:+ ")")
  else mret tt.

(** One turn of the loop of [on_member_join]. *)
Definition member_join_rule (member : Member) (entry : string * dict) : M unit :=
  let '(rule_id, rule) := entry in
  if member_join_match member rule then
    try_except (member_join_action member rule_id rule)
      (fun exc => logger ERROR ("Error executing automation rule " +:+ rule_id
                                +:+ ": " +:+ exn_text exc))
  else mret tt.

(** [on_member_join], taken in one piece: the run in which the event loop
    serves no [create_automation_rule] while an action of the loop awaits
    Discord.  The loop of the program walks the live dict; no turn of the loop
    writes to it, so in such a run the walk is the one over the rules stored
    when the loop begins.  When a rule is created while an action awaits, the
    dict has changed size and the next step of the iteration raises
    [RuntimeError], outside the [try]: the runs of that kind are outside this
    definition, and what is said of a single turn, [member_join_rule], holds
    in them too. *)
Definition on_member_join (member : Member) : M unit :=
  st ← get_state;
  if negb (discord_client st) then mret tt
  else for_each (member_join_rule member) (automation_rules st).

(** *** on_reaction_add *)

(** The tests before the [try] of [on_reaction_add], which
    [on_reaction_remove] repeats word for word.  The lookup of [message_id]
    is outside the [try], so a payload that is not a dict raises here. *)
Definition reaction_match (reaction : Reaction) (emoji_str : string) (rule : dict) : Exn + bool :=
  if negb (truthy (dict_get rule "enabled" (VBool true))) then inr false
  else if py_ne_str (dict_get rule "trigger_type" VNone) "reaction_added" then inr false
  else
    let server_id := dict_get rule "server_id" VNone in
    if other_server (msg_guild (reaction_message reaction)) server_id then inr false
    else
      let trigger_value := dict_get rule "trigger_value" (VStr "") in
      if truthy trigger_value && py_ne_str trigger_value emoji_str then inr false
      else
        let action_payload := dict_get rule "action_payload" (VDict []) in
        message_id ← py_get action_payload "message_id" VNone;
        if truthy message_id
           && negb (String.eqb (str_of_Z (msg_id (reaction_message reaction)))
                               (py_str py message_id))
        then inr false
        else inr true.

(** The body of the [try] of [on_reaction_add]. *)
Definition reaction_add_action (reaction : Reaction) (member : Member) (emoji_str : string)
    (rule_id : string) (rule : dict) : M unit :=
  let action_payload := dict_get rule "action_payload" (VDict []) in
  let action_type := dict_get rule "action_type" VNone in
  if py_eq_str action_type "assign_role" then
    role_id ← lift (py_get action_payload "role_id" VNone);
    if truthy role_id then
      rid ← lift (py_int py role_id);
      match get_role (msg_guild (reaction_message reaction)) rid with
      | Some role =>
          if negb (role_in role (member_roles member)) then
            let reason := "Reaction role: " +:+ py_str py (dict_get rule "name" (VStr rule_id)) in
            request (CAddRoles (member_id member) (id_of_role role) reason)
                    (fun h => outcome (add_roles discord h member role reason));;
            logger INFO ("Executed automation rule " +:+ rule_id +:+ ": assigned role "
                         +:+ role_name role +:+ " to " +:+ member_name member)
          else mret tt
      | None => mret tt
      end
    else mret tt
  else if py_eq_str action_type "send_message" then
    channel_id ← lift (py_get action_payload "channel_id" VNone);
    if truthy channel_id then
      cid ← lift (py_int py channel_id);
      channel ← request (CFetchChannel cid) (fun h => fetch_channel discord h cid);
      content ← lift (py_get action_payload "content" (VStr "Reaction received!"));
      content ← lift (py_replace content "{user}" (member_mention member));
      let content := str_replace content "{username}" (member_name member) in
      let content := str_replace content "{emoji}" emoji_str in
      let embed := mkEmbed "Reaction Event" content 0x5865F2 None
                           (Some ("Reaction: " +:+ emoji_str)) in
      request (CSend (id_of_channel channel) embed)
              (fun h => outcome (channel_send discord h channel embed));;
      logger INFO ("Executed automation rule " +:+ rule_id +:+ ": sent message")
    else mret tt
  else if py_eq_str action_type "log" then
    logger INFO ("Automation rule " +:+ rule_id +:+ " triggered for reaction " +:+ emoji_str
                 +:+ " by " +:+ member_name member
                 +:+ " (ID: " +:+ str_of_Z (member_id member) +:+ ")")
  else mret tt.

(** One turn of the loop of [on_reaction_add]. *)
Definition reaction_add_rule (reaction : Reaction) (member : Member) (entry : string * dict)
    : M unit :=
  let '(rule_id, rule) := entry in
  let emoji_str := reaction_emoji reaction in
  matched ← lift (reaction_match reaction emoji_str rule);
  if matched : bool then
    try_except (reaction_add_action reaction member emoji_str rule_id rule)
      (fun exc => logger ERROR ("Error executing automation rule " +:+ rule_id
                                +:+ ": " +:+ exn_text exc))
  else mret tt.

(** The opening of both reaction handlers: the client, the bot test, the
    channel test and the member's fetch; [None] is an early [return]. *)
Definition reacting_member (reaction : Reaction) (user : User) : M (option Member) :=
  st ← get_state;
  if negb (discord_client st) then mret None
  else if user_bot user then mret None
  else if negb (msg_in_text_channel (reaction_message reaction)) then mret None
  else
    let guild := msg_guild (reaction_message reaction) in
    fetched ← attempt (request (CFetchMember (guild_id guild) (user_id user))
                               (fun h => fetch_member discord h guild (user_id user)));
    match fetched with
    | inr member => mret (Some member)
    | inl _ => mret None
    end.

(** [on_reaction_add], taken in one piece as [on_member_join] is: its loop
    walks the live dict and awaits Discord in the actions, and the runs in
    which a rule is created meanwhile, where the iteration raises
    [RuntimeError], are outside this definition.  A turn of the loop is
    [reaction_add_rule]. *)
Definition on_reaction_add (reaction : Reaction) (user : User) : M unit :=
  found ← reacting_member reaction user;
  match found with
  | None => mret tt
  | Some member =>
      st ← get_state;
      for_each (reaction_add_rule reaction member) (automation_rules st)
  end.

(** *** on_reaction_remove *)

(** The tests before the [try] of [on_reaction_remove]: those of
    [on_reaction_add], then [remove_on_unreact]. *)
Definition reaction_remove_match (reaction : Reaction) (emoji_str : string) (rule : dict)
    : Exn + bool :=
  matched ← reaction_match reaction emoji_str rule;
  if matched : bool then
    let action_payload := dict_get rule "action_payload" (VDict []) in
    remove_on_unreact ← py_get action_payload "remove_on_unreact" (VBool true);
    if negb (truthy remove_on_unreact) then inr false
    else inr true
  else inr false.

(** The body of the [try] of [on_reaction_remove]. *)
Definition reaction_remove_action (reaction : Reaction) (member : Member)
    (rule_id : string) (rule : dict) : M unit :=
  let action_payload := dict_get rule "action_payload" (VDict []) in
  let action_type := dict_get rule "action_type" VNone in
  if py_eq_str action_type "assign_role" then
    role_id ← lift (py_get action_payload "role_id" VNone);
    if truthy role_id then
      rid ← lift (py_int py role_id);
      match get_role (msg_guild (reaction_message reaction)) rid with
      | Some role =>
          if role_in role (member_roles member) then
            let reason := "Reaction role removed: "
                          +:+ py_str py (dict_get rule "name" (VStr rule_id)) in
            request (CRemoveRoles (member_id member) (id_of_role role) reason)
                    (fun h => outcome (remove_roles discord h member role reason));;
            logger INFO ("Executed automation rule " +:+ rule_id +:+ ": removed role "
                         +:+ role_name role +:+ " from " +:+ member_name member)
          else mret tt
      | None => mret tt
      end
    else mret tt
  else mret tt.

(** One turn of the loop of [on_reaction_remove]. *)
Definition reaction_remove_rule (reaction : Reaction) (member : Member)
    (entry : string * dict) : M unit :=
  let '(rule_id, rule) := entry in
  let emoji_str := reaction_emoji reaction in
  matched ← lift (reaction_remove_match reaction emoji_str rule);
  if matched : bool then
    try_except (reaction_remove_action reaction member rule_id rule)
      (fun exc => logger ERROR ("Error executing automation rule " +:+ rule_id
                                +:+ " on reaction remove: " +:+ exn_text exc))
  else mret tt.

(** [on_reaction_remove], taken in one piece in the same way; a turn of its
    loop is [reaction_remove_rule]. *)
Definition on_reaction_remove (reaction : Reaction) (user : User) : M unit :=
  found ← reacting_member reaction user;
  match found with
  | None => mret tt
  | Some member =>
      st ← get_state;
      for_each (reaction_remove_rule reaction member) (automation_rules st)
  end.

(** *** create_automation_rule *)

(** [next_automation_rule_id()]. *)
Definition next_automation_rule_id : M string :=
  fun st =>
    let n := automation_rule_counter st + 1 in
    (inr (str_of_Z n), with_rule_counter st n).

(** The tool [create_automation_rule]; [now] is the clock's reading,
    [datetime.now(timezone.utc).isoformat()]. *)
Definition create_automation_rule (now : string) (arguments : dict) : M (list Content) :=
  rule_id ← next_automation_rule_id;
  name ← lift (py_index arguments "name");
  trigger_type ← lift (py_index arguments "trigger_type");
  action_type ← lift (py_index arguments "action_type");
  let rule : dict :=
    [ ("id", VStr rule_id);
      ("server_id", dict_get arguments "server_id" VNone);
      ("name", name);
      ("trigger_type", trigger_type);
      ("trigger_value", dict_get arguments "trigger_value" VNone);
      ("action_type", action_type);
      ("action_payload", dict_get arguments "action_payload" (VDict []));
      ("enabled", dict_get arguments "enabled" (VBool true));
      ("created_at", VStr now) ] in
  modify (fun st => with_rules st (store_set rule_id rule (automation_rules st)));;
  mret [TextContent ("Created automation rule " +:+ rule_id +:+ ": " +:+ py_str py name)].

(** ** The pattern scanner: auto_moderate_by_pattern *)

(** [v.strip().lower()] on a value that should be a str. *)
Definition strip_lower (v : pyval) : Exn + string :=
  match v with
  | VStr s => inr (lower py (strip py s))
  | _ => inl (attribute_error v "strip")
  end.

(** [msg.content or ""]. *)
Definition content_or_empty (msg : Message) : string :=
  match message_content msg with
  | Some s => s
  | None => ""
  end.

(** The key of a message in the [Counter] of [repeated_message], when its
    normalized content is not empty. *)
Definition repeat_key (msg : Message) : option (Z * string) :=
  let content := lower py (strip py (content_or_empty msg)) in
  if negb (String.eqb content "") then Some (message_author_id msg, content) else None.

(** [counts[key] += 1] for each message with a key. *)
Definition count_message (counts : gmap (Z * string) Z) (msg : Message) : gmap (Z * string) Z :=
  match repeat_key msg with
  | Some key => <[key := default 0 (counts !! key) + 1]> counts
  | None => counts
  end.

Definition repeated_message (repeat_threshold : Z) (messages : list Message) : list Message :=
  let counts := foldl count_message ∅ messages in
  List.filter
    (fun msg =>
       match repeat_key msg with
       | Some key => repeat_threshold <=? default 0 (counts !! key)
       | None => false
       end)
    messages.

Definition link_spam (link_threshold : Z) (messages : list Message) : list Message :=
  List.filter
    (fun msg => link_threshold <=? Z.of_nat (count_links (content_or_empty msg)))
    messages.

Definition mention_spam (mention_threshold : Z) (messages : list Message) : list Message :=
  List.filter
    (fun msg =>
       let mention_count :=
         Z.of_nat (length (message_mentions msg)) + Z.of_nat (length (message_role_mentions msg)) in
       mention_threshold <=? mention_count)
    messages.

(** [[ch for ch in content if ch.isalpha()]]. *)
Definition letters_of (content : string) : list N := List.filter (isalpha py) (chars py content).

(** [len(content)]. *)
Definition py_len (content : string) : Z := Z.of_nat (length (chars py content)).

(** The loop of [caps_spam]; the division is the one place that can raise. *)
Fixpoint caps_spam (caps_ratio : float) (min_length : Z) (messages : list Message)
    : Exn + list Message :=
  match messages with
  | [] => inr []
  | msg :: rest =>
      let content := content_or_empty msg in
      let letters := letters_of content in
      match letters with
      | [] => caps_spam caps_ratio min_length rest
      | _ =>
          ratio ← py_truediv (Z.of_nat (length (List.filter (isupper py) letters)))
                             (Z.of_nat (length letters));
          matches ← caps_spam caps_ratio min_length rest;
          if float_ge ratio caps_ratio && (min_length <=? py_len content)
          then inr (msg :: matches)
          else inr matches
      end
  end.

(** Python's [0.7]. *)
Definition default_caps_ratio : float := 0x1.6666666666666p-1%float.

(** The branch on [pattern_type], which fills [matches]. *)
Definition scan (pattern_type : string) (arguments : dict) (messages : list Message)
    : Exn + list Message :=
  if String.eqb pattern_type "repeated_message" then
    repeat_threshold ← py_int py (dict_get arguments "repeat_threshold" (VInt 3));
    inr (repeated_message repeat_threshold messages)
  else if String.eqb pattern_type "link_spam" then
    link_threshold ← py_int py (dict_get arguments "link_threshold" (VInt 3));
    inr (link_spam link_threshold messages)
  else if String.eqb pattern_type "mention_spam" then
    mention_threshold ← py_int py (dict_get arguments "mention_threshold" (VInt 5));
    inr (mention_spam mention_threshold messages)
  else if String.eqb pattern_type "caps_spam" then
    caps_ratio ← py_float py (dict_get arguments "caps_ratio_threshold" (VFloat default_caps_ratio));
    min_length ← py_int py (dict_get arguments "min_length" (VInt 15));
    caps_spam caps_ratio min_length messages
  else inl (mkExn "ValueError" "Unknown pattern_type").

(** The locals of [auto_moderate_by_pattern] once [matches] is filled and
    [action] is checked. *)
Record Scan : Type := mkScan {
  scan_action : string;
  scan_dry_run : pyval;
  scan_matches : list Message
}.

(** [auto_moderate_by_pattern] up to the test of [dry_run]; [None] is the
    early return for a channel without history. *)
Definition moderation_scan (arguments : dict) : M (option Scan) :=
  channel_id ← lift (py_index arguments "channel_id");
  cid ← lift (py_int py channel_id);
  channel ← request (CFetchChannel cid) (fun h => fetch_channel discord h cid);
  if negb (channel_has_history channel) then mret None
  else
    pattern_type ← lift (py_index arguments "pattern_type");
    pattern_type ← lift (strip_lower pattern_type);
    limit ← lift (py_int py (dict_get arguments "limit" (VInt 200)));
    let limit := Z.min limit 1000 in
    action ← lift (strip_lower (dict_get arguments "action" (VStr "report")));
    let dry_run := dict_get arguments "dry_run" (VBool true) in
    messages ← request (CHistory (id_of_channel channel) limit)
                       (fun h => channel_history discord h channel limit);
    matches ← lift (scan pattern_type arguments messages);
    if negb (existsb (String.eqb action) ["delete"; "timeout"; "report"])
    then raise (mkExn "ValueError" "Invalid action")
    else mret (Some (mkScan action dry_run matches)).

(** The locals the action loop updates. *)
Record Applied : Type := mkApplied {
  applied : Z;
  errors : list string;
  timed_out : list Z
}.

(** The body of the [try] of the action loop, for one matched message. *)
Definition moderate_message (action : string) (arguments : dict) (acc : Applied) (msg : Message)
    : M Applied :=
  let reason := "Auto-moderated via MCP" in
  if String.eqb action "delete" then
    request (CDelete (message_id msg) reason)
            (fun h => outcome (message_delete discord h msg reason));;
    mret (mkApplied (applied acc + 1) (errors acc) (timed_out acc))
  else if String.eqb action "timeout" then
    if negb (dict_mem "timeout_minutes" arguments)
    then raise (mkExn "ValueError" "timeout_minutes required for timeout action")
    else if message_author_is_member msg
            && negb (existsb (Z.eqb (message_author_id msg)) (timed_out acc))
    then
      timeout_minutes ← lift (py_index arguments "timeout_minutes");
      _ ← lift (minutes py timeout_minutes);
      request (CTimeout (message_author_id msg) timeout_minutes reason)
              (fun h => outcome (author_timeout discord h msg timeout_minutes reason));;
      mret (mkApplied (applied acc + 1) (errors acc) (message_author_id msg :: timed_out acc))
    else mret acc
  else mret acc.

(** [for msg in matches: try: ... except Exception as exc: errors.append(...)]. *)
Fixpoint moderate (action : string) (arguments : dict) (acc : Applied) (matches : list Message)
    : M Applied :=
  match matches with
  | [] => mret acc
  | msg :: rest =>
      acc ← try_except (moderate_message action arguments acc msg)
              (fun exc =>
                 mret (mkApplied (applied acc)
                                 (errors acc ++ [str_of_Z (message_id msg) +:+ ": " +:+ exn_text exc])
                                 (timed_out acc)));
      moderate action arguments acc rest
  end.

(** The text the tool returns. *)
Definition moderation_report (sc : Scan) (acc : Applied) : string :=
  let matches := scan_matches sc in
  let result_lines :=
    [ "Matched messages: " +:+ str_of_Z (Z.of_nat (length matches));
      "Action: " +:+ scan_action sc;
      "Dry run: " +:+ py_str py (scan_dry_run sc);
      "Applied: " +:+ str_of_Z (applied acc) ]
    ++ (match matches with
        | [] => []
        | _ => ["Sample IDs: "
                +:+ join ", " (map (fun msg => str_of_Z (message_id msg)) (take 10 matches))]
        end)
    ++ (match errors acc with
        | [] => []
        | _ => ["Errors:" +:+ newline +:+ join newline (errors acc)]
        end) in
  join newline result_lines.

(** The tool [auto_moderate_by_pattern]: its text, and with it the scan it
    reported on. *)
Definition auto_moderate_by_pattern (arguments : dict) : M (option Scan * list Content) :=
  scanned ← moderation_scan arguments;
  match scanned with
  | None => mret (None, [TextContent "Channel does not support message history."])
  | Some sc =>
      acc ← (if negb (String.eqb (scan_action sc) "report") && negb (truthy (scan_dry_run sc))
             then moderate (scan_action sc) arguments (mkApplied 0 [] []) (scan_matches sc)
             else mret (mkApplied 0 [] []));
      mret (Some sc, [TextContent (moderation_report sc acc)])
  end.

(** ** The deferred-task scheduler *)

(** [parse_timestamp(value)]. *)
Definition parse_timestamp (value : pyval) : Exn + option Z :=
  match value with
  | VNone => inr None
  | VBool _ | VInt _ | VFloat _ =>
      t ← fromtimestamp py value; inr (Some t)
  | VStr s =>
      if isdigit py (strip py s) then
        n ← py_int py value;
        t ← fromtimestamp py (VInt n);
        inr (Some t)
      else
        let cleaned := strip py s in
        let cleaned := if ends_with_Z cleaned then drop_last cleaned +:+ "+00:00" else cleaned in
        t ← fromisoformat py cleaned;
        inr (Some t)
  | _ => inl (mkExn "ValueError" "Invalid timestamp format")
  end.

(** [resolve_run_at(args)]; [now] is the clock's reading. *)
Definition resolve_run_at (now : Z) (args : dict) : Exn + Z :=
  run_at ←
    (if dict_mem "run_at" args && truthy (dict_get args "run_at" VNone) then
       parse_timestamp (dict_get args "run_at" VNone)
     else if dict_mem "delay_seconds" args then
       seconds ← py_float py (dict_get args "delay_seconds" VNone);
       t ← add_seconds py now seconds;
       inr (Some t)
     else inl (mkExn "ValueError" "run_at or delay_seconds is required"));
  match run_at : option Z with
  | None => inl (mkExn "ValueError" "Invalid run_at value")
  | Some t => inr t
  end.

(** [next_scheduled_task_id()]. *)
Definition next_scheduled_task_id : M string :=
  fun st =>
    let n := scheduled_task_counter st + 1 in
    (inr (str_of_Z n), with_task_counter st n).

Definition allowed : list string := ["send_message"; "bulk_add_roles"; "bulk_modify_members"].

(** [if task_type not in allowed: raise ValueError(...)]; a list or a dict is
    unhashable, and the test itself raises. *)
Definition check_task_type (task_type : pyval) : Exn + string :=
  match task_type with
  | VStr s =>
      if existsb (String.eqb s) allowed then inr s
      else inl (mkExn "ValueError" "Unsupported task_type")
  | VList _ | VDict _ =>
      inl (mkExn "TypeError" ("unhashable type: '" +:+ type_name task_type +:+ "'"))
  | _ => inl (mkExn "ValueError" "Unsupported task_type")
  end.

(** [scheduled_tasks[task_id] = {...}] followed by
    [asyncio.create_task(run_scheduled_task(task_id, run_at, task_callable))]. *)
Definition submit (task_id task_type : string) (run_at created_at : Z) (payload : pyval)
    : M unit :=
  modify (fun st =>
    with_tasks st
      (<[task_id := mkTask task_id task_type (isoformat py run_at) (isoformat py created_at)
                           "scheduled" payload None None]> (scheduled_tasks st)));;
  modify (fun st =>
    with_runners st (runners st ++ [mkRunner task_id task_type payload Sleeping])).

(** The tool [schedule_task]; [now] and [created_at] are the two readings of
    the clock. *)
Definition schedule_task (now created_at : Z) (arguments : dict) : M (list Content) :=
  task_type ← lift (py_index arguments "task_type");
  let payload := dict_get arguments "task_payload" (VDict []) in
  task_type ← lift (check_task_type task_type);
  run_at ← lift (resolve_run_at now arguments);
  task_id ← next_scheduled_task_id;
  submit task_id task_type run_at created_at payload;;
  mret [TextContent ("Scheduled task " +:+ task_id +:+ " (" +:+ task_type +:+ ") for "
                     +:+ isoformat py run_at)].

(** The tool [send_scheduled_message]. *)
Definition send_scheduled_message (now created_at : Z) (arguments : dict) : M (list Content) :=
  run_at ← lift (resolve_run_at now arguments);
  channel_id ← lift (py_index arguments "channel_id");
  content ← lift (py_index arguments "content");
  let payload := VDict [("channel_id", channel_id); ("content", content)] in
  task_id ← next_scheduled_task_id;
  submit task_id "send_message" run_at created_at payload;;
  mret [TextContent ("Scheduled message " +:+ task_id +:+ " for " +:+ isoformat py run_at)].

(** [call_tool(name, arguments)] under [require_discord_client]: the tools
    embedded here, and Discord's answer for the ones that only forward a
    request. *)
Definition call_tool (now created_at : Z) (name : string) (arguments : pyval)
    : M (list Content) :=
  st ← get_state;
  if negb (discord_client st) then raise (mkExn "RuntimeError" "Discord client not ready")
  else
    let forwarded :=
      request (CTool name arguments) (fun h => proxied_tool discord h name arguments) in
    match arguments with
    | VDict d =>
        if String.eqb name "schedule_task" then schedule_task now created_at d
        else if String.eqb name "send_scheduled_message" then send_scheduled_message now created_at d
        else if String.eqb name "create_automation_rule" then
          create_automation_rule (isoformat py created_at) d
        else if String.eqb name "auto_moderate_by_pattern" then
          r ← auto_moderate_by_pattern d; mret (snd r)
        else forwarded
    | _ => forwarded
    end.

(** [run_scheduled_task] from the end of its sleep to its first [await]: the
    lookup, the early return for a task that is gone, the move to [running].
    [i] is the coroutine's place in [runners]. *)
Definition run_scheduled_task_wake (i : nat) (task_id : string) : M unit :=
  st ← get_state;
  match scheduled_tasks st !! task_id with
  | None =>
      modify (fun st => with_runners st (alter (set_pc Finished) i (runners st)))
  | Some task_entry =>
      modify (fun st =>
        with_tasks st (<[task_id := set_status "running" task_entry]> (scheduled_tasks st)));;
      modify (fun st => with_runners st (alter (set_pc Awaiting) i (runners st)))
  end.

(** [task_entry["result"] = ...] when [result] is not empty. *)
Definition store_result (result : list Content) (t : Task) : Task :=
  match result with
  | [] => t
  | TextContent text :: _ => set_result text t
  | OtherContent :: _ => set_result (repr_contents py result) t
  end.

(** [run_scheduled_task] from [await task_callable()] to its end.  The
    coroutine writes to the dict it looked up, which is the one the store holds
    under [task_id]: no code removes or replaces an entry. *)
Definition run_scheduled_task_finish (now created_at : Z) (i : nat) (r : Runner) : M unit :=
  let task_id := runner_task_id r in
  try_except
    (result ← call_tool now created_at (runner_task_type r) (runner_payload r);
     modify (fun st =>
       with_tasks st (alter (fun t => store_result result (set_status "completed" t))
                            task_id (scheduled_tasks st))))
    (fun exc =>
       modify (fun st =>
         with_tasks st (alter (fun t => set_error (exn_text exc) (set_status "failed" t))
                              task_id (scheduled_tasks st)));;
       logger ERROR ("Scheduled task failed: " +:+ task_id));;
  modify (fun st => with_runners st (alter (set_pc Finished) i (runners st))).

(** [on_ready] and [on_disconnect]. *)
Definition set_client (b : bool) (st : State) : State :=
  mkState b (scheduled_tasks st) (scheduled_task_counter st)
          (automation_rules st) (automation_rule_counter st) (api_calls st) (log st)
          (runners st).

Definition on_ready (bot_name : string) : M unit :=
  modify (set_client true);;
  logger INFO ("Logged in as " +:+ bot_name).

Definition on_disconnect : M unit :=
  modify (set_client false);;
  logger WARNING "Discord bot disconnected".

End Embedding.

(** ** The loop of bulk_add_roles *)

Section Bulk.

Context (py : Python) (discord : Discord).

(** The two lists the loop of [bulk_add_roles] fills. *)
Record Tally : Type := mkTally {
  success_ids : list string;
  failed : list string
}.

(** One turn of the loop of [bulk_add_roles], for the guild the tool has
    fetched, the role it has looked up in it and the reason it passes on (a
    str): the [try] with its handler. *)
Definition bulk_add_role (guild : Guild) (role : Role) (reason : string) (tally : Tally)
    (user_id : pyval) : M Tally :=
  try_except
    (uid ← lift (py_int py user_id);
     member ← request (CFetchMember (guild_id guild) uid)
                      (fun h => fetch_member discord h guild uid);
     request (CAddRoles (member_id member) (id_of_role role) reason)
             (fun h => outcome (add_roles discord h member role reason));;
     mret (mkTally (success_ids tally ++ [str_of_Z (member_id member)]) (failed tally)))
    (fun exc =>
       mret (mkTally (success_ids tally)
                     (failed tally ++ [py_str py user_id +:+ ": " +:+ exn_text exc]))).

(** [for user_id in user_ids: ...] on a list of ids. *)
Fixpoint bulk_add_roles_loop (guild : Guild) (role : Role) (reason : string) (tally : Tally)
    (user_ids : list pyval) : M Tally :=
  match user_ids with
  | [] => mret tally
  | user_id :: rest =>
      tally ← bulk_add_role guild role reason tally user_id;
      bulk_add_roles_loop guild role reason tally rest
  end.

End Bulk.

(** ** The event loop *)

(** The module at import. *)
Definition initial : State := mkState false ∅ 0 [] 0 [] [] [].

(** One turn of the event loop: a gateway event is handled, a tool call is
    served, or a coroutine of [run_scheduled_task] runs to its next [await].
    A coroutine may wake at any time after its creation, which covers every
    value of its delay.  A handler or a tool call is taken in one piece: the
    awaits inside it are requests to Discord, and the scheduler's data is
    written only in stretches of code without an await (the submission, the
    wake, the end of the run), which are the turns below.  A handler
    writes requests and log records only, also when other turns interleave
    with it or the iteration of its loop ends it early; the stores are written
    by the tool calls and the coroutines.  The turn of the end of a run begins
    at the test of the client, which the program makes in the stretch of the
    wake; the two stretches meet at [await task_callable()]. *)
Inductive step (py : Python) (discord : Discord) : State -> State -> Prop :=
| step_ready bot_name st :
    step py discord st (on_ready bot_name st).2
| step_disconnect st :
    step py discord st (on_disconnect st).2
| step_member_join member st :
    step py discord st (on_member_join py discord member st).2
| step_reaction_add reaction user st :
    step py discord st (on_reaction_add py discord reaction user st).2
| step_reaction_remove reaction user st :
    step py discord st (on_reaction_remove py discord reaction user st).2
| step_tool now created_at name arguments st :
    step py discord st (call_tool py discord now created_at name arguments st).2
| step_wake i r st :
    runners st !! i = Some r ->
    runner_pc r = Sleeping ->
    step py discord st (run_scheduled_task_wake i (runner_task_id r) st).2
| step_finish now created_at i r st :
    runners st !! i = Some r ->
    runner_pc r = Awaiting ->
    step py discord st (run_scheduled_task_finish py discord now created_at i r st).2.

(** The states the module can be in. *)
Definition reachable (py : Python) (discord : Discord) (st : State) : Prop :=
  rtc (step py discord) initial st.

(** The moves of a task's status that the lifecycle allows. *)
Inductive transition : string -> string -> Prop :=
| scheduled_running : transition "scheduled" "running"
| running_completed : transition "running" "completed"
| running_failed : transition "running" "failed".

(** ** An executable instance *)

(** ASCII text and integer arguments; what it does not cover raises. *)
Module Instance.

Definition unsupported {A} (what : string) : Exn + A := inl (mkExn "NotImplementedError" what).

Definition decimal (s : string) : Exn + Z :=
  match NilEmpty.int_of_string s with
  | Some d => if String.eqb s "" then inl (mkExn "ValueError" "invalid literal for int()")
              else inr (Z.of_int d)
  | None => inl (mkExn "ValueError" "invalid literal for int()")
  end.

Definition upper_case (c : N) : bool := ((65 <=? c) && (c <=? 90))%N.
Definition lower_case (c : N) : bool := ((97 <=? c) && (c <=? 122))%N.
Definition white (c : ascii) : bool :=
  let n := N_of_ascii c in ((n =? 32) || ((9 <=? n) && (n <=? 13)))%N.

Fixpoint lstrip (s : string) : string :=
  match s with
  | String c rest => if white c then lstrip rest else s
  | EmptyString => EmptyString
  end.

Fixpoint rstrip (s : string) : string :=
  match s with
  | String c rest =>
      match rstrip rest with
      | EmptyString => if white c then EmptyString else String c EmptyString
      | rest' => String c rest'
      end
  | EmptyString => EmptyString
  end.

Fixpoint map_string (f : ascii -> ascii) (s : string) : string :=
  match s with
  | String c rest => String (f c) (map_string f rest)
  | EmptyString => EmptyString
  end.

Definition to_lower (c : ascii) : ascii :=
  let n := N_of_ascii c in if upper_case n then ascii_of_N (n + 32) else c.

Definition all_digits (s : string) : bool :=
  negb (String.eqb s "")
  && forallb (fun c => let n := N_of_ascii c in ((48 <=? n) && (n <=? 57))%N)
             (list_ascii_of_string s).

Definition ascii_python : Python := {|
  int_of_str := decimal;
  int_of_other := fun _ => inl (mkExn "TypeError" "int() argument must be a string or a number");
  float_of := fun v =>
    match v with
    | VInt z => if 0 <=? z then inr (PrimFloat.of_uint63 (Uint63.of_Z z))
                else unsupported "float of a negative int"
    | _ => inl (mkExn "TypeError" "float() argument must be a string or a number")
    end;
  repr := fun _ => "<repr>";
  repr_contents := fun _ => "<repr>";
  chars := fun s => map N_of_ascii (list_ascii_of_string s);
  isalpha := fun c => upper_case c || lower_case c;
  isupper := upper_case;
  strip := fun s => rstrip (lstrip s);
  lower := map_string to_lower;
  isdigit := all_digits;
  fromtimestamp := fun v =>
    match v with
    | VInt z => inr (z * 1000000)
    | _ => unsupported "fromtimestamp of a float"
    end;
  fromisoformat := fun _ => unsupported "fromisoformat";
  isoformat := str_of_Z;
  add_seconds := fun _ _ => unsupported "timedelta of a float";
  minutes := fun v =>
    match v with
    | VInt z => inr (z * 60000000)
    | _ => inl (mkExn "TypeError" "unsupported type for timedelta minutes component")
    end
|}.

(** The role ids a member holds after the requests [h]: Discord adds a role
    the member lacks and removes one the member has. *)
Fixpoint roles_after (uid : Z) (h : list Call) (held : list Z) : list Z :=
  match h with
  | [] => held
  | CAddRoles mid rid _ :: rest =>
      roles_after uid rest
        (if (mid =? uid) && negb (existsb (Z.eqb rid) held) then held ++ [rid] else held)
  | CRemoveRoles mid rid _ :: rest =>
      roles_after uid rest
        (if mid =? uid then List.filter (fun r => negb (r =? rid)) held else held)
  | _ :: rest => roles_after uid rest held
  end.

(** A Discord in which every channel exists and every request succeeds,
    except that sending to channel 13 is forbidden; a fetched member holds the
    roles the requests so far have given. *)
Definition forbidden : Exn := mkExn "Forbidden" "403 Forbidden (error code: 50013): Missing Permissions".

Definition friendly : Discord := {|
  fetch_channel := fun _ cid => inr (mkChannel cid true);
  channel_send := fun _ channel _ => if id_of_channel channel =? 13 then Some forbidden else None;
  fetch_member := fun h guild uid =>
    inr (mkMember uid "alice" ("<@" +:+ str_of_Z uid +:+ ">")
                  (omap (get_role guild) (roles_after uid h [])) guild None);
  add_roles := fun _ _ _ _ => None;
  remove_roles := fun _ _ _ _ => None;
  channel_history := fun _ _ _ => inr [];
  message_delete := fun _ _ _ => None;
  author_timeout := fun _ _ _ _ => None;
  proxied_tool := fun _ name _ => inr [TextContent (name +:+ " done")]
|}.

Definition member_role : Role := mkRole 7 "Member".
Definition guild : Guild := mkGuild 1 "Rocq Club" [member_role].
Definition bob : Member := mkMember 42 "bob" "<@42>" [] guild None.

Definition thumbs_up : Reaction := mkReaction "👍" (mkReactedMessage 99 guild true).
Definition alice : User := mkUser 5 false.
Definition a_bot : User := mkUser 6 true.

(** The module after [on_ready]. *)
Definition ready : State := (on_ready "bot" initial).2.

Definition created_at : string := "2026-01-01T00:00:00+00:00".

(** A rule as [create_automation_rule] stores it. *)
Definition stored (rule_id name trigger_type action_type : string) (trigger_value : pyval)
    (action_payload : dict) (enabled : bool) : dict :=
  [ ("id", VStr rule_id); ("server_id", VNone); ("name", VStr name);
    ("trigger_type", VStr trigger_type); ("trigger_value", trigger_value);
    ("action_type", VStr action_type); ("action_payload", VDict action_payload);
    ("enabled", VBool enabled); ("created_at", VStr created_at) ].

(** A stored reaction-role rule, switched on or off, that takes the role back
    on removal or keeps it. *)
Definition role_rule (enabled : bool) (remove_on_unreact : bool) : dict :=
  stored "1" "roles" "reaction_added" "assign_role" (VStr "👍")
         [("role_id", VStr "7"); ("remove_on_unreact", VBool remove_on_unreact)] enabled.




(** The state after [create_automation_rule(arguments)]. *)
Definition with_rule (arguments : dict) (st : State) : State :=
  (create_automation_rule ascii_python created_at arguments st).2.

(** A join rule that posts to [channel_id]. *)
Definition post_rule (name channel_id content : string) : dict :=
  [ ("name", VStr name);
    ("trigger_type", VStr "member_join");
    ("action_type", VStr "send_message");
    ("action_payload", VDict [("channel_id", VStr channel_id); ("content", VStr content)]) ].

(** A reaction rule that posts to channel 1. *)
Definition echo_rule : dict :=
  [ ("name", VStr "echo");
    ("trigger_type", VStr "reaction_added");
    ("action_type", VStr "send_message");
    ("action_payload", VDict [("channel_id", VStr "1");
                              ("content", VStr "{username} reacted in {server}")]) ].

(** Rules that give role 7, on a join and on a reaction. *)
Definition greeter_rule : dict :=
  [ ("name", VStr "greeter");
    ("trigger_type", VStr "member_join");
    ("action_type", VStr "assign_role");
    ("action_payload", VDict [("role_id", VStr "7")]) ].

Definition reaction_role_rule : dict :=
  [ ("name", VStr "roles");
    ("trigger_type", VStr "reaction_added");
    ("trigger_value", VStr "👍");
    ("action_type", VStr "assign_role");
    ("action_payload", VDict [("role_id", VStr "7")]) ].

(** [bob] once he holds role 7. *)
Definition bob_with_role : Member := mkMember 42 "bob" "<@42>" [member_role] guild None.

(** A message scheduled for an epoch time, then woken, then run. *)
Definition later : pyval :=
  VDict [("run_at", VStr "1700000000"); ("channel_id", VStr "1"); ("content", VStr "hello")].

Definition later_payload : pyval := VDict [("channel_id", VStr "1"); ("content", VStr "hello")].

Definition task_submitted : State :=
  (call_tool ascii_python friendly 0 0 "send_scheduled_message" later ready).2.

Definition task_running : State :=
  (run_scheduled_task_wake 0 (runner_task_id (mkRunner "1" "send_message" later_payload Sleeping))
                           task_submitted).2.

Definition task_done : State :=
  (run_scheduled_task_finish ascii_python friendly 0 0 0
     (mkRunner "1" "send_message" later_payload Awaiting) task_running).2.

(** A reaction rule, switched on or off, whose payload is not a dict. *)
Definition broken_rule (enabled : bool) : dict :=
  [ ("id", VStr "3"); ("server_id", VNone); ("name", VStr "broken");
    ("trigger_type", VStr "reaction_added"); ("trigger_value", VNone);
    ("action_type", VStr "assign_role"); ("action_payload", VInt 5);
    ("enabled", VBool enabled); ("created_at", VStr created_at) ].

(** A member of the history of channel 1 in capitals, and one without
    letters. *)
Definition shouting : Message := mkMessage 100 5 true (Some "STOP SPAMMING ME NOW") [] [].
Definition digits : Message := mkMessage 101 5 true (Some "1234567890 1234567890") [] [].
Definition calm : Message := mkMessage 102 5 true (Some "please stop spamming me") [] [].

(** The arguments of the rule of the specification's end-to-end example. *)
Definition welcome_rule : dict :=
  [ ("name", VStr "welcome");
    ("trigger_type", VStr "member_join");
    ("action_type", VStr "send_message");
    ("action_payload", VDict [("channel_id", VStr "1"); ("content", VStr "Welcome {username}!")]) ].






(** A Discord in which the bot gives a role once and is refused afterwards,
    its permission withdrawn; a fetched member holds the roles the requests
    so far have given. *)
Definition revoking : Discord := {|
  fetch_channel := fun _ cid => inr (mkChannel cid true);
  channel_send := fun _ _ _ => None;
  fetch_member := fun h guild uid =>
    inr (mkMember uid "alice" ("<@" +:+ str_of_Z uid +:+ ">")
                  (omap (get_role guild) (roles_after uid h [])) guild None);
  add_roles := fun h _ _ _ =>
    if existsb (fun c => match c with CAddRoles _ _ _ => true | _ => false end) h
    then Some forbidden else None;
  remove_roles := fun _ _ _ _ => None;
  channel_history := fun _ _ _ => inr [];
  message_delete := fun _ _ _ => None;
  author_timeout := fun _ _ _ _ => None;
  proxied_tool := fun _ name _ => inr [TextContent (name +:+ " done")]
|}.

(** A Discord that refuses the first timeout it is asked for and grants the
    ones after it. *)
Definition moody : Discord := {|
  fetch_channel := fun _ cid => inr (mkChannel cid true);
  channel_send := fun _ _ _ => None;
  fetch_member := fun _ guild uid =>
    inr (mkMember uid "alice" ("<@" +:+ str_of_Z uid +:+ ">") [] guild None);
  add_roles := fun _ _ _ _ => None;
  remove_roles := fun _ _ _ _ => None;
  channel_history := fun _ _ _ => inr [];
  message_delete := fun _ _ _ => None;
  author_timeout := fun h _ _ _ =>
    if existsb (fun c => match c with CTimeout _ _ _ => true | _ => false end) h
    then None else Some forbidden;
  proxied_tool := fun _ name _ => inr [TextContent (name +:+ " done")]
|}.

(** Messages of two other authors: a member, and a user who has left. *)
Definition other : Message := mkMessage 106 6 true (Some "buy now") [] [].
Definition departed : Message := mkMessage 107 8 false (Some "buy now") [] [].

End Instance.

(** ** Notions the properties are stated with *)

Section Notions.

Context (py : Python).

(** The share of uppercase letters among [letters], as a float. *)
Definition uppercase_ratio (letters : list N) : float :=
  PrimFloat.div
    (PrimFloat.of_uint63 (Uint63.of_Z (Z.of_nat (length (List.filter (isupper py) letters)))))
    (PrimFloat.of_uint63 (Uint63.of_Z (Z.of_nat (length letters)))).

(** What the specification asks of [caps_spam]: a message is flagged when it
    has letters, their uppercase share reaches the ratio, and its length
    reaches the minimum. *)
Definition caps_flagged (caps_ratio : float) (min_length : Z) (msg : Message) : bool :=
  let content := content_or_empty msg in
  match letters_of py content with
  | [] => false
  | letters => float_ge (uppercase_ratio letters) caps_ratio && (min_length <=? py_len py content)
  end.

End Notions.

(** What the specification asks of a message template: the four placeholders
    replaced from the event's context. *)
Definition render_placeholders (content user username server emoji : string) : string :=
  str_replace
    (str_replace (str_replace (str_replace content "{user}" user) "{username}" username)
                 "{server}" server)
    "{emoji}" emoji.

(** The requests that only read from Discord. *)
Definition is_read (c : Call) : bool :=
  match c with
  | CFetchChannel _ | CFetchMember _ _ | CHistory _ _ => true
  | _ => false
  end.

(** The arguments of a tool call with [dry_run] set. *)
Definition with_dry_run (b : bool) (arguments : dict) : dict := ("dry_run", VBool b) :: arguments.

(** The ids of the matched messages of a scan, where there is one. *)
Definition matched_ids {A} (r : (Exn + option Scan) * A) : Exn + option (list Z) :=
  match r.1 with
  | inl e => inl e
  | inr None => inr None
  | inr (Some sc) => inr (Some (map message_id (scan_matches sc)))
  end.

(** [st'] differs from [st] at most in the requests sent and the log. *)
Definition io_only (st st' : State) : Prop :=
  with_calls (with_log st' (log st)) (api_calls st) = st.

(** [st'] has the scheduler of [st]: its tasks, its counter, its coroutines. *)
Definition same_scheduler (st st' : State) : Prop :=
  scheduled_tasks st' = scheduled_tasks st
  /\ scheduled_task_counter st' = scheduled_task_counter st
  /\ runners st' = runners st.


(** A computation whose final state is always related to its first one. *)
Definition keeps (R : State -> State -> Prop) {A} (m : M A) : Prop :=
  forall st, R st (m st).2.

(** How the place of a coroutine and the status of its task go together. *)
Definition coupled (pc : PC) (status : string) : Prop :=
  match pc with
  | Sleeping => status = "scheduled"
  | Awaiting => status = "running"
  | Finished => status = "completed" \/ status = "failed"
  end.

(** A status no transition leaves. *)
Definition terminal (status : string) : Prop := status = "completed" \/ status = "failed".

(** What holds of the scheduler in every reachable state: each coroutine's
    task is in the store, with the status that goes with the coroutine's
    place; the ids in the store are the counter's earlier values; no two
    coroutines run the same task. *)
Record scheduler_invariant (st : State) : Prop := mkInvariant {
  inv_coupled : forall i r,
    runners st !! i = Some r ->
    exists t, scheduled_tasks st !! runner_task_id r = Some t
              /\ coupled (runner_pc r) (task_status t);
  inv_ids : forall id t,
    scheduled_tasks st !! id = Some t ->
    exists n, id = str_of_Z n /\ n <= scheduled_task_counter st;
  inv_owner : forall id t,
    scheduled_tasks st !! id = Some t ->
    exists i r, runners st !! i = Some r /\ runner_task_id r = id;
  inv_nodup : NoDup (map runner_task_id (runners st))
}.

(** [st'] is [st] after one submission. *)
Definition submitted (py : Python) (st st' : State) : Prop :=
  exists task_type run_at created_at payload,
    let task_id := str_of_Z (scheduled_task_counter st + 1) in
    scheduled_tasks st'
    = <[task_id := mkTask task_id task_type (isoformat py run_at) (isoformat py created_at)
                          "scheduled" payload None None]> (scheduled_tasks st)
    /\ scheduled_task_counter st' = scheduled_task_counter st + 1
    /\ runners st' = runners st ++ [mkRunner task_id task_type payload Sleeping].

(** What one turn of the event loop may do to the tasks: a task in the store
    stays, with its status as it was or moved along one allowed transition;
    a task that enters the store enters as [scheduled]. *)
Definition lifecycle_step (st st' : State) : Prop :=
  (forall id t,
     scheduled_tasks st !! id = Some t ->
     exists t', scheduled_tasks st' !! id = Some t'
                /\ (task_status t' = task_status t
                    \/ transition (task_status t) (task_status t')))
  /\ (forall id t',
        scheduled_tasks st !! id = None ->
        scheduled_tasks st' !! id = Some t' ->
        task_status t' = "scheduled").

(** Between [st] and [st'] no task in the store has changed, and a task that
    has entered it is [scheduled]. *)
Definition quiet_step (st st' : State) : Prop :=
  (forall id t, scheduled_tasks st !! id = Some t -> scheduled_tasks st' !! id = Some t)
  /\ (forall id t',
        scheduled_tasks st !! id = None ->
        scheduled_tasks st' !! id = Some t' ->
        task_status t' = "scheduled")
  /\ (forall i r, runners st !! i = Some r -> runners st' !! i = Some r).

(** ** Notions for the further properties *)

(** [st'] has the rules and the rule counter of [st]. *)
Definition same_rules (st st' : State) : Prop :=
  automation_rules st' = automation_rules st
  /\ automation_rule_counter st' = automation_rule_counter st.

(** What holds of the rule store in every reachable state: the ids are
    earlier values of the counter, each rule carries its own id, and no id is
    stored twice. *)
Record rules_invariant (st : State) : Prop := mkRulesInvariant {
  rule_ids : forall id rule,
    (id, rule) ∈ automation_rules st ->
    exists n, id = str_of_Z n /\ 1 <= n <= automation_rule_counter st;
  rule_self : forall id rule,
    (id, rule) ∈ automation_rules st -> dict_lookup "id" rule = Some (VStr id);
  rule_nodup : NoDup (map fst (automation_rules st));
  rule_counter : 0 <= automation_rule_counter st
}.

(** What one turn of the event loop may do to the rule store: nothing, or
    use up an id, or store one rule under the next id. *)
Definition rules_step (st st' : State) : Prop :=
  (automation_rules st' = automation_rules st
   /\ (automation_rule_counter st' = automation_rule_counter st
       \/ automation_rule_counter st' = automation_rule_counter st + 1))
  \/ (exists rule,
        automation_rules st'
        = store_set (str_of_Z (automation_rule_counter st + 1)) rule (automation_rules st)
        /\ automation_rule_counter st' = automation_rule_counter st + 1
        /\ dict_lookup "id" rule = Some (VStr (str_of_Z (automation_rule_counter st + 1)))).

(** The entries of a task's record that are written once, at submission. *)
Definition same_record (t t' : Task) : Prop :=
  task_id t' = task_id t
  /\ task_type t' = task_type t
  /\ task_run_at t' = task_run_at t
  /\ task_created_at t' = task_created_at t
  /\ task_payload t' = task_payload t.

(** How the [result] and [error] entries of a record go with its status. *)
Definition outcome_by_status (t : Task) : Prop :=
  (task_status t = "scheduled" \/ task_status t = "running" ->
   task_result t = None /\ task_error t = None)
  /\ (task_status t = "completed" -> task_error t = None)
  /\ (task_status t = "failed" -> task_result t = None /\ is_Some (task_error t)).

(** [st'] is [st] after the submission of a task of type [task_type], due at
    [run_at], with [payload]. *)
Definition submitted_as (py : Python) (task_type : string) (run_at created_at : Z)
    (payload : pyval) (st st' : State) : Prop :=
  let task_id := str_of_Z (scheduled_task_counter st + 1) in
  scheduled_tasks st'
  = <[task_id := mkTask task_id task_type (isoformat py run_at) (isoformat py created_at)
                        "scheduled" payload None None]> (scheduled_tasks st)
  /\ scheduled_task_counter st' = scheduled_task_counter st + 1
  /\ runners st' = runners st ++ [mkRunner task_id task_type payload Sleeping].

(** What a tool call does to the scheduler: nothing, or one submission of a
    task of an allowed type. *)
Definition served (py : Python) (st st' : State) : Prop :=
  same_scheduler st st'
  \/ exists task_type run_at created_at payload,
       task_type ∈ allowed /\ submitted_as py task_type run_at created_at payload st st'.

(** A coroutine's move: the record of task [id] is rewritten by [f], and the
    [i]-th coroutine is at [pc]. *)
Definition advanced (f : Task -> Task) (id : string) (i : nat) (pc : PC) (st st' : State)
    : Prop :=
  scheduled_tasks st' = alter f id (scheduled_tasks st)
  /\ scheduled_task_counter st' = scheduled_task_counter st
  /\ runners st' = alter (set_pc pc) i (runners st).

(** The two ways [run_scheduled_task] closes a record. *)
Definition closing (py : Python) (f : Task -> Task) : Prop :=
  (exists result, f = fun t => store_result py result (set_status "completed" t))
  \/ (exists exc, f = fun t => set_error (exn_text exc) (set_status "failed" t)).

(** What one turn of the event loop does to the scheduler, in a state that
    satisfies [scheduler_invariant]: what a tool call does, or a coroutine
    wakes, or a coroutine's callable is served and the record is closed. *)
Inductive turn (py : Python) (st st' : State) : Prop :=
| turn_served :
    served py st st' -> turn py st st'
| turn_wake i r :
    runners st !! i = Some r ->
    runner_pc r = Sleeping ->
    advanced (set_status "running") (runner_task_id r) i Awaiting st st' ->
    turn py st st'
| turn_finish i r f st1 :
    runners st !! i = Some r ->
    runner_pc r = Awaiting ->
    served py st st1 ->
    closing py f ->
    advanced f (runner_task_id r) i Finished st1 st' ->
    turn py st st'.

(** What holds of the task records in every reachable state: a record carries
    the id it is stored under and an allowed type; the [i]-th coroutine runs
    the task of the [i]-th id handed out, with the type and the payload of its
    record; there are as many coroutines as ids handed out; the outcome
    entries go with the status. *)
Record records_invariant (st : State) : Prop := mkRecordsInvariant {
  rec_self : forall id t, scheduled_tasks st !! id = Some t -> task_id t = id;
  rec_type : forall id t, scheduled_tasks st !! id = Some t -> task_type t ∈ allowed;
  rec_place : forall i r,
    runners st !! i = Some r -> runner_task_id r = str_of_Z (Z.of_nat i + 1);
  rec_closure : forall i r t,
    runners st !! i = Some r ->
    scheduled_tasks st !! runner_task_id r = Some t ->
    task_type t = runner_task_type r /\ task_payload t = runner_payload r;
  rec_count : Z.of_nat (length (runners st)) = scheduled_task_counter st;
  rec_outcome : forall id t, scheduled_tasks st !! id = Some t -> outcome_by_status t
}.

(** [st'] is [st] with requests added, each of which satisfies [P]. *)
Definition sends (P : Call -> bool) (st st' : State) : Prop :=
  exists added, api_calls st' = api_calls st ++ added /\ forallb P added = true.

(** [st'] differs from [st] at most in the requests sent. *)
Definition calls_only (st st' : State) : Prop := with_calls st' (api_calls st) = st.

(** The requests of [on_member_join] for the member [mid]. *)
Definition join_request (mid : Z) (c : Call) : bool :=
  match c with
  | CFetchChannel _ | CSend _ _ => true
  | CAddRoles m _ _ => m =? mid
  | _ => false
  end.

(** The requests of [on_reaction_add] and of [on_reaction_remove]. *)
Definition reaction_add_request (c : Call) : bool :=
  match c with
  | CFetchMember _ _ | CFetchChannel _ | CSend _ _ | CAddRoles _ _ _ => true
  | _ => false
  end.

Definition reaction_remove_request (c : Call) : bool :=
  match c with
  | CFetchMember _ _ | CRemoveRoles _ _ _ => true
  | _ => false
  end.

(** The requests of the scan of [auto_moderate_by_pattern]: the channel, and
    a window of its history of at most 1000 messages. *)
Definition scan_request (c : Call) : bool :=
  match c with
  | CFetchChannel _ => true
  | CHistory _ limit => limit <=? 1000
  | _ => false
  end.

(** The requests of the action loop of [auto_moderate_by_pattern] on
    [matches]: the deletion of a matched message, and the timeout of the
    author of one, when the author is a member. *)
Definition delete_of (matches : list Message) (c : Call) : bool :=
  match c with
  | CDelete mid reason =>
      existsb (fun msg => message_id msg =? mid) matches
      && String.eqb reason "Auto-moderated via MCP"
  | _ => false
  end.

Definition timeout_of (matches : list Message) (c : Call) : bool :=
  match c with
  | CTimeout uid _ reason =>
      existsb (fun msg => (message_author_id msg =? uid) && message_author_is_member msg)
              matches
      && String.eqb reason "Auto-moderated via MCP"
  | _ => false
  end.

(** A timeout the action loop asks for: the matched message whose author it
    is for, and Discord's answer, [None] when the timeout is granted. *)
Definition Attempt : Type := Message * option Exn.


(** The request of an attempt, for the [timeout_minutes] of the arguments. *)
Definition timeout_call (timeout_minutes : pyval) (a : Attempt) : Call :=
  CTimeout (message_author_id a.1) timeout_minutes "Auto-moderated via MCP".



(** The number of messages of the window with the key [key]. *)
Definition same_key_count (py : Python) (key : Z * string) (messages : list Message) : Z :=
  Z.of_nat (length (List.filter (fun msg => bool_decide (repeat_key py msg = Some key))
                                messages)).

(** What [repeated_message] flags: a message with a key that at least
    [repeat_threshold] messages of the window share. *)
Definition repeated (py : Python) (repeat_threshold : Z) (messages : list Message)
    (msg : Message) : bool :=
  match repeat_key py msg with
  | Some key => repeat_threshold <=? same_key_count py key messages
  | None => false
  end.

(** The requests of the loop of [bulk_add_roles]: the fetch of a member of
    the guild, and the addition of the role, with the reason. *)
Definition bulk_request (guild : Guild) (role : Role) (reason : string) (c : Call) : bool :=
  match c with
  | CFetchMember gid _ => gid =? guild_id guild
  | CAddRoles _ rid r => (rid =? id_of_role role) && String.eqb r reason
  | _ => false
  end.

(** * Properties *)

(** ** Reasoning about computations *)

Ltac unfold_M :=
  unfold mbind, M_bind, mret, M_ret, result_bind, bind, ebind, ret, raise, lift,
    modify, logger, request, get_state, try_except, attempt in *.

Lemma bind_returns {A B} (m : M A) (k : A -> M B) st a st' :
  m st = (inr a, st') -> (m ≫= k) st = k a st'.
Proof. intros H. unfold_M. by rewrite H. Qed.

Lemma bind_raises {A B} (m : M A) (k : A -> M B) st e st' :
  m st = (inl e, st') -> (m ≫= k) st = (inl e, st').
Proof. intros H. unfold_M. by rewrite H. Qed.

(** A loop over two lists in a row is the two loops in a row. *)
Lemma for_each_app {A} (body : A -> M unit) (l1 l2 : list A) st :
  for_each body (l1 ++ l2) st = (for_each body l1 ≫= fun _ => for_each body l2) st.
Proof.
  revert st. induction l1 as [|x l1 IH]; intros st; simpl.
  - reflexivity.
  - unfold_M. destruct (body x st) as [[e|[]] st1]; [reflexivity|]. apply IH.
Qed.

(** A turn that returns without a change can be left out of the loop. *)
Lemma for_each_skip {A} (body : A -> M unit) (l1 l2 : list A) x st :
  (forall st1, body x st1 = (inr tt, st1)) ->
  for_each body (l1 ++ x :: l2) st = for_each body (l1 ++ l2) st.
Proof.
  intros Hx. rewrite !for_each_app. unfold_M.
  destruct (for_each body l1 st) as [[e|[]] st1]; [reflexivity|].
  simpl. unfold_M. by rewrite Hx.
Qed.

(** ** Frames *)

#[local] Instance io_only_refl : Reflexive io_only.
Proof. intros []. reflexivity. Qed.

#[local] Instance io_only_trans : Transitive io_only.
Proof.
  intros [] [] []. unfold io_only, with_calls, with_log. simpl.
  intros [= -> -> -> -> -> ->] [= -> -> -> -> -> ->]. reflexivity.
Qed.

#[local] Instance same_scheduler_refl : Reflexive same_scheduler.
Proof. by intros st. Qed.

#[local] Instance same_scheduler_trans : Transitive same_scheduler.
Proof. intros a b c (? & ? & ?) (? & ? & ?). repeat split; congruence. Qed.

Lemma io_only_same_scheduler st st' : io_only st st' -> same_scheduler st st'.
Proof.
  destruct st, st'. unfold io_only, with_calls, with_log. simpl.
  intros [= -> -> -> -> -> ->]. by repeat split.
Qed.

Section Keeps.

Context (R : State -> State -> Prop) `{!Reflexive R} `{!Transitive R}.

Lemma keeps_ret {A} (a : A) : keeps R (mret a).
Proof. intros st. reflexivity. Qed.

Lemma keeps_raise {A} (e : Exn) : keeps R (raise (A:=A) e).
Proof. intros st. reflexivity. Qed.

Lemma keeps_lift {A} (r : Exn + A) : keeps R (lift r).
Proof. intros st. reflexivity. Qed.

Lemma keeps_get_state : keeps R get_state.
Proof. intros st. reflexivity. Qed.

Lemma keeps_bind {A B} (m : M A) (k : A -> M B) :
  keeps R m -> (forall a, keeps R (k a)) -> keeps R (m ≫= k).
Proof.
  intros Hm Hk st. unfold_M. specialize (Hm st).
  destruct (m st) as [[e|a] st1]; simpl in *; [done|].
  etransitivity; [exact Hm | apply Hk].
Qed.

Lemma keeps_try {A} (body : M A) (handler : Exn -> M A) :
  keeps R body -> (forall e, keeps R (handler e)) -> keeps R (try_except body handler).
Proof.
  intros Hm Hk st. unfold_M. specialize (Hm st).
  destruct (body st) as [[e|a] st1]; simpl in *; [|done].
  etransitivity; [exact Hm | apply Hk].
Qed.

Lemma keeps_attempt {A} (body : M A) : keeps R body -> keeps R (attempt body).
Proof. intros Hm st. unfold_M. specialize (Hm st). by destruct (body st). Qed.

Lemma keeps_for_each {A} (body : A -> M unit) (l : list A) :
  (forall x, keeps R (body x)) -> keeps R (for_each body l).
Proof.
  intros Hbody. induction l as [|x l IH]; simpl.
  - apply keeps_ret.
  - apply keeps_bind; auto.
Qed.

Lemma keeps_modify (f : State -> State) : (forall st, R st (f st)) -> keeps R (modify f).
Proof. intros Hf st. apply Hf. Qed.

End Keeps.

Lemma keeps_weaken (R R' : State -> State -> Prop) {A} (m : M A) :
  (forall st st', R st st' -> R' st st') -> keeps R m -> keeps R' m.
Proof. intros HR Hm st. apply HR, Hm. Qed.

Lemma io_only_request {A} (c : Call) (answer : list Call -> Exn + A) :
  keeps io_only (request c answer).
Proof. by intros []. Qed.

Lemma io_only_logger (lvl : Level) (msg : string) : keeps io_only (logger lvl msg).
Proof. by intros []. Qed.

(** Walks a computation built from the combinators, splitting at each
    branch. *)
Ltac keeps_step :=
  first
    [ apply keeps_ret; typeclasses eauto
    | apply keeps_raise; typeclasses eauto
    | apply keeps_lift; typeclasses eauto
    | apply keeps_get_state; typeclasses eauto
    | apply io_only_request | apply io_only_logger
    | apply keeps_attempt
    | (apply keeps_bind; try typeclasses eauto); [|intros ?]
    | (apply keeps_try; try typeclasses eauto); [|intros ?]
    | (apply keeps_for_each; try typeclasses eauto); intros ?
    | match goal with
      | |- keeps _ (if ?b then _ else _) => destruct b
      | |- keeps _ (match ?x with _ => _ end) => destruct x
      end ].

Ltac keeps_io := cbv zeta; repeat (keeps_step; cbv zeta).

(** ** Disabled rules *)

Section Rules.

Context (py : Python) (discord : Discord).

(** C2. A rule whose [enabled] entry is false (or any other falsy value) is
    matched by none of the three handlers, whatever its other entries hold:
    the tests return [false] without raising, even where a test further down
    would raise; the rule's turn of the loop leaves the state as it is, so no
    request is sent and nothing is logged; and each loop runs as if the rule
    were not in the store. *)
Theorem disabled_rule_never_matched (rule_id : string) (rule : dict) :
  truthy (dict_get rule "enabled" (VBool true)) = false ->
  (forall member, member_join_match py member rule = false)
  /\ (forall reaction emoji_str, reaction_match py reaction emoji_str rule = inr false)
  /\ (forall reaction emoji_str, reaction_remove_match py reaction emoji_str rule = inr false)
  /\ (forall member st,
        member_join_rule py discord member (rule_id, rule) st = (inr tt, st))
  /\ (forall reaction member st,
        reaction_add_rule py discord reaction member (rule_id, rule) st = (inr tt, st))
  /\ (forall reaction member st,
        reaction_remove_rule py discord reaction member (rule_id, rule) st = (inr tt, st))
  /\ (forall member before after st,
        for_each (member_join_rule py discord member) (before ++ (rule_id, rule) :: after) st
        = for_each (member_join_rule py discord member) (before ++ after) st)
  /\ (forall reaction member before after st,
        for_each (reaction_add_rule py discord reaction member)
                 (before ++ (rule_id, rule) :: after) st
        = for_each (reaction_add_rule py discord reaction member) (before ++ after) st)
  /\ (forall reaction member before after st,
        for_each (reaction_remove_rule py discord reaction member)
                 (before ++ (rule_id, rule) :: after) st
        = for_each (reaction_remove_rule py discord reaction member) (before ++ after) st).
Proof.
  intros Hoff.
  assert (Hj : forall member, member_join_match py member rule = false).
  { intros. unfold member_join_match. by rewrite Hoff. }
  assert (Ha : forall reaction e, reaction_match py reaction e rule = inr false).
  { intros. unfold reaction_match. by rewrite Hoff. }
  assert (Hr : forall reaction e, reaction_remove_match py reaction e rule = inr false).
  { intros. unfold reaction_remove_match. by rewrite Ha. }
  assert (Hj' : forall member st,
             member_join_rule py discord member (rule_id, rule) st = (inr tt, st)).
  { intros. unfold member_join_rule. by rewrite Hj. }
  assert (Ha' : forall reaction member st,
             reaction_add_rule py discord reaction member (rule_id, rule) st = (inr tt, st)).
  { intros. unfold reaction_add_rule. unfold_M. by rewrite Ha. }
  assert (Hr' : forall reaction member st,
             reaction_remove_rule py discord reaction member (rule_id, rule) st = (inr tt, st)).
  { intros. unfold reaction_remove_rule. unfold_M. by rewrite Hr. }
  repeat split; auto; intros; apply for_each_skip; auto.
Qed.

(** ** Reaction removal *)

(** C6. On a reaction removal a rule is matched only if its payload is a dict
    whose [remove_on_unreact] entry, taken as [True] when absent, is truthy.
    A rule whose payload holds [remove_on_unreact = False] is not matched, and
    its turn of the loop leaves the state as it is.  Without the entry the
    rule is matched exactly when a reaction addition would match it. *)
Theorem remove_on_unreact_filter (reaction : Reaction) (rule : dict) :
  let emoji_str := reaction_emoji reaction in
  (reaction_remove_match py reaction emoji_str rule = inr true ->
   reaction_match py reaction emoji_str rule = inr true
   /\ exists payload,
        dict_get rule "action_payload" (VDict []) = VDict payload
        /\ truthy (dict_get payload "remove_on_unreact" (VBool true)) = true)
  /\ (forall payload,
        dict_get rule "action_payload" (VDict []) = VDict payload ->
        dict_lookup "remove_on_unreact" payload = Some (VBool false) ->
        reaction_remove_match py reaction emoji_str rule = inr false
        /\ forall member rule_id st,
             reaction_remove_rule py discord reaction member (rule_id, rule) st = (inr tt, st))
  /\ (forall payload,
        dict_get rule "action_payload" (VDict []) = VDict payload ->
        dict_lookup "remove_on_unreact" payload = None ->
        reaction_remove_match py reaction emoji_str rule
        = reaction_match py reaction emoji_str rule).
Proof.
  intros emoji_str.
  assert (Hoff : forall payload,
             dict_get rule "action_payload" (VDict []) = VDict payload ->
             dict_lookup "remove_on_unreact" payload = Some (VBool false) ->
             reaction_remove_match py reaction emoji_str rule = inr false).
  { intros payload Hp Hflag. unfold reaction_remove_match. unfold_M.
    destruct (reaction_match py reaction emoji_str rule) as [e|[]] eqn:Hm.
    - exfalso. revert Hm. unfold reaction_match. rewrite Hp. unfold_M. simpl.
      repeat case_match; congruence.
    - rewrite Hp. simpl. unfold dict_get. by rewrite Hflag.
    - reflexivity. }
  split; [|split].
  - unfold reaction_remove_match. unfold_M.
    destruct (reaction_match py reaction emoji_str rule) as [e|[]] eqn:Hm; try discriminate.
    destruct (dict_get rule "action_payload" (VDict [])) as [| | | | | |payload] eqn:Hp;
      simpl; try discriminate.
    destruct (truthy (dict_get payload "remove_on_unreact" (VBool true))) eqn:Hflag;
      simpl; try discriminate.
    intros _. split; [reflexivity|]. by exists payload.
  - intros payload Hp Hflag. split; [by eapply Hoff|].
    intros member rule_id st. unfold reaction_remove_rule. unfold_M.
    fold emoji_str. by erewrite Hoff.
  - intros payload Hp Hflag. unfold reaction_remove_match. unfold_M.
    destruct (reaction_match py reaction emoji_str rule) as [e|[]] eqn:Hm; try reflexivity.
    rewrite Hp. simpl. unfold dict_get. by rewrite Hflag.
Qed.

(** ** Reactions of bots *)

(** C10. When the reacting user is a bot, [on_reaction_add] and
    [on_reaction_remove] return at once: the member is not fetched, no rule is
    looked at, and the state after is the state before. *)
Theorem bot_reactions_ignored (reaction : Reaction) (user : User) (st : State) :
  user_bot user = true ->
  on_reaction_add py discord reaction user st = (inr tt, st)
  /\ on_reaction_remove py discord reaction user st = (inr tt, st).
Proof.
  intros Hbot. unfold on_reaction_add, on_reaction_remove, reacting_member. unfold_M.
  rewrite Hbot. by destruct (discord_client st).
Qed.

(** ** Failure isolation *)

Lemma member_join_action_io member rule_id rule :
  keeps io_only (member_join_action py discord member rule_id rule).
Proof. unfold member_join_action. keeps_io. Qed.

Lemma reaction_add_action_io reaction member emoji_str rule_id rule :
  keeps io_only (reaction_add_action py discord reaction member emoji_str rule_id rule).
Proof. unfold reaction_add_action. keeps_io. Qed.

Lemma reaction_remove_action_io reaction member rule_id rule :
  keeps io_only (reaction_remove_action py discord reaction member rule_id rule).
Proof. unfold reaction_remove_action. keeps_io. Qed.

(** The handlers send requests and write to the log, and change nothing
    else: not the rule store, not the tasks, not the counters. *)
Lemma on_member_join_io member : keeps io_only (on_member_join py discord member).
Proof.
  unfold on_member_join. keeps_io. unfold member_join_rule. keeps_io.
  apply member_join_action_io.
Qed.

Lemma on_reaction_add_io reaction user : keeps io_only (on_reaction_add py discord reaction user).
Proof.
  unfold on_reaction_add, reacting_member. keeps_io;
    unfold reaction_add_rule; keeps_io; apply reaction_add_action_io.
Qed.

Lemma on_reaction_remove_io reaction user :
  keeps io_only (on_reaction_remove py discord reaction user).
Proof.
  unfold on_reaction_remove, reacting_member. keeps_io;
    unfold reaction_remove_rule; keeps_io; apply reaction_remove_action_io.
Qed.






(** ** Placeholders *)

(** C8, as the code has it.  A [send_message] action whose payload names a
    channel that [int] accepts and Discord returns, and holds a [str] content,
    fetches the channel and sends one embed.  On a member join its description
    is the content with [{user}], [{username}] and [{server}] replaced, in that
    order, by the member's mention, the member's name and the guild's name; on
    a reaction addition it is the content with [{user}], [{username}] and
    [{emoji}] replaced by the mention, the name and the emoji.  [{emoji}] is
    left as it is on a join, and [{server}] on a reaction. *)
Theorem placeholders_by_handler (rule_id : string) (rule payload : dict) (content : string)
    (cid : Z) (channel : Channel) (st : State) :
  dict_get rule "action_type" VNone = VStr "send_message" ->
  dict_get rule "action_payload" (VDict []) = VDict payload ->
  truthy (dict_get payload "channel_id" VNone) = true ->
  py_int py (dict_get payload "channel_id" VNone) = inr cid ->
  fetch_channel discord (api_calls st) cid = inr channel ->
  dict_lookup "content" payload = Some (VStr content) ->
  (forall member,
     api_calls (member_join_action py discord member rule_id rule st).2
     = api_calls st
       ++ [CFetchChannel cid;
           CSend (id_of_channel channel)
             (mkEmbed "Welcome!"
                (str_replace
                   (str_replace (str_replace content "{user}" (member_mention member))
                                "{username}" (member_name member))
                   "{server}" (guild_name (member_guild member)))
                0x5865F2 (member_avatar_url member) None)])
  /\ (forall reaction member emoji_str,
        api_calls (reaction_add_action py discord reaction member emoji_str rule_id rule st).2
        = api_calls st
          ++ [CFetchChannel cid;
              CSend (id_of_channel channel)
                (mkEmbed "Reaction Event"
                   (str_replace
                      (str_replace (str_replace content "{user}" (member_mention member))
                                   "{username}" (member_name member))
                      "{emoji}" emoji_str)
                   0x5865F2 None (Some ("Reaction: " +:+ emoji_str)))]).
Proof.
  intros Htype Hpayload Hchan Hint Hfetch Hcontent.
  split; intros.
  - unfold member_join_action. rewrite Htype, Hpayload. simpl. unfold_M. simpl.
    rewrite Hchan, Hint, Hfetch. unfold dict_get at 1. rewrite Hcontent. simpl.
    destruct st; simpl. rewrite <- app_assoc. simpl.
    by destruct (channel_send _ _ _ _).
  - unfold reaction_add_action. rewrite Htype, Hpayload. simpl. unfold_M. simpl.
    rewrite Hchan, Hint, Hfetch. unfold dict_get at 1. rewrite Hcontent. simpl.
    destruct st; simpl. rewrite <- app_assoc. simpl.
    by destruct (channel_send _ _ _ _).
Qed.

(** ** Role assignment *)

(** On a reaction addition a role the member holds is not requested again:
    the action returns with the state as it was. *)
Lemma reaction_role_held (reaction : Reaction) (member : Member) (emoji_str rule_id : string)
    (rule payload : dict) (rid : Z) (role : Role) (st : State) :
  dict_get rule "action_type" VNone = VStr "assign_role" ->
  dict_get rule "action_payload" (VDict []) = VDict payload ->
  py_int py (dict_get payload "role_id" VNone) = inr rid ->
  get_role (msg_guild (reaction_message reaction)) rid = Some role ->
  role_in role (member_roles member) = true ->
  reaction_add_action py discord reaction member emoji_str rule_id rule st = (inr tt, st).
Proof.
  intros Htype Hpayload Hint Hrole Hheld.
  unfold reaction_add_action. rewrite Htype, Hpayload. simpl. unfold_M. simpl.
  destruct (truthy _); [|reflexivity]. rewrite Hint, Hrole, Hheld. reflexivity.
Qed.

(** On a reaction removal a role the member lacks is not requested away. *)
Lemma reaction_role_lacked (reaction : Reaction) (member : Member) (rule_id : string)
    (rule payload : dict) (rid : Z) (role : Role) (st : State) :
  dict_get rule "action_type" VNone = VStr "assign_role" ->
  dict_get rule "action_payload" (VDict []) = VDict payload ->
  py_int py (dict_get payload "role_id" VNone) = inr rid ->
  get_role (msg_guild (reaction_message reaction)) rid = Some role ->
  role_in role (member_roles member) = false ->
  reaction_remove_action py discord reaction member rule_id rule st = (inr tt, st).
Proof.
  intros Htype Hpayload Hint Hrole Hheld.
  unfold reaction_remove_action. rewrite Htype, Hpayload. simpl. unfold_M. simpl.
  destruct (truthy _); [|reflexivity]. rewrite Hint, Hrole, Hheld. reflexivity.
Qed.

(** On a member join the role is requested whether the member holds it or
    not. *)
Lemma join_role_requested (member : Member) (rule_id : string) (rule payload : dict)
    (rid : Z) (role : Role) (st : State) :
  dict_get rule "action_type" VNone = VStr "assign_role" ->
  dict_get rule "action_payload" (VDict []) = VDict payload ->
  truthy (dict_get payload "role_id" VNone) = true ->
  py_int py (dict_get payload "role_id" VNone) = inr rid ->
  get_role (member_guild member) rid = Some role ->
  api_calls (member_join_action py discord member rule_id rule st).2
  = api_calls st
    ++ [CAddRoles (member_id member) (id_of_role role)
                  ("Automation rule: " +:+ py_str py (dict_get rule "name" (VStr rule_id)))].
Proof.
  intros Htype Hpayload Htruthy Hint Hrole.
  unfold member_join_action. rewrite Htype, Hpayload. simpl. unfold_M. simpl.
  rewrite Htruthy, Hint, Hrole. destruct st; simpl.
  by destruct (add_roles _ _ _ _ _).
Qed.

End Rules.

(** ** The pattern scanner *)

Section Scanner.

Context (py : Python) (discord : Discord).


(** [caps_spam] is a filter of the window. *)
Lemma caps_spam_as_filter (caps_ratio : float) (min_length : Z) (messages : list Message) :
  caps_spam py caps_ratio min_length messages
  = inr (List.filter (caps_flagged py caps_ratio min_length) messages).
Proof.
  induction messages as [|msg rest IH]; simpl; [reflexivity|].
  unfold caps_flagged at 1.
  destruct (letters_of py (content_or_empty msg)) as [|ch letters] eqn:Hletters.
  - exact IH.
  - rewrite IH. unfold py_truediv, uppercase_ratio.
    replace (Z.of_nat (length (ch :: letters)) =? 0) with false
      by (symmetry; apply Z.eqb_neq; simpl length; lia).
    unfold_M. by destruct (_ && _).
Qed.

(** The tool's branch for [caps_spam] raises only where [float] or [int]
    rejects an argument. *)
Lemma scan_caps_spam_total (arguments : dict) (caps_ratio : float) (min_length : Z)
    (messages : list Message) :
  py_float py (dict_get arguments "caps_ratio_threshold" (VFloat default_caps_ratio))
  = inr caps_ratio ->
  py_int py (dict_get arguments "min_length" (VInt 15)) = inr min_length ->
  scan py "caps_spam" arguments messages
  = inr (List.filter (caps_flagged py caps_ratio min_length) messages).
Proof.
  intros Hratio Hmin. unfold scan. simpl. unfold_M. rewrite Hratio, Hmin.
  apply caps_spam_as_filter.
Qed.

(** [dry_run] is read by none of the detectors. *)
Lemma scan_ignores_dry_run (b : bool) (pattern_type : string) (arguments : dict)
    (messages : list Message) :
  scan py pattern_type (with_dry_run b arguments) messages
  = scan py pattern_type arguments messages.
Proof. reflexivity. Qed.

(** The scan sends reads only and touches nothing else, and what it finds
    does not depend on [dry_run]. *)
Lemma moderation_scan_reads (b : bool) (arguments : dict) (st : State) :
  let r := moderation_scan py discord (with_dry_run b arguments) st in
  (exists reads, api_calls r.2 = api_calls st ++ reads /\ forallb is_read reads = true)
  /\ with_calls r.2 (api_calls st) = st
  /\ r.2 = (moderation_scan py discord (with_dry_run (negb b) arguments) st).2
  /\ matched_ids r = matched_ids (moderation_scan py discord (with_dry_run (negb b) arguments) st)
  /\ forall sc, r.1 = inr (Some sc) -> scan_dry_run sc = VBool b.
Proof.
  destruct st as [client tasks tc rules rc calls lg rs].
  unfold moderation_scan, matched_ids, py_index, with_dry_run, dict_get. simpl dict_lookup.
  unfold_M. unfold with_calls. simpl.
  destruct (dict_lookup "channel_id" arguments) as [channel_id|]; simpl.
  2:{ repeat split; try (exists []; by rewrite app_nil_r); try discriminate. }
  destruct (py_int py channel_id) as [e|cid]; simpl.
  { repeat split; try (exists []; by rewrite app_nil_r); try discriminate. }
  destruct (fetch_channel discord calls cid) as [e|channel]; simpl.
  { repeat split; try (by exists [CFetchChannel cid]); try discriminate. }
  destruct (channel_has_history channel); simpl.
  2:{ repeat split; try (by exists [CFetchChannel cid]); try discriminate. }
  destruct (dict_lookup "pattern_type" arguments) as [pattern_type|]; simpl.
  2:{ repeat split; try (by exists [CFetchChannel cid]); try discriminate. }
  destruct (strip_lower py pattern_type) as [e|pattern]; simpl.
  { repeat split; try (by exists [CFetchChannel cid]); try discriminate. }
  destruct (py_int py _) as [e|limit]; simpl.
  { repeat split; try (by exists [CFetchChannel cid]); try discriminate. }
  destruct (strip_lower py _) as [e|action]; simpl.
  { repeat split; try (by exists [CFetchChannel cid]); try discriminate. }
  rewrite <- !app_assoc. simpl.
  destruct (channel_history discord _ channel _) as [e|messages]; simpl.
  { repeat split;
      try (by exists [CFetchChannel cid; CHistory (id_of_channel channel) (limit `min` 1000)]);
      try discriminate. }
  change (("dry_run", VBool b) :: arguments) with (with_dry_run b arguments).
  change (("dry_run", VBool (negb b)) :: arguments) with (with_dry_run (negb b) arguments).
  rewrite !scan_ignores_dry_run.
  destruct (scan py pattern arguments messages) as [e|matches]; simpl.
  { repeat split;
      try (by exists [CFetchChannel cid; CHistory (id_of_channel channel) (limit `min` 1000)]);
      try discriminate. }
  destruct (negb _); simpl.
  { repeat split;
      try (by exists [CFetchChannel cid; CHistory (id_of_channel channel) (limit `min` 1000)]);
      try discriminate. }
  repeat split;
    try (by exists [CFetchChannel cid; CHistory (id_of_channel channel) (limit `min` 1000)]).
  intros sc [= <-]. reflexivity.
Qed.

(** The action loop catches what each message raises. *)
Lemma moderate_returns (action : string) (arguments : dict) (matches : list Message)
    (acc : Applied) (st : State) :
  exists acc' st', moderate py discord action arguments acc matches st = (inr acc', st').
Proof.
  revert acc st. induction matches as [|msg rest IH]; intros acc st; simpl.
  - by eexists _, _.
  - unfold_M.
    destruct (moderate_message py discord action arguments acc msg st) as [[e|acc1] st1];
      apply IH.
Qed.

(** C5. From the same state, hence against the same window, the call with
    [dry_run = True] and the call with [dry_run = False] match the same
    message ids, or raise the same exception.  The call with [dry_run = True]
    sends reads only (the channel and its history, no deletion and no
    timeout) and leaves every global of the module and the log as they
    were. *)
Theorem dry_run_equivalence (arguments : dict) (st : State) :
  let dry := auto_moderate_by_pattern py discord (with_dry_run true arguments) st in
  let live := auto_moderate_by_pattern py discord (with_dry_run false arguments) st in
  match dry.1, live.1 with
  | inr (Some sc, _), inr (Some sc', _) =>
      map message_id (scan_matches sc) = map message_id (scan_matches sc')
  | inr (None, text), inr (None, text') => text = text'
  | inl e, inl e' => e = e'
  | _, _ => False
  end
  /\ matched_ids (moderation_scan py discord (with_dry_run true arguments) st)
     = matched_ids (moderation_scan py discord (with_dry_run false arguments) st)
  /\ (exists reads, api_calls dry.2 = api_calls st ++ reads /\ forallb is_read reads = true)
  /\ with_calls dry.2 (api_calls st) = st.
Proof.
  pose proof (moderation_scan_reads true arguments st) as (Hreads & Hframe & Hst & Hids & Hdry).
  pose proof (moderation_scan_reads false arguments st) as (_ & _ & _ & _ & Hlive).
  simpl negb in *. cbv zeta in *.
  revert Hreads Hframe Hst Hids Hdry Hlive.
  unfold auto_moderate_by_pattern, matched_ids. unfold_M.
  destruct (moderation_scan py discord (with_dry_run true arguments) st) as [[e|[sc|]] st1];
    destruct (moderation_scan py discord (with_dry_run false arguments) st) as [[e'|[sc'|]] st2];
    simpl; intros Hreads Hframe Hst Hids Hdry Hlive; try discriminate;
    try (injection Hids as Hids); subst; auto.
  rewrite (Hdry sc eq_refl), (Hlive sc' eq_refl). simpl. rewrite andb_false_r. simpl.
  destruct (negb (String.eqb (scan_action sc') "report")); simpl.
  - destruct (moderate_returns (scan_action sc') (with_dry_run false arguments)
                (scan_matches sc') (mkApplied 0 [] []) st2) as (acc' & st' & ->).
    simpl. repeat split; auto; congruence.
  - repeat split; auto; congruence.
Qed.

End Scanner.

(** ** The scheduler *)

Lemma str_of_Z_inj (a b : Z) : str_of_Z a = str_of_Z b -> a = b.
Proof.
  unfold str_of_Z. intros H. apply DecimalZ.to_int_inj.
  pose proof (NilEmpty.isi (Z.to_int a)) as Ha.
  pose proof (NilEmpty.isi (Z.to_int b)) as Hb.
  congruence.
Qed.

Section Scheduler.

Context (py : Python) (discord : Discord).

Lemma moderate_io action arguments acc matches :
  keeps io_only (moderate py discord action arguments acc matches).
Proof.
  revert acc. induction matches as [|msg rest IH]; intros acc; simpl.
  - apply keeps_ret; typeclasses eauto.
  - (apply keeps_bind; try typeclasses eauto); [|intros ?; apply IH].
    unfold moderate_message. keeps_io.
Qed.

Lemma auto_moderate_by_pattern_io arguments :
  keeps io_only (auto_moderate_by_pattern py discord arguments).
Proof.
  unfold auto_moderate_by_pattern, moderation_scan. keeps_io. apply moderate_io.
Qed.

Lemma create_automation_rule_scheduler now arguments :
  keeps same_scheduler (create_automation_rule py now arguments).
Proof.
  unfold create_automation_rule, next_automation_rule_id.
  (apply keeps_bind; try typeclasses eauto); [by intros st|intros ?].
  repeat ((apply keeps_bind; try typeclasses eauto);
          [first [apply keeps_lift; typeclasses eauto | by apply keeps_modify; intros []]
          |intros ?]).
  apply keeps_ret; typeclasses eauto.
Qed.

(** A submission changes the scheduler by one new task, or raises before it
    touches it. *)
Lemma schedule_task_effect now created_at arguments st :
  let st' := (schedule_task py now created_at arguments st).2 in
  st' = st \/ submitted py st st'.
Proof.
  unfold schedule_task, submit, next_scheduled_task_id. unfold_M.
  destruct (py_index arguments "task_type") as [e|task_type]; simpl; [by left|].
  destruct (check_task_type task_type) as [e|ty]; simpl; [by left|].
  destruct (resolve_run_at py now arguments) as [e|run_at]; simpl; [by left|].
  right. by exists ty, run_at, created_at, (dict_get arguments "task_payload" (VDict [])).
Qed.

Lemma send_scheduled_message_effect now created_at arguments st :
  let st' := (send_scheduled_message py now created_at arguments st).2 in
  st' = st \/ submitted py st st'.
Proof.
  unfold send_scheduled_message, submit, next_scheduled_task_id. unfold_M.
  destruct (resolve_run_at py now arguments) as [e|run_at]; simpl; [by left|].
  destruct (py_index arguments "channel_id") as [e|channel_id]; simpl; [by left|].
  destruct (py_index arguments "content") as [e|content]; simpl; [by left|].
  right. by exists "send_message", run_at, created_at,
                   (VDict [("channel_id", channel_id); ("content", content)]).
Qed.

(** A tool call leaves the scheduler as it was or makes one submission. *)
Lemma call_tool_effect now created_at name arguments st :
  let st' := (call_tool py discord now created_at name arguments st).2 in
  same_scheduler st st' \/ submitted py st st'.
Proof.
  assert (Hfw : forall st0, same_scheduler st0
            (request (CTool name arguments)
                     (fun h => proxied_tool discord h name arguments) st0).2).
  { intros st0. apply io_only_same_scheduler, io_only_request. }
  cbv zeta. unfold call_tool.
  rewrite (bind_returns get_state _ st st st eq_refl).
  destruct (negb (discord_client st)); [by left|].
  destruct arguments as [| | | | | |d]; try (left; apply Hfw).
  destruct (String.eqb name "schedule_task").
  { destruct (schedule_task_effect now created_at d st) as [->|?]; [by left|by right]. }
  destruct (String.eqb name "send_scheduled_message").
  { destruct (send_scheduled_message_effect now created_at d st) as [->|?]; [by left|by right]. }
  destruct (String.eqb name "create_automation_rule").
  { left. apply create_automation_rule_scheduler. }
  destruct (String.eqb name "auto_moderate_by_pattern").
  { left. apply io_only_same_scheduler.
    assert (H : keeps io_only (r ← auto_moderate_by_pattern py discord d; mret r.2)).
    { (apply keeps_bind; try typeclasses eauto);
        [apply auto_moderate_by_pattern_io | intros ?; apply keeps_ret; typeclasses eauto]. }
    apply H. }
  left. apply Hfw.
Qed.

(** *** The invariant along the turns of the loop *)

Lemma set_pc_task_id pc r : runner_task_id (set_pc pc r) = runner_task_id r.
Proof. reflexivity. Qed.

Lemma runner_ids_alter pc i (rs : list Runner) :
  map runner_task_id (alter (set_pc pc) i rs) = map runner_task_id rs.
Proof.
  apply list_eq. intros j. rewrite !list_lookup_fmap.
  destruct (decide (i = j)) as [<-|Hne].
  - rewrite list_lookup_alter_eq. by destruct (rs !! i).
  - by rewrite list_lookup_alter_ne.
Qed.

Lemma insert_as_alter (f : Task -> Task) (k : string) (t : Task) (m : gmap string Task) :
  m !! k = Some t -> <[k := f t]> m = alter f k m.
Proof.
  intros Hk. apply map_eq. intros j. destruct (decide (k = j)) as [<-|Hne].
  - by rewrite lookup_insert_eq, lookup_alter_eq, Hk.
  - by rewrite lookup_insert_ne, lookup_alter_ne.
Qed.

(** Two coroutines of a state that satisfies the invariant run different
    tasks. *)
Lemma runner_ids_distinct st i j r r' :
  scheduler_invariant st ->
  runners st !! i = Some r -> runners st !! j = Some r' ->
  runner_task_id r = runner_task_id r' -> i = j.
Proof.
  intros Hinv Hi Hj Hid.
  eapply NoDup_lookup; [apply (inv_nodup _ Hinv)| |].
  - by rewrite list_lookup_fmap, Hi.
  - rewrite list_lookup_fmap, Hj. simpl. by rewrite Hid.
Qed.

(** The next id is not yet in the store. *)
Lemma next_id_fresh st :
  scheduler_invariant st ->
  scheduled_tasks st !! str_of_Z (scheduled_task_counter st + 1) = None.
Proof.
  intros Hinv.
  destruct (scheduled_tasks st !! _) as [t|] eqn:Ht; [|reflexivity].
  destruct (inv_ids _ Hinv _ _ Ht) as (n & Hn & Hle).
  apply str_of_Z_inj in Hn. lia.
Qed.

Lemma same_scheduler_preserves st st' :
  same_scheduler st st' -> scheduler_invariant st ->
  scheduler_invariant st' /\ quiet_step st st'.
Proof.
  intros (Ht & Hc & Hr) [H1 H2 H3 H4]. split.
  - split; rewrite ?Ht, ?Hc, ?Hr; auto.
  - unfold quiet_step. rewrite Ht, Hr. repeat split; auto. congruence.
Qed.

Lemma submitted_preserves st st' :
  submitted py st st' -> scheduler_invariant st ->
  scheduler_invariant st' /\ quiet_step st st'.
Proof.
  intros (ty & run_at & created & payload & Ht & Hc & Hr) Hinv.
  cbv zeta in *. pose proof (next_id_fresh st Hinv) as Hfresh.
  set (new_id := str_of_Z (scheduled_task_counter st + 1)) in *.
  destruct Hinv as [H1 H2 H3 H4].
  assert (Hold : forall id t, scheduled_tasks st !! id = Some t -> new_id <> id).
  { intros id t Hid ->. congruence. }
  split; [split|].
  - intros i r. rewrite Hr, Ht. intros Hi.
    apply lookup_app_Some in Hi as [Hi|[_ Hi]].
    + destruct (H1 _ _ Hi) as (t & Hlook & Hcoupled).
      exists t. split; [|done]. rewrite lookup_insert_ne; eauto.
    + apply list_lookup_singleton_Some in Hi as [_ <-]. simpl.
      rewrite lookup_insert_eq. eexists. split; [reflexivity|]. reflexivity.
  - intros id t. rewrite Ht, Hc. destruct (decide (new_id = id)) as [<-|Hne].
    + intros _. exists (scheduled_task_counter st + 1). split; [reflexivity|lia].
    + rewrite lookup_insert_ne by done. intros Hid.
      destruct (H2 _ _ Hid) as (n & ? & ?). exists n. split; [done|lia].
  - intros id t. rewrite Ht, Hr. destruct (decide (new_id = id)) as [<-|Hne].
    + intros _. exists (length (runners st)), (mkRunner new_id ty payload Sleeping).
      split; [|reflexivity]. by rewrite lookup_app_r, Nat.sub_diag by lia.
    + rewrite lookup_insert_ne by done. intros Hid.
      destruct (H3 _ _ Hid) as (i & r & Hi & ?). exists i, r. split; [|done].
      by apply lookup_app_l_Some.
  - rewrite Hr, map_app. apply NoDup_app. split; [done|]. split; [|apply NoDup_singleton].
    intros id Hin Hnew. apply list_elem_of_singleton in Hnew as ->.
    apply list_elem_of_fmap in Hin as (r & Hid & Hr').
    apply list_elem_of_lookup in Hr' as (i & Hi).
    destruct (H1 _ _ Hi) as (t & Hlook & _). rewrite <- Hid in Hlook. simpl in *. congruence.
  - unfold quiet_step. rewrite Ht, Hr. repeat split.
    + intros id t Hid. rewrite lookup_insert_ne; eauto.
    + intros id t' Hnone. destruct (decide (new_id = id)) as [<-|Hne].
      * rewrite lookup_insert_eq. by intros [= <-].
      * rewrite lookup_insert_ne by done. congruence.
    + intros i r Hi. by apply lookup_app_l_Some.
Qed.

(** A coroutine moves on: its task's record is rewritten by [f], and its
    place becomes [pc']. *)
Lemma advance_preserves st st' i r (f : Task -> Task) pc' :
  scheduler_invariant st ->
  runners st !! i = Some r ->
  scheduled_tasks st' = alter f (runner_task_id r) (scheduled_tasks st) ->
  scheduled_task_counter st' = scheduled_task_counter st ->
  runners st' = alter (set_pc pc') i (runners st) ->
  (forall t, coupled (runner_pc r) (task_status t) ->
             coupled pc' (task_status (f t))
             /\ transition (task_status t) (task_status (f t))) ->
  scheduler_invariant st' /\ lifecycle_step st st'.
Proof.
  intros Hinv Hi Ht Hc Hr Hf.
  pose proof Hinv as [H1 H2 H3 H4].
  destruct (H1 _ _ Hi) as (t & Hlook & Hcoupled).
  split; [split|].
  - intros j r'. rewrite Hr, Ht. destruct (decide (i = j)) as [<-|Hne].
    + rewrite list_lookup_alter_eq, Hi. intros [= <-]. simpl.
      rewrite lookup_alter_eq, Hlook. simpl. eexists. split; [reflexivity|].
      by apply Hf.
    + rewrite list_lookup_alter_ne by done. intros Hj.
      destruct (H1 _ _ Hj) as (t' & Hlook' & Hcoupled').
      exists t'. split; [|done]. rewrite lookup_alter_ne; [done|].
      intros Hid. apply Hne. by eapply runner_ids_distinct.
  - intros id t'. rewrite Ht, Hc. destruct (decide (runner_task_id r = id)) as [<-|Hne].
    + intros _. eauto.
    + rewrite lookup_alter_ne by done. eauto.
  - intros id t'. rewrite Ht, Hr. intros Hid.
    assert (is_Some (scheduled_tasks st !! id)) as [t0 Ht0].
    { destruct (decide (runner_task_id r = id)) as [<-|Hne]; [eauto|].
      rewrite lookup_alter_ne in Hid by done. eauto. }
    destruct (H3 _ _ Ht0) as (j & r' & Hj & Hid').
    destruct (decide (i = j)) as [<-|Hne].
    + exists i, (set_pc pc' r). rewrite list_lookup_alter_eq, Hi. split; [done|].
      simpl. congruence.
    + exists j, r'. by rewrite list_lookup_alter_ne.
  - by rewrite Hr, runner_ids_alter.
  - split.
    + intros id t'. rewrite Ht. destruct (decide (runner_task_id r = id)) as [<-|Hne].
      * rewrite lookup_alter_eq, Hlook. intros [= <-]. simpl. eexists. split; [reflexivity|].
        right. by apply Hf.
      * rewrite lookup_alter_ne by done. intros ->. eauto.
    + intros id t' Hnone. rewrite Ht.
      destruct (decide (runner_task_id r = id)) as [<-|Hne]; [congruence|].
      rewrite lookup_alter_ne by done. congruence.
Qed.

Lemma quiet_lifecycle st st' : quiet_step st st' -> lifecycle_step st st'.
Proof. intros (Hsame & Hnew & _). split; [|done]. intros id t Hid. eauto. Qed.

Lemma store_result_status result t : task_status (store_result py result t) = task_status t.
Proof. by destruct result as [|[]]. Qed.

Lemma wake_preserves st i r :
  scheduler_invariant st ->
  runners st !! i = Some r ->
  runner_pc r = Sleeping ->
  let st' := (run_scheduled_task_wake i (runner_task_id r) st).2 in
  scheduler_invariant st' /\ lifecycle_step st st'.
Proof.
  intros Hinv Hi Hpc.
  destruct (inv_coupled _ Hinv _ _ Hi) as (t & Hlook & Hcoupled).
  unfold run_scheduled_task_wake. unfold_M. rewrite Hlook. simpl.
  eapply (advance_preserves st _ i r (set_status "running") Awaiting); eauto.
  - simpl. by apply insert_as_alter.
  - rewrite Hpc. simpl. intros t' ->. split; [reflexivity|constructor].
Qed.

Lemma finish_preserves now created_at st i r :
  scheduler_invariant st ->
  runners st !! i = Some r ->
  runner_pc r = Awaiting ->
  let st' := (run_scheduled_task_finish py discord now created_at i r st).2 in
  scheduler_invariant st' /\ lifecycle_step st st'.
Proof.
  intros Hinv Hi Hpc.
  destruct (inv_coupled _ Hinv _ _ Hi) as (t & Hlook & Hcoupled).
  rewrite Hpc in Hcoupled. simpl in Hcoupled.
  pose proof (call_tool_effect now created_at (runner_task_type r) (runner_payload r) st)
    as Heffect.
  cbv zeta in Heffect.
  assert (scheduler_invariant
            (call_tool py discord now created_at (runner_task_type r) (runner_payload r) st).2
          /\ quiet_step st
               (call_tool py discord now created_at (runner_task_type r) (runner_payload r) st).2)
    as [Hinv1 (Hsame & Hnew & Hrunners)].
  { destruct Heffect; [by apply same_scheduler_preserves | by apply submitted_preserves]. }
  clear Heffect.
  assert (Hshape : exists f status,
             terminal status
             /\ (forall t0, task_status (f t0) = status)
             /\ forall st1 : State,
                  st1 = (call_tool py discord now created_at (runner_task_type r)
                                   (runner_payload r) st).2 ->
                  let st' := (run_scheduled_task_finish py discord now created_at i r st).2 in
                  scheduled_tasks st' = alter f (runner_task_id r) (scheduled_tasks st1)
                  /\ scheduled_task_counter st' = scheduled_task_counter st1
                  /\ runners st' = alter (set_pc Finished) i (runners st1)).
  { unfold run_scheduled_task_finish. unfold_M.
    destruct (call_tool py discord now created_at (runner_task_type r) (runner_payload r) st)
      as [[e|result] st1]; simpl.
    - exists (fun t0 => set_error (exn_text e) (set_status "failed" t0)), "failed".
      split; [by right|]. split; [done|]. by intros ? ->.
    - exists (fun t0 => store_result py result (set_status "completed" t0)), "completed".
      split; [by left|]. split; [intros; by rewrite store_result_status|]. by intros ? ->. }
  destruct Hshape as (f & status & Hterminal & Hstatus & Hshape).
  specialize (Hshape _ eq_refl). cbv zeta in *.
  destruct Hshape as (Ht & Hc & Hr).
  set (st1 := (call_tool py discord now created_at (runner_task_type r) (runner_payload r) st).2)
    in *.
  set (st' := (run_scheduled_task_finish py discord now created_at i r st).2) in *.
  assert (Hmove : transition "running" status).
  { destruct Hterminal as [->| ->]; constructor. }
  split.
  - eapply (advance_preserves st1 st' i r f Finished); eauto.
    rewrite Hpc. simpl. intros t0 Ht0. rewrite Hstatus, Ht0. done.
  - split.
    + intros id t0 Hid. apply Hsame in Hid as Hid1. rewrite Ht.
      destruct (decide (runner_task_id r = id)) as [<-|Hne].
      * rewrite lookup_alter_eq, Hid1. simpl. eexists. split; [reflexivity|]. right.
        rewrite Hstatus. assert (t0 = t) as -> by congruence. by rewrite Hcoupled.
      * rewrite lookup_alter_ne by done. eauto.
    + intros id t' Hnone. rewrite Ht.
      destruct (decide (runner_task_id r = id)) as [<-|Hne]; [congruence|].
      rewrite lookup_alter_ne by done. eauto.
Qed.

(** Every turn of the loop keeps the invariant and moves the tasks as the
    lifecycle allows. *)
Lemma step_preserves st st' :
  scheduler_invariant st -> step py discord st st' ->
  scheduler_invariant st' /\ lifecycle_step st st'.
Proof.
  intros Hinv Hstep.
  assert (Hquiet : forall s, same_scheduler st s \/ submitted py st s ->
                     scheduler_invariant s /\ lifecycle_step st s).
  { intros s [H|H].
    - destruct (same_scheduler_preserves _ _ H Hinv). auto using quiet_lifecycle.
    - destruct (submitted_preserves _ _ H Hinv). auto using quiet_lifecycle. }
  destruct Hstep.
  - apply Hquiet. left. by destruct st.
  - apply Hquiet. left. by destruct st.
  - apply Hquiet. left. apply io_only_same_scheduler, on_member_join_io.
  - apply Hquiet. left. apply io_only_same_scheduler, on_reaction_add_io.
  - apply Hquiet. left. apply io_only_same_scheduler, on_reaction_remove_io.
  - apply Hquiet, call_tool_effect.
  - by apply wake_preserves.
  - by apply finish_preserves.
Qed.

Lemma initial_invariant : scheduler_invariant initial.
Proof.
  split; simpl.
  - intros i r Hi. by rewrite lookup_nil in Hi.
  - intros id t Hid. by rewrite lookup_empty in Hid.
  - intros id t Hid. by rewrite lookup_empty in Hid.
  - constructor.
Qed.

Lemma reachable_invariant st : reachable py discord st -> scheduler_invariant st.
Proof.
  unfold reachable. revert st.
  apply (rtc_ind_r (fun s => scheduler_invariant s) initial).
  - apply initial_invariant.
  - intros st0 st1 _ Hstep Hinv. by eapply step_preserves.
Qed.

(** C3. In a reachable state, a turn of the event loop leaves each task in
    the store, with its status unchanged or moved by one of
    scheduled -> running, running -> completed, running -> failed, and a task
    that enters the store enters as [scheduled].  The callable of a task is
    awaited only while the task is [running].  Every status is one of the four,
    and a task that is [completed] or [failed] keeps that status through every
    later run of the loop. *)
Theorem task_lifecycle (st : State) :
  reachable py discord st ->
  (forall st', step py discord st st' -> lifecycle_step st st')
  /\ (forall i r,
        runners st !! i = Some r -> runner_pc r = Awaiting ->
        exists t, scheduled_tasks st !! runner_task_id r = Some t
                  /\ task_status t = "running")
  /\ (forall id t,
        scheduled_tasks st !! id = Some t ->
        task_status t = "scheduled" \/ task_status t = "running" \/ terminal (task_status t))
  /\ (forall st' id t,
        rtc (step py discord) st st' ->
        scheduled_tasks st !! id = Some t ->
        terminal (task_status t) ->
        exists t', scheduled_tasks st' !! id = Some t' /\ task_status t' = task_status t).
Proof.
  intros Hreach. pose proof (reachable_invariant st Hreach) as Hinv.
  split; [|split; [|split]].
  - intros st' Hstep. by apply step_preserves.
  - intros i r Hi Hpc. destruct (inv_coupled _ Hinv _ _ Hi) as (t & Hlook & Hcoupled).
    rewrite Hpc in Hcoupled. eauto.
  - intros id t Hid. destruct (inv_owner _ Hinv _ _ Hid) as (i & r & Hi & <-).
    destruct (inv_coupled _ Hinv _ _ Hi) as (t' & Hlook & Hcoupled).
    assert (t' = t) as -> by congruence.
    destruct (runner_pc r); simpl in Hcoupled; auto.
  - intros st' id t Hrtc. revert t Hinv. clear Hreach.
    induction Hrtc as [|s1 s2 s3 Hstep Hrtc IH]; intros t Hinv Hid Hterminal; [eauto|].
    destruct (step_preserves _ _ Hinv Hstep) as (Hinv2 & Hlife & _).
    destruct (Hlife _ _ Hid) as (t2 & Hid2 & [Hsame|Hmove]).
    + destruct (IH t2 Hinv2 Hid2) as (t' & ? & ?); [congruence|].
      exists t'. split; [done|congruence].
    + exfalso. destruct Hterminal as [Hs|Hs]; rewrite Hs in Hmove; inversion Hmove.
Qed.

End Scheduler.

(** C4. When the coroutine of a task wakes and the task is no longer in the
    store, it returns: the callable is not invoked, so no request is sent and
    nothing is logged; no task is written to; and the only change to the state
    is that this coroutine, if it is the [i]-th, has finished. *)
Theorem cancelled_task_dropped (i : nat) (task_id : string) (st : State) :
  scheduled_tasks st !! task_id = None ->
  let st' := (run_scheduled_task_wake i task_id st).2 in
  (run_scheduled_task_wake i task_id st).1 = inr tt
  /\ st' = with_runners st (alter (set_pc Finished) i (runners st))
  /\ scheduled_tasks st' = scheduled_tasks st
  /\ api_calls st' = api_calls st
  /\ log st' = log st
  /\ automation_rules st' = automation_rules st
  /\ (forall r, runners st !! i = Some r -> runners st' !! i = Some (set_pc Finished r))
  /\ (forall j, j <> i -> runners st' !! j = runners st !! j).
Proof.
  intros Hgone. unfold run_scheduled_task_wake. unfold_M. rewrite Hgone. simpl.
  repeat split; try reflexivity.
  - intros r Hr. by rewrite list_lookup_alter_eq, Hr.
  - intros j Hj. by rewrite list_lookup_alter_ne.
Qed.

(** * Further properties *)

(** ** The rule store *)

#[local] Instance same_rules_refl : Reflexive same_rules.
Proof. by intros st. Qed.

#[local] Instance same_rules_trans : Transitive same_rules.
Proof. intros a b c (? & ?) (? & ?). split; congruence. Qed.

Lemma io_only_same_rules st st' : io_only st st' -> same_rules st st'.
Proof.
  destruct st, st'. unfold io_only, with_calls, with_log. simpl.
  intros [= -> -> -> -> -> ->]. by split.
Qed.

(** Walks a computation as [keeps_io] does, for a relation that [io_only]
    implies; [leaf] closes what is left. *)
Ltac keeps_walk implied leaf :=
  cbv zeta;
  repeat (first
    [ apply keeps_ret; typeclasses eauto
    | apply keeps_raise; typeclasses eauto
    | apply keeps_lift; typeclasses eauto
    | apply keeps_get_state; typeclasses eauto
    | apply (keeps_weaken io_only); [exact implied | apply io_only_request]
    | apply (keeps_weaken io_only); [exact implied | apply io_only_logger]
    | apply keeps_attempt
    | (apply keeps_bind; try typeclasses eauto); [|intros ?]
    | (apply keeps_try; try typeclasses eauto); [|intros ?]
    | (apply keeps_for_each; try typeclasses eauto); intros ?
    | match goal with
      | |- keeps _ (if ?b then _ else _) => destruct b
      | |- keeps _ (match ?x with _ => _ end) => destruct x
      end
    | leaf ]; cbv zeta).

(** An absent key is stored last. *)
Lemma store_set_fresh {V} (k : string) (v : V) (store : list (string * V)) :
  k ∉ map fst store -> store_set k v store = store ++ [(k, v)].
Proof.
  induction store as [|[k' v'] store IH]; simpl; intros Hk; [reflexivity|].
  apply not_elem_of_cons in Hk as [Hne Hk].
  destruct (String.eqb_spec k' k) as [->|_]; [done|]. by rewrite IH.
Qed.

Section RuleStore.

Context (py : Python) (discord : Discord).

Lemma schedule_task_rules now created_at arguments :
  keeps same_rules (schedule_task py now created_at arguments).
Proof.
  unfold schedule_task, submit, next_scheduled_task_id.
  keeps_walk io_only_same_rules ltac:(by intros []).
Qed.

Lemma send_scheduled_message_rules now created_at arguments :
  keeps same_rules (send_scheduled_message py now created_at arguments).
Proof.
  unfold send_scheduled_message, submit, next_scheduled_task_id.
  keeps_walk io_only_same_rules ltac:(by intros []).
Qed.

(** [create_automation_rule] takes the next id first; it stores the rule
    under it, or raises [KeyError] for a missing field and stores nothing. *)
Lemma create_automation_rule_effect now arguments st :
  let c := automation_rule_counter st in
  let r := create_automation_rule py now arguments st in
  scheduled_tasks r.2 = scheduled_tasks st
  /\ api_calls r.2 = api_calls st
  /\ log r.2 = log st
  /\ automation_rule_counter r.2 = c + 1
  /\ match r.1 with
     | inl e =>
         automation_rules r.2 = automation_rules st
         /\ exn_class e = "KeyError"
         /\ dict_mem "name" arguments && dict_mem "trigger_type" arguments
            && dict_mem "action_type" arguments = false
     | inr out =>
         exists rule name,
           automation_rules r.2 = store_set (str_of_Z (c + 1)) rule (automation_rules st)
           /\ dict_lookup "id" rule = Some (VStr (str_of_Z (c + 1)))
           /\ dict_lookup "enabled" rule = Some (dict_get arguments "enabled" (VBool true))
           /\ dict_lookup "action_payload" rule
              = Some (dict_get arguments "action_payload" (VDict []))
           /\ dict_lookup "name" arguments = Some name
           /\ out = [TextContent ("Created automation rule " +:+ str_of_Z (c + 1) +:+ ": "
                                  +:+ py_str py name)]
           /\ dict_mem "name" arguments && dict_mem "trigger_type" arguments
              && dict_mem "action_type" arguments = true
     end.
Proof.
  cbv zeta. unfold create_automation_rule, next_automation_rule_id, py_index, dict_mem.
  unfold_M. destruct st as [client tasks tc rules rc calls lg rs]. simpl.
  destruct (dict_lookup "name" arguments) as [name|]; simpl; [|by repeat split].
  destruct (dict_lookup "trigger_type" arguments) as [tt|]; simpl; [|by repeat split].
  destruct (dict_lookup "action_type" arguments) as [at_|]; simpl; [|by repeat split].
  repeat split. eexists _, name. repeat split.
Qed.

Lemma create_automation_rule_step now arguments st :
  rules_step st (create_automation_rule py now arguments st).2.
Proof.
  pose proof (create_automation_rule_effect now arguments st) as H. cbv zeta in H.
  destruct H as (_ & _ & _ & Hc & H).
  destruct (create_automation_rule py now arguments st).1 as [e|out].
  - left. destruct H as (Hr & _). split; [done|by right].
  - right. destruct H as (rule & name & Hr & Hid & _). by exists rule.
Qed.

Lemma same_rules_step st st' : same_rules st st' -> rules_step st st'.
Proof. intros (Hr & Hc). left. split; [done|by left]. Qed.

Lemma call_tool_rules now created_at name arguments st :
  rules_step st (call_tool py discord now created_at name arguments st).2.
Proof.
  assert (Hfw : forall st0, same_rules st0
            (request (CTool name arguments)
                     (fun h => proxied_tool discord h name arguments) st0).2).
  { intros st0. apply io_only_same_rules, io_only_request. }
  unfold call_tool.
  rewrite (bind_returns get_state _ st st st eq_refl).
  destruct (negb (discord_client st)); [by apply same_rules_step|].
  destruct arguments as [| | | | | |d]; try (apply same_rules_step, Hfw).
  destruct (String.eqb name "schedule_task");
    [apply same_rules_step, schedule_task_rules|].
  destruct (String.eqb name "send_scheduled_message");
    [apply same_rules_step, send_scheduled_message_rules|].
  destruct (String.eqb name "create_automation_rule").
  { apply create_automation_rule_step. }
  destruct (String.eqb name "auto_moderate_by_pattern").
  { apply same_rules_step, io_only_same_rules.
    assert (H : keeps io_only (r ← auto_moderate_by_pattern py discord d; mret r.2)).
    { (apply keeps_bind; try typeclasses eauto);
        [apply auto_moderate_by_pattern_io | intros ?; apply keeps_ret; typeclasses eauto]. }
    apply H. }
  apply same_rules_step, Hfw.
Qed.

Lemma finish_rules now created_at i r st :
  let st1 := (call_tool py discord now created_at (runner_task_type r) (runner_payload r) st).2 in
  same_rules st1 (run_scheduled_task_finish py discord now created_at i r st).2.
Proof.
  cbv zeta. unfold run_scheduled_task_finish. unfold_M.
  by destruct (call_tool py discord now created_at (runner_task_type r) (runner_payload r) st)
    as [[e|result] st1].
Qed.

Lemma step_rules st st' : step py discord st st' -> rules_step st st'.
Proof.
  intros Hstep. destruct Hstep.
  - apply same_rules_step. by destruct st.
  - apply same_rules_step. by destruct st.
  - apply same_rules_step, io_only_same_rules, on_member_join_io.
  - apply same_rules_step, io_only_same_rules, on_reaction_add_io.
  - apply same_rules_step, io_only_same_rules, on_reaction_remove_io.
  - apply call_tool_rules.
  - apply same_rules_step. unfold run_scheduled_task_wake. unfold_M.
    by destruct (scheduled_tasks st !! runner_task_id r).
  - pose proof (finish_rules now created_at i r st) as (Hr & Hc). cbv zeta in *.
    pose proof (call_tool_rules now created_at (runner_task_type r) (runner_payload r) st) as Htool.
    unfold rules_step in *. rewrite Hr, Hc. exact Htool.
Qed.

(** In a state that satisfies the invariant the next id is in no stored
    rule. *)
Lemma next_rule_id_fresh st :
  rules_invariant st ->
  str_of_Z (automation_rule_counter st + 1) ∉ map fst (automation_rules st).
Proof.
  intros Hinv Hin. apply list_elem_of_fmap in Hin as ([id rule] & Hid & Hin). simpl in Hid.
  destruct (rule_ids _ Hinv _ _ Hin) as (n & Hn & Hle). subst id.
  apply str_of_Z_inj in Hn. lia.
Qed.

Lemma rules_step_preserves st st' :
  rules_invariant st -> rules_step st st' ->
  rules_invariant st'
  /\ exists added, automation_rules st' = automation_rules st ++ added.
Proof.
  intros Hinv [(Hr & Hc)|(rule & Hr & Hc & Hid)].
  - split; [|exists []; by rewrite app_nil_r].
    destruct Hinv as [H1 H2 H3 H4]. split; rewrite ?Hr; auto.
    + intros id rule Hin. destruct (H1 _ _ Hin) as (n & ? & ?). exists n. split; [done|lia].
    + lia.
  - rewrite store_set_fresh in Hr by by apply next_rule_id_fresh.
    split; [|by eexists].
    pose proof (next_rule_id_fresh st Hinv) as Hfresh.
    destruct Hinv as [H1 H2 H3 H4]. split; rewrite ?Hr, ?Hc.
    + intros id rule' Hin. apply elem_of_app in Hin as [Hin|Hin].
      * destruct (H1 _ _ Hin) as (n & ? & ?). exists n. split; [done|lia].
      * apply list_elem_of_singleton in Hin as [= -> ->]. eexists. split; [reflexivity|lia].
    + intros id rule' Hin. apply elem_of_app in Hin as [Hin|Hin]; [eauto|].
      by apply list_elem_of_singleton in Hin as [= -> ->].
    + rewrite map_app. apply NoDup_app. split; [done|]. split; [|apply NoDup_singleton].
      intros id Hin Hnew. apply list_elem_of_singleton in Hnew. simpl in Hnew. by subst id.
    + lia.
Qed.

Lemma initial_rules_invariant : rules_invariant initial.
Proof.
  split; simpl; try done.
  - intros id rule Hin. by apply elem_of_nil in Hin.
  - intros id rule Hin. by apply elem_of_nil in Hin.
  - constructor.
Qed.

Lemma reachable_rules_invariant st : reachable py discord st -> rules_invariant st.
Proof.
  unfold reachable. revert st.
  apply (rtc_ind_r (fun s => rules_invariant s) initial).
  - apply initial_rules_invariant.
  - intros st0 st1 _ Hstep Hinv. by apply (rules_step_preserves st0 st1 Hinv), step_rules.
Qed.

(** X1. In a reachable state, a call of [create_automation_rule] that
    returns has stored its rule after all the rules that were there, under the
    counter's next value, which no stored rule has: no stored rule is
    replaced.  The new rule carries its id, is enabled unless the arguments say
    otherwise, and its payload is the empty dict when the arguments have
    none. *)
Theorem created_rule_is_last (now : string) (arguments : dict) (st : State)
    (out : list Content) (st' : State) :
  reachable py discord st ->
  create_automation_rule py now arguments st = (inr out, st') ->
  let rule_id := str_of_Z (automation_rule_counter st + 1) in
  exists rule,
    automation_rules st' = automation_rules st ++ [(rule_id, rule)]
    /\ automation_rule_counter st' = automation_rule_counter st + 1
    /\ (rule_id ∉ map fst (automation_rules st))
    /\ dict_lookup "id" rule = Some (VStr rule_id)
    /\ dict_lookup "enabled" rule = Some (dict_get arguments "enabled" (VBool true))
    /\ dict_lookup "action_payload" rule
       = Some (dict_get arguments "action_payload" (VDict [])).
Proof.
  intros Hreach Hrun rule_id.
  pose proof (reachable_rules_invariant st Hreach) as Hinv.
  pose proof (create_automation_rule_effect now arguments st) as H. cbv zeta in H.
  rewrite Hrun in H. simpl in H.
  destruct H as (_ & _ & _ & Hc & rule & name & Hr & Hid & Hen & Hpay & _).
  exists rule. rewrite store_set_fresh in Hr by by apply next_rule_id_fresh.
  repeat split; try done. by apply next_rule_id_fresh.
Qed.

(** X2. A call of [create_automation_rule] without [name], [trigger_type] or
    [action_type] raises [KeyError] and stores no rule, but the id it took is
    used up: the rule counter has moved by one, and nothing else in the state
    has changed. *)
Theorem rejected_rule_uses_an_id (now : string) (arguments : dict) (st : State) :
  dict_mem "name" arguments && dict_mem "trigger_type" arguments
  && dict_mem "action_type" arguments = false ->
  exists e,
    exn_class e = "KeyError"
    /\ create_automation_rule py now arguments st
       = (inl e, with_rule_counter st (automation_rule_counter st + 1)).
Proof.
  intros Hmissing.
  unfold create_automation_rule, next_automation_rule_id, py_index, dict_mem in *.
  unfold_M. simpl.
  destruct (dict_lookup "name" arguments) as [name|]; simpl;
    [|eexists; split; [|reflexivity]; reflexivity].
  destruct (dict_lookup "trigger_type" arguments) as [tt|]; simpl;
    [|eexists; split; [|reflexivity]; reflexivity].
  destruct (dict_lookup "action_type" arguments) as [at_|]; simpl;
    [|eexists; split; [|reflexivity]; reflexivity].
  discriminate.
Qed.

(** X3. No turn of the event loop changes or removes a stored rule: from a
    reachable state on, the rule store only grows at its end, so a rule once
    created keeps its content, its [enabled] entry and its place for ever. *)
Theorem rules_only_appended (st st' : State) :
  reachable py discord st ->
  rtc (step py discord) st st' ->
  exists added, automation_rules st' = automation_rules st ++ added.
Proof.
  intros Hreach Hrtc. pose proof (reachable_rules_invariant st Hreach) as Hinv.
  clear Hreach. induction Hrtc as [st|s1 s2 s3 Hstep Hrtc IH].
  - exists []. by rewrite app_nil_r.
  - destruct (rules_step_preserves s1 s2 Hinv (step_rules _ _ Hstep)) as (Hinv2 & a1 & H1).
    destruct (IH Hinv2) as (a2 & H2). exists (a1 ++ a2). by rewrite H2, H1, app_assoc.
Qed.

(** X4. In a reachable state no id is stored twice, each stored rule carries
    the id it is stored under, and the ids are decimal numbers between 1 and
    the rule counter. *)
Theorem rule_store_wellformed (st : State) :
  reachable py discord st ->
  NoDup (map fst (automation_rules st))
  /\ forall id rule,
       (id, rule) ∈ automation_rules st ->
       dict_lookup "id" rule = Some (VStr id)
       /\ exists n, id = str_of_Z n /\ 1 <= n <= automation_rule_counter st.
Proof.
  intros Hreach. destruct (reachable_rules_invariant st Hreach) as [H1 H2 H3 _].
  split; [done|]. intros id rule Hin. split; eauto.
Qed.

End RuleStore.

(** ** The task store *)

Section TaskStore.

Context (py : Python) (discord : Discord).

Lemma submitted_as_submitted ty run_at created_at payload st st' :
  submitted_as py ty run_at created_at payload st st' -> submitted py st st'.
Proof. intros H. by exists ty, run_at, created_at, payload. Qed.

Lemma check_task_type_allowed v ty :
  check_task_type v = inr ty -> v = VStr ty /\ ty ∈ allowed.
Proof.
  destruct v as [| | | |s| |]; unfold check_task_type; try discriminate.
  destruct (existsb (String.eqb s) allowed) eqn:H; [|discriminate].
  intros [= <-]. split; [done|].
  apply existsb_exists in H as (x & Hin & Heq). apply String.eqb_eq in Heq as ->.
  by apply list_elem_of_In.
Qed.

(** [schedule_task] raises before it touches the state, or submits one task
    and returns. *)
Lemma schedule_task_outcome now created_at arguments st :
  match schedule_task py now created_at arguments st with
  | (inl _, st') => st' = st
  | (inr out, st') =>
      exists ty run_at,
        dict_lookup "task_type" arguments = Some (VStr ty)
        /\ ty ∈ allowed
        /\ resolve_run_at py now arguments = inr run_at
        /\ submitted_as py ty run_at created_at
             (dict_get arguments "task_payload" (VDict [])) st st'
        /\ out = [TextContent ("Scheduled task " +:+ str_of_Z (scheduled_task_counter st + 1)
                               +:+ " (" +:+ ty +:+ ") for " +:+ isoformat py run_at)]
  end.
Proof.
  unfold schedule_task, submit, next_scheduled_task_id, py_index. unfold_M.
  destruct (dict_lookup "task_type" arguments) as [task_type|]; simpl; [|done].
  destruct (check_task_type task_type) as [e|ty] eqn:Hty; simpl; [done|].
  apply check_task_type_allowed in Hty as (-> & Hty).
  destruct (resolve_run_at py now arguments) as [e|run_at]; simpl; [done|].
  exists ty, run_at. by repeat split.
Qed.

Lemma send_scheduled_message_outcome now created_at arguments st :
  match send_scheduled_message py now created_at arguments st with
  | (inl _, st') => st' = st
  | (inr out, st') =>
      exists run_at channel_id content,
        resolve_run_at py now arguments = inr run_at
        /\ dict_lookup "channel_id" arguments = Some channel_id
        /\ dict_lookup "content" arguments = Some content
        /\ submitted_as py "send_message" run_at created_at
             (VDict [("channel_id", channel_id); ("content", content)]) st st'
        /\ out = [TextContent ("Scheduled message "
                               +:+ str_of_Z (scheduled_task_counter st + 1)
                               +:+ " for " +:+ isoformat py run_at)]
  end.
Proof.
  unfold send_scheduled_message, submit, next_scheduled_task_id, py_index. unfold_M.
  destruct (resolve_run_at py now arguments) as [e|run_at]; simpl; [done|].
  destruct (dict_lookup "channel_id" arguments) as [channel_id|]; simpl; [|done].
  destruct (dict_lookup "content" arguments) as [content|]; simpl; [|done].
  exists run_at, channel_id, content. by repeat split.
Qed.

Lemma send_message_allowed : "send_message" ∈ allowed.
Proof. apply list_elem_of_In. simpl. auto. Qed.

Lemma call_tool_served now created_at name arguments st :
  served py st (call_tool py discord now created_at name arguments st).2.
Proof.
  assert (Hfw : forall st0, same_scheduler st0
            (request (CTool name arguments)
                     (fun h => proxied_tool discord h name arguments) st0).2).
  { intros st0. apply io_only_same_scheduler, io_only_request. }
  unfold call_tool.
  rewrite (bind_returns get_state _ st st st eq_refl).
  destruct (negb (discord_client st)); [by left|].
  destruct arguments as [| | | | | |d]; try (left; apply Hfw).
  destruct (String.eqb name "schedule_task").
  { pose proof (schedule_task_outcome now created_at d st) as H.
    destruct (schedule_task py now created_at d st) as [[e|out] st1]; simpl.
    - subst st1. by left.
    - destruct H as (ty & run_at & _ & Hty & _ & Hsub & _). right. eauto 10. }
  destruct (String.eqb name "send_scheduled_message").
  { pose proof (send_scheduled_message_outcome now created_at d st) as H.
    destruct (send_scheduled_message py now created_at d st) as [[e|out] st1]; simpl.
    - subst st1. by left.
    - destruct H as (run_at & c & m & _ & _ & _ & Hsub & _). right.
      eauto 10 using send_message_allowed. }
  destruct (String.eqb name "create_automation_rule").
  { left. apply create_automation_rule_scheduler. }
  destruct (String.eqb name "auto_moderate_by_pattern").
  { left. apply io_only_same_scheduler.
    assert (H : keeps io_only (r ← auto_moderate_by_pattern py discord d; mret r.2)).
    { (apply keeps_bind; try typeclasses eauto);
        [apply auto_moderate_by_pattern_io | intros ?; apply keeps_ret; typeclasses eauto]. }
    apply H. }
  left. apply Hfw.
Qed.

(** A tool call keeps the invariant, the records and the coroutines. *)
Lemma served_keeps st st1 :
  scheduler_invariant st -> served py st st1 ->
  scheduler_invariant st1
  /\ (forall id t, scheduled_tasks st !! id = Some t -> scheduled_tasks st1 !! id = Some t)
  /\ (forall i r, runners st !! i = Some r -> runners st1 !! i = Some r).
Proof.
  intros Hinv [H|(ty & run_at & created & payload & _ & H)].
  - destruct (same_scheduler_preserves _ _ H Hinv) as (? & ? & _ & ?). auto.
  - apply submitted_as_submitted in H.
    destruct (submitted_preserves py _ _ H Hinv) as (? & ? & _ & ?). auto.
Qed.

Lemma fresh_outcome id ty run_at created payload :
  outcome_by_status (mkTask id ty run_at created "scheduled" payload None None).
Proof.
  unfold outcome_by_status. simpl. split; [|split]; [done | intros; discriminate..].
Qed.

Lemma served_records st st1 :
  scheduler_invariant st -> records_invariant st -> served py st st1 ->
  records_invariant st1.
Proof.
  intros Hinv Hrec [(Ht & Hc & Hr)|(ty & run_at & created & payload & Hty & Ht & Hc & Hr)].
  - destruct Hrec. split; rewrite ?Ht, ?Hc, ?Hr; auto.
  - cbv zeta in *. pose proof (next_id_fresh st Hinv) as Hfresh.
    set (new_id := str_of_Z (scheduled_task_counter st + 1)) in *.
    destruct Hrec as [H1 H2 H3 H4 H5 H6].
    split.
    + intros id t. rewrite Ht. destruct (decide (new_id = id)) as [<-|Hne].
      * rewrite lookup_insert_eq. by intros [= <-].
      * rewrite lookup_insert_ne by done. apply H1.
    + intros id t. rewrite Ht. destruct (decide (new_id = id)) as [<-|Hne].
      * rewrite lookup_insert_eq. by intros [= <-].
      * rewrite lookup_insert_ne by done. apply H2.
    + intros i r. rewrite Hr. intros Hi.
      apply lookup_app_Some in Hi as [Hi|[Hlen Hi]]; [eauto|].
      apply list_lookup_singleton_Some in Hi as [Hi <-]. simpl.
      unfold new_id. f_equal. lia.
    + intros i r t. rewrite Hr, Ht. intros Hi.
      apply lookup_app_Some in Hi as [Hi|[Hlen Hi]].
      * destruct (inv_coupled _ Hinv _ _ Hi) as (t0 & Hlook & _).
        rewrite lookup_insert_ne by congruence. eauto.
      * apply list_lookup_singleton_Some in Hi as [Hi <-]. simpl.
        rewrite lookup_insert_eq. by intros [= <-].
    + rewrite Hr, Hc, length_app. simpl. lia.
    + intros id t. rewrite Ht. destruct (decide (new_id = id)) as [<-|Hne].
      * rewrite lookup_insert_eq. intros [= <-]. apply fresh_outcome.
      * rewrite lookup_insert_ne by done. apply H6.
Qed.

(** What is found in a store after one record was rewritten. *)
Lemma lookup_rewritten (f : Task -> Task) (k id : string) (m : gmap string Task) (t' : Task) :
  alter f k m !! id = Some t' ->
  exists t, m !! id = Some t /\ ((k <> id /\ t' = t) \/ (k = id /\ t' = f t)).
Proof.
  destruct (decide (k = id)) as [<-|Hne].
  - rewrite lookup_alter_eq. destruct (m !! k) as [t|]; simpl; [|done].
    intros [= <-]. eauto.
  - rewrite lookup_alter_ne by done. eauto.
Qed.

Lemma advanced_records st st' i r f pc :
  scheduler_invariant st -> records_invariant st ->
  runners st !! i = Some r ->
  advanced f (runner_task_id r) i pc st st' ->
  (forall t, same_record t (f t)) ->
  (forall t, coupled (runner_pc r) (task_status t) ->
             outcome_by_status t -> outcome_by_status (f t)) ->
  records_invariant st'.
Proof.
  intros Hinv [H1 H2 H3 H4 H5 H6] Hi (Ht & Hc & Hr) Hsame Hout.
  destruct (inv_coupled _ Hinv _ _ Hi) as (t0 & Hlook & Hcoupled).
  split.
  - intros id t'. rewrite Ht. intros H.
    apply lookup_rewritten in H as (t & Hid & [[_ ->]|[_ ->]]); [eauto|].
    destruct (Hsame t) as (-> & _). eauto.
  - intros id t'. rewrite Ht. intros H.
    apply lookup_rewritten in H as (t & Hid & [[_ ->]|[_ ->]]); [eauto|].
    destruct (Hsame t) as (_ & -> & _). eauto.
  - intros j r'. rewrite Hr. destruct (decide (i = j)) as [<-|Hne].
    + rewrite list_lookup_alter_eq, Hi. intros [= <-]. simpl. eauto.
    + rewrite list_lookup_alter_ne by done. eauto.
  - intros j r' t'. rewrite Hr, Ht. intros Hj H.
    apply lookup_rewritten in H as (t & Hid & Hcase).
    assert (exists r0, runners st !! j = Some r0
                       /\ runner_task_id r' = runner_task_id r0
                       /\ runner_task_type r' = runner_task_type r0
                       /\ runner_payload r' = runner_payload r0) as (r0 & Hj0 & Hid0 & -> & ->).
    { destruct (decide (i = j)) as [<-|Hne].
      - rewrite list_lookup_alter_eq, Hi in Hj. injection Hj as <-. by exists r.
      - rewrite list_lookup_alter_ne in Hj by done. by exists r'. }
    rewrite Hid0 in Hid.
    destruct (H4 _ _ _ Hj0 Hid) as (Hty & Hpay).
    destruct Hcase as [[_ ->]|[_ ->]]; [done|].
    destruct (Hsame t) as (_ & -> & _ & _ & ->). done.
  - by rewrite Hr, Hc, length_alter.
  - intros id t'. rewrite Ht. intros H.
    apply lookup_rewritten in H as (t & Hid & [[_ ->]|[<- ->]]); [eauto|].
    apply Hout; [|eauto]. by assert (t = t0) as -> by congruence.
Qed.

Lemma closing_same_record f t : closing py f -> same_record t (f t).
Proof.
  intros [(result & ->)|(exc & ->)]; [|done].
  by destruct result as [|[]].
Qed.

Lemma closing_outcome f t :
  closing py f -> coupled Awaiting (task_status t) ->
  outcome_by_status t -> outcome_by_status (f t).
Proof.
  simpl. intros Hf Hrun (Hopen & _ & _). destruct (Hopen (or_intror Hrun)) as (Hres & Herr).
  destruct Hf as [(result & ->)|(exc & ->)].
  - assert (task_status (store_result py result (set_status "completed" t)) = "completed"
            /\ task_error (store_result py result (set_status "completed" t)) = None)
      as (Hs & He) by (by destruct result as [|[]]).
    unfold outcome_by_status. rewrite Hs, He. split; [|split].
    + intros [?|?]; discriminate.
    + done.
    + intros; discriminate.
  - unfold outcome_by_status. simpl. split; [|split].
    + intros [?|?]; discriminate.
    + intros; discriminate.
    + intros _. split; [exact Hres | eauto].
Qed.

Lemma closing_terminal f t : closing py f -> terminal (task_status (f t)).
Proof.
  intros [(result & ->)|(exc & ->)]; [left|by right].
  by rewrite store_result_status.
Qed.

Lemma turn_records st st' :
  scheduler_invariant st -> records_invariant st -> turn py st st' -> records_invariant st'.
Proof.
  intros Hinv Hrec [Hserved|i r Hi Hpc Hadv|i r f st1 Hi Hpc Hserved Hf Hadv].
  - by eapply served_records.
  - eapply advanced_records; eauto.
    + by intros t.
    + rewrite Hpc. simpl. intros t Hs (Hopen & _ & _).
      destruct (Hopen (or_introl Hs)) as (Hres & Herr).
      unfold outcome_by_status. simpl. split; [|split]; [done | intros; discriminate..].
  - destruct (served_keeps _ _ Hinv Hserved) as (Hinv1 & _ & Hrunners).
    eapply (advanced_records st1); eauto using served_records, closing_same_record.
    rewrite Hpc. eauto using closing_outcome.
Qed.

(** Every turn of the loop has one of the three shapes. *)
Lemma step_turn st st' : scheduler_invariant st -> step py discord st st' -> turn py st st'.
Proof.
  intros Hinv Hstep. destruct Hstep as [| | | | | |i r st Hi Hpc|now created_at i r st Hi Hpc].
  - apply turn_served. left. by destruct st.
  - apply turn_served. left. by destruct st.
  - apply turn_served. left. apply io_only_same_scheduler, on_member_join_io.
  - apply turn_served. left. apply io_only_same_scheduler, on_reaction_add_io.
  - apply turn_served. left. apply io_only_same_scheduler, on_reaction_remove_io.
  - apply turn_served, call_tool_served.
  - destruct (inv_coupled _ Hinv _ _ Hi) as (t & Hlook & _).
    apply (turn_wake py _ _ i r Hi Hpc).
    unfold run_scheduled_task_wake. unfold_M. rewrite Hlook. simpl.
    repeat split. simpl. by apply insert_as_alter.
  - pose proof (call_tool_served now created_at (runner_task_type r) (runner_payload r) st)
      as Hserved.
    unfold run_scheduled_task_finish. unfold_M.
    destruct (call_tool py discord now created_at (runner_task_type r) (runner_payload r) st)
      as [[e|result] st1]; simpl in *.
    + apply (turn_finish py _ _ i r
               (fun t => set_error (exn_text e) (set_status "failed" t)) st1 Hi Hpc Hserved).
      * right. by exists e.
      * by repeat split.
    + apply (turn_finish py _ _ i r
               (fun t => store_result py result (set_status "completed" t)) st1 Hi Hpc Hserved).
      * left. by exists result.
      * by repeat split.
Qed.

Lemma initial_records : records_invariant initial.
Proof.
  split; simpl; done.
Qed.

Lemma reachable_records st :
  reachable py discord st -> scheduler_invariant st /\ records_invariant st.
Proof.
  unfold reachable. revert st.
  apply (rtc_ind_r (fun s => scheduler_invariant s /\ records_invariant s) initial).
  - split; [apply initial_invariant | apply initial_records].
  - intros st0 st1 _ Hstep (Hinv & Hrec). split.
    + by eapply step_preserves.
    + eapply turn_records; eauto using step_turn.
Qed.

(** What a turn leaves of a record: the entries written at submission, and
    the whole record once it is closed. *)
Lemma turn_keeps_record st st' id t :
  scheduler_invariant st -> turn py st st' ->
  scheduled_tasks st !! id = Some t ->
  exists t', scheduled_tasks st' !! id = Some t'
             /\ same_record t t'
             /\ (terminal (task_status t) -> t' = t).
Proof.
  intros Hinv [Hserved|i r Hi Hpc (Ht & _ & _)|i r f st1 Hi Hpc Hserved Hf (Ht & _ & _)] Hid.
  - destruct (served_keeps _ _ Hinv Hserved) as (_ & Hkeep & _). exists t. repeat split; auto.
  - destruct (inv_coupled _ Hinv _ _ Hi) as (t0 & Hlook & Hcoupled).
    rewrite Hpc in Hcoupled. simpl in Hcoupled. rewrite Ht.
    destruct (decide (runner_task_id r = id)) as [<-|Hne].
    + rewrite lookup_alter_eq, Hid. simpl. eexists. split; [reflexivity|]. split; [done|].
      assert (t0 = t) as -> by congruence. rewrite Hcoupled. by intros [|].
    + rewrite lookup_alter_ne by done. exists t. repeat split; auto.
  - destruct (served_keeps _ _ Hinv Hserved) as (Hinv1 & Hkeep & Hrunners).
    destruct (inv_coupled _ Hinv _ _ Hi) as (t0 & Hlook & Hcoupled).
    rewrite Hpc in Hcoupled. simpl in Hcoupled. rewrite Ht.
    destruct (decide (runner_task_id r = id)) as [<-|Hne].
    + rewrite lookup_alter_eq, (Hkeep _ _ Hid). simpl. eexists. split; [reflexivity|].
      split; [by apply closing_same_record|].
      assert (t0 = t) as -> by congruence. rewrite Hcoupled. by intros [|].
    + rewrite lookup_alter_ne by done. exists t. repeat split; auto.
Qed.

Lemma same_record_trans t1 t2 t3 : same_record t1 t2 -> same_record t2 t3 -> same_record t1 t3.
Proof. unfold same_record. intros (?&?&?&?&?) (?&?&?&?&?). repeat split; congruence. Qed.

Lemma run_keeps_record st st' id t :
  scheduler_invariant st -> rtc (step py discord) st st' ->
  scheduled_tasks st !! id = Some t ->
  exists t', scheduled_tasks st' !! id = Some t'
             /\ same_record t t'
             /\ (terminal (task_status t) -> t' = t).
Proof.
  intros Hinv Hrtc. revert t Hinv.
  induction Hrtc as [st|s1 s2 s3 Hstep Hrtc IH]; intros t Hinv Hid.
  - exists t. by repeat split.
  - destruct (turn_keeps_record s1 s2 id t Hinv (step_turn _ _ Hinv Hstep) Hid)
      as (t2 & Hid2 & Hsame2 & Hterm2).
    destruct (step_preserves py discord _ _ Hinv Hstep) as (Hinv2 & _).
    destruct (IH t2 Hinv2 Hid2) as (t3 & Hid3 & Hsame3 & Hterm3).
    exists t3. split; [done|]. split; [by eapply same_record_trans|].
    intros Hterminal. specialize (Hterm2 Hterminal). subst t2. auto.
Qed.

(** X5. In a reachable state the task store holds exactly the ids handed out
    so far, the decimal numbers from 1 to the counter.  Each record carries the
    id it is stored under and a type from the allowed list, and exactly one
    coroutine runs it, with the type and the payload the record shows. *)
Theorem task_store_wellformed (st : State) :
  reachable py discord st ->
  (forall id t,
     scheduled_tasks st !! id = Some t ->
     task_id t = id
     /\ task_type t ∈ allowed
     /\ exists n, id = str_of_Z n /\ 1 <= n <= scheduled_task_counter st)
  /\ (forall n,
        1 <= n <= scheduled_task_counter st -> is_Some (scheduled_tasks st !! str_of_Z n))
  /\ (forall id t,
        scheduled_tasks st !! id = Some t ->
        exists i r,
          runners st !! i = Some r
          /\ runner_task_id r = id
          /\ runner_task_type r = task_type t
          /\ runner_payload r = task_payload t
          /\ forall j r', runners st !! j = Some r' -> runner_task_id r' = id -> j = i).
Proof.
  intros Hreach. destruct (reachable_records st Hreach) as (Hinv & Hrec).
  split; [|split].
  - intros id t Hid. split; [by eapply rec_self|]. split; [by eapply rec_type|].
    destruct (inv_owner _ Hinv _ _ Hid) as (i & r & Hi & <-).
    exists (Z.of_nat i + 1). split; [by eapply rec_place|].
    apply lookup_lt_Some in Hi. pose proof (rec_count _ Hrec). lia.
  - intros n Hn. pose proof (rec_count _ Hrec) as Hcount.
    destruct (lookup_lt_is_Some_2 (runners st) (Z.to_nat (n - 1))) as [r Hr]; [lia|].
    destruct (inv_coupled _ Hinv _ _ Hr) as (t & Hlook & _).
    rewrite (rec_place _ Hrec _ _ Hr) in Hlook.
    replace (Z.of_nat (Z.to_nat (n - 1)) + 1) with n in Hlook by lia. eauto.
  - intros id t Hid. destruct (inv_owner _ Hinv _ _ Hid) as (i & r & Hi & <-).
    destruct (rec_closure _ Hrec _ _ _ Hi Hid) as (Hty & Hpay).
    exists i, r. repeat split; auto.
    intros j r' Hj Hsame. symmetry. by eapply runner_ids_distinct.
Qed.

(** X6. From a reachable state on, a task stays in the store for ever, and
    what was written at its submission (its id, type, due time, creation time
    and payload) is never changed; only [status], [result] and [error] are. *)
Theorem task_record_immutable (st st' : State) (id : string) (t : Task) :
  reachable py discord st ->
  rtc (step py discord) st st' ->
  scheduled_tasks st !! id = Some t ->
  exists t', scheduled_tasks st' !! id = Some t' /\ same_record t t'.
Proof.
  intros Hreach Hrtc Hid. destruct (reachable_records st Hreach) as (Hinv & _).
  destruct (run_keeps_record st st' id t Hinv Hrtc Hid) as (t' & ? & ? & _). eauto.
Qed.

(** X7. A task that is [completed] or [failed] is never written to again:
    whatever the loop does afterwards, the store holds the very same record,
    with its result or its error. *)
Theorem finished_task_frozen (st st' : State) (id : string) (t : Task) :
  reachable py discord st ->
  rtc (step py discord) st st' ->
  scheduled_tasks st !! id = Some t ->
  terminal (task_status t) ->
  scheduled_tasks st' !! id = Some t.
Proof.
  intros Hreach Hrtc Hid Hterminal. destruct (reachable_records st Hreach) as (Hinv & _).
  destruct (run_keeps_record st st' id t Hinv Hrtc Hid) as (t' & Hid' & _ & Heq).
  by rewrite Hid', (Heq Hterminal).
Qed.

(** X8. In a reachable state the outcome entries of a record go with its
    status: a task that is [scheduled] or [running] has neither [result] nor
    [error]; a [completed] task has no [error]; a [failed] task has an [error]
    and no [result]. *)
Theorem outcome_matches_status (st : State) (id : string) (t : Task) :
  reachable py discord st ->
  scheduled_tasks st !! id = Some t ->
  (task_status t = "scheduled" \/ task_status t = "running" ->
   task_result t = None /\ task_error t = None)
  /\ (task_status t = "completed" -> task_error t = None)
  /\ (task_status t = "failed" -> task_result t = None /\ is_Some (task_error t)).
Proof.
  intros Hreach Hid. destruct (reachable_records st Hreach) as (_ & Hrec).
  exact (rec_outcome _ Hrec _ _ Hid).
Qed.

(** None of the allowed task types is a tool embedded here: each is served
    by Discord. *)
Lemma allowed_forwarded name :
  name ∈ allowed ->
  String.eqb name "schedule_task" = false
  /\ String.eqb name "send_scheduled_message" = false
  /\ String.eqb name "create_automation_rule" = false
  /\ String.eqb name "auto_moderate_by_pattern" = false.
Proof.
  intros H. apply list_elem_of_In in H. simpl in H.
  destruct H as [<-|[<-|[<-|[]]]]; done.
Qed.

Lemma call_tool_allowed now created_at name arguments st :
  name ∈ allowed -> discord_client st = true ->
  call_tool py discord now created_at name arguments st
  = (proxied_tool discord (api_calls st) name arguments,
     with_calls st (api_calls st ++ [CTool name arguments])).
Proof.
  intros Hname Hclient. destruct (allowed_forwarded name Hname) as (H1 & H2 & H3 & H4).
  unfold call_tool. rewrite (bind_returns get_state _ st st st eq_refl), Hclient. simpl.
  destruct arguments; try reflexivity. by rewrite H1, H2, H3, H4.
Qed.

(** The end of a run closes the record of the coroutine's task, after what
    its callable did as a tool call. *)
Lemma finish_shape now created_at i r st :
  exists f st1,
    served py st st1
    /\ closing py f
    /\ advanced f (runner_task_id r) i Finished st1
         (run_scheduled_task_finish py discord now created_at i r st).2.
Proof.
  pose proof (call_tool_served now created_at (runner_task_type r) (runner_payload r) st)
    as Hserved.
  unfold run_scheduled_task_finish. unfold_M.
  destruct (call_tool py discord now created_at (runner_task_type r) (runner_payload r) st)
    as [[e|result] st1]; simpl in *.
  - exists (fun t => set_error (exn_text e) (set_status "failed" t)), st1.
    split; [done|]. split; [right; by exists e|]. by repeat split.
  - exists (fun t => store_result py result (set_status "completed" t)), st1.
    split; [done|]. split; [left; by exists result|]. by repeat split.
Qed.

(** The coroutine of a task is where the task's status says. *)
Lemma runner_of_task st id t :
  scheduler_invariant st -> scheduled_tasks st !! id = Some t ->
  exists i r, runners st !! i = Some r /\ runner_task_id r = id
              /\ coupled (runner_pc r) (task_status t).
Proof.
  intros Hinv Hid. destruct (inv_owner _ Hinv _ _ Hid) as (i & r & Hi & <-).
  destruct (inv_coupled _ Hinv _ _ Hi) as (t0 & Hlook & Hcoupled).
  exists i, r. repeat split; auto. by assert (t = t0) as -> by congruence.
Qed.

(** X9. In a reachable state no task is stuck.  For a [scheduled] task the
    turn in which its coroutine wakes is enabled, and it makes the task
    [running]; for a [running] task the turn in which its callable is served is
    enabled, and after it the task is [completed] or [failed], whatever the
    callable did. *)
Theorem task_can_progress (st : State) (id : string) (t : Task) :
  reachable py discord st ->
  scheduled_tasks st !! id = Some t ->
  (task_status t = "scheduled" ->
   exists st', step py discord st st'
               /\ scheduled_tasks st' !! id = Some (set_status "running" t))
  /\ (task_status t = "running" ->
      forall now created_at : Z,
      exists st' t', step py discord st st'
                     /\ scheduled_tasks st' !! id = Some t'
                     /\ terminal (task_status t')
                     /\ same_record t t').
Proof.
  intros Hreach Hid. destruct (reachable_records st Hreach) as (Hinv & _).
  destruct (runner_of_task st id t Hinv Hid) as (i & r & Hi & <- & Hcoupled).
  split.
  - intros Hs. rewrite Hs in Hcoupled.
    assert (runner_pc r = Sleeping) as Hpc
      by (destruct (runner_pc r); simpl in Hcoupled; [done|done|by destruct Hcoupled]).
    eexists. split; [by apply (step_wake py discord i r st)|].
    unfold run_scheduled_task_wake. unfold_M. rewrite Hid. simpl.
    by rewrite lookup_insert_eq.
  - intros Hs now created_at. rewrite Hs in Hcoupled.
    assert (runner_pc r = Awaiting) as Hpc
      by (destruct (runner_pc r); simpl in Hcoupled; [done|done|by destruct Hcoupled]).
    destruct (finish_shape now created_at i r st) as (f & st1 & Hserved & Hf & Ht & _).
    destruct (served_keeps _ _ Hinv Hserved) as (_ & Hkeep & _).
    exists (run_scheduled_task_finish py discord now created_at i r st).2, (f t).
    split; [by apply step_finish|].
    rewrite Ht, lookup_alter_eq, (Hkeep _ _ Hid). simpl.
    split; [done|]. split; [by apply closing_terminal | by apply closing_same_record].
Qed.

(** X10. When the callable of a task runs in a reachable state with the client
    set, the tool named by the record's type is called once, with the record's
    payload, and nothing else is sent.  If the tool returns, the task is
    [completed] and the text of the first item of the result is stored; if it
    raises, the task is [failed], the exception's text is stored as [error],
    and the failure is logged. *)
Theorem due_task_runs_its_tool (now created_at : Z) (i : nat) (r : Runner) (st : State) :
  reachable py discord st ->
  runners st !! i = Some r ->
  runner_pc r = Awaiting ->
  discord_client st = true ->
  let st' := (run_scheduled_task_finish py discord now created_at i r st).2 in
  exists t,
    scheduled_tasks st !! runner_task_id r = Some t
    /\ api_calls st' = api_calls st ++ [CTool (task_type t) (task_payload t)]
    /\ match proxied_tool discord (api_calls st) (task_type t) (task_payload t) with
       | inr result =>
           scheduled_tasks st'
           = <[runner_task_id r := store_result py result (set_status "completed" t)]>
               (scheduled_tasks st)
           /\ log st' = log st
       | inl exc =>
           scheduled_tasks st'
           = <[runner_task_id r := set_error (exn_text exc) (set_status "failed" t)]>
               (scheduled_tasks st)
           /\ log st' = log st ++ [(ERROR, "Scheduled task failed: " +:+ runner_task_id r)]
       end.
Proof.
  intros Hreach Hi Hpc Hclient. destruct (reachable_records st Hreach) as (Hinv & Hrec).
  destruct (inv_coupled _ Hinv _ _ Hi) as (t & Hlook & _).
  destruct (rec_closure _ Hrec _ _ _ Hi Hlook) as (Hty & Hpay).
  pose proof (rec_type _ Hrec _ _ Hlook) as Hallowed.
  exists t. split; [done|]. cbv zeta.
  unfold run_scheduled_task_finish. unfold_M.
  rewrite <- Hty, <- Hpay, (call_tool_allowed now created_at _ _ st Hallowed Hclient).
  destruct (proxied_tool discord (api_calls st) (task_type t) (task_payload t))
    as [exc|result]; destruct st; simpl in *;
    (split; [done|]); (split; [|done]); symmetry.
  - by apply (insert_as_alter (fun t0 => set_error (exn_text exc) (set_status "failed" t0))).
  - by apply (insert_as_alter (fun t0 => store_result py result (set_status "completed" t0))).
Qed.

(** X11. When the callable of a task runs while the client is not set (before
    [on_ready], or after [on_disconnect]), no tool is called and nothing is
    sent: the task is [failed] with the error "Discord client not ready", the
    failure is logged, and the coroutine ends. *)
Theorem due_task_while_disconnected (now created_at : Z) (i : nat) (r : Runner) (st : State)
    (t : Task) :
  discord_client st = false ->
  scheduled_tasks st !! runner_task_id r = Some t ->
  let st' := (run_scheduled_task_finish py discord now created_at i r st).2 in
  (run_scheduled_task_finish py discord now created_at i r st).1 = inr tt
  /\ api_calls st' = api_calls st
  /\ scheduled_tasks st'
     = <[runner_task_id r := set_error "Discord client not ready" (set_status "failed" t)]>
         (scheduled_tasks st)
  /\ log st' = log st ++ [(ERROR, "Scheduled task failed: " +:+ runner_task_id r)]
  /\ runners st' = alter (set_pc Finished) i (runners st).
Proof.
  intros Hclient Hlook. cbv zeta.
  unfold run_scheduled_task_finish, call_tool. unfold_M. rewrite Hclient. simpl.
  repeat split. symmetry.
  by apply (insert_as_alter
              (fun t0 => set_error "Discord client not ready" (set_status "failed" t0))).
Qed.

(** X12. [schedule_task] and [send_scheduled_message] are all or nothing.  A
    call that raises (a missing argument, a task type that is not allowed, a
    time that cannot be resolved) leaves the state as it was: no id is used up
    and nothing is stored.  A call that returns has stored one [scheduled]
    record under the next id, started its coroutine, and names that id in its
    text; [schedule_task] returns only for an allowed task type. *)
Theorem submission_all_or_nothing (now created_at : Z) (arguments : dict) (st : State) :
  (forall e st', schedule_task py now created_at arguments st = (inl e, st') -> st' = st)
  /\ (forall out st',
        schedule_task py now created_at arguments st = (inr out, st') ->
        exists ty run_at,
          dict_lookup "task_type" arguments = Some (VStr ty)
          /\ ty ∈ allowed
          /\ resolve_run_at py now arguments = inr run_at
          /\ submitted_as py ty run_at created_at
               (dict_get arguments "task_payload" (VDict [])) st st'
          /\ out = [TextContent ("Scheduled task "
                                 +:+ str_of_Z (scheduled_task_counter st + 1)
                                 +:+ " (" +:+ ty +:+ ") for " +:+ isoformat py run_at)])
  /\ (forall e st',
        send_scheduled_message py now created_at arguments st = (inl e, st') -> st' = st)
  /\ (forall out st',
        send_scheduled_message py now created_at arguments st = (inr out, st') ->
        exists run_at channel_id content,
          resolve_run_at py now arguments = inr run_at
          /\ dict_lookup "channel_id" arguments = Some channel_id
          /\ dict_lookup "content" arguments = Some content
          /\ submitted_as py "send_message" run_at created_at
               (VDict [("channel_id", channel_id); ("content", content)]) st st'
          /\ out = [TextContent ("Scheduled message "
                                 +:+ str_of_Z (scheduled_task_counter st + 1)
                                 +:+ " for " +:+ isoformat py run_at)]).
Proof.
  pose proof (schedule_task_outcome now created_at arguments st) as H1.
  pose proof (send_scheduled_message_outcome now created_at arguments st) as H2.
  repeat split.
  - intros e st' Heq. by rewrite Heq in H1.
  - intros out st' Heq. by rewrite Heq in H1.
  - intros e st' Heq. by rewrite Heq in H2.
  - intros out st' Heq. by rewrite Heq in H2.
Qed.

End TaskStore.

(** ** What the handlers send, and when they return *)

#[local] Instance sends_refl P : Reflexive (sends P).
Proof. intros st. exists []. by rewrite app_nil_r. Qed.

#[local] Instance sends_trans P : Transitive (sends P).
Proof.
  intros a b c (l1 & H1 & F1) (l2 & H2 & F2). exists (l1 ++ l2).
  split; [by rewrite H2, H1, app_assoc|]. by rewrite forallb_app, F1, F2.
Qed.

Lemma sends_request {A} (P : Call -> bool) (c : Call) (answer : list Call -> Exn + A) :
  P c = true -> keeps (sends P) (request c answer).
Proof. intros Hc st. exists [c]. split; [by destruct st|]. simpl. by rewrite Hc. Qed.

Lemma sends_logger (P : Call -> bool) (lvl : Level) (msg : string) :
  keeps (sends P) (logger lvl msg).
Proof. intros st. exists []. split; [|done]. destruct st; simpl. by rewrite app_nil_r. Qed.

(** Walks a computation as [keeps_io] does; [leaf] closes the requests and
    the log records. *)
Ltac keeps_by leaf :=
  cbv beta zeta;
  repeat (first
    [ apply keeps_ret; typeclasses eauto
    | apply keeps_raise; typeclasses eauto
    | apply keeps_lift; typeclasses eauto
    | apply keeps_get_state; typeclasses eauto
    | apply keeps_attempt
    | (apply keeps_bind; try typeclasses eauto); [|intros ?]
    | (apply keeps_try; try typeclasses eauto); [|intros ?]
    | (apply keeps_for_each; try typeclasses eauto); intros ?
    | match goal with
      | |- keeps _ (if ?b then _ else _) => destruct b
      | |- keeps _ (match ?x with _ => _ end) => destruct x
      end
    | leaf ]; cbv beta zeta).

Ltac sends_leaf :=
  first [ apply sends_logger
        | apply sends_request; first [reflexivity | apply Z.eqb_refl | apply Z.leb_le; lia] ].

Section Handlers.

Context (py : Python) (discord : Discord).

Lemma on_member_join_sends member :
  keeps (sends (join_request (member_id member))) (on_member_join py discord member).
Proof.
  unfold on_member_join. keeps_by sends_leaf.
  unfold member_join_rule. keeps_by sends_leaf.
  unfold member_join_action. keeps_by sends_leaf.
Qed.

Lemma on_reaction_add_sends reaction user :
  keeps (sends reaction_add_request) (on_reaction_add py discord reaction user).
Proof.
  unfold on_reaction_add, reacting_member. keeps_by sends_leaf;
    unfold reaction_add_rule; keeps_by sends_leaf;
    unfold reaction_add_action; keeps_by sends_leaf.
Qed.

Lemma on_reaction_remove_sends reaction user :
  keeps (sends reaction_remove_request) (on_reaction_remove py discord reaction user).
Proof.
  unfold on_reaction_remove, reacting_member. keeps_by sends_leaf;
    unfold reaction_remove_rule; keeps_by sends_leaf;
    unfold reaction_remove_action; keeps_by sends_leaf.
Qed.

(** X13. What the handlers never send.  [on_member_join] only fetches
    channels, sends embeds and adds roles to the member who joined;
    [on_reaction_add] only fetches the member and channels, sends embeds and
    adds roles; [on_reaction_remove] only fetches the member and removes roles.
    No handler deletes a message, times a member out or calls a tool, a
    removal never sends a message or adds a role, and an addition or a join
    never removes one. *)
Theorem handler_requests (st : State) :
  (forall member,
     exists added,
       api_calls (on_member_join py discord member st).2 = api_calls st ++ added
       /\ forallb (join_request (member_id member)) added = true)
  /\ (forall reaction user,
        exists added,
          api_calls (on_reaction_add py discord reaction user st).2 = api_calls st ++ added
          /\ forallb reaction_add_request added = true)
  /\ (forall reaction user,
        exists added,
          api_calls (on_reaction_remove py discord reaction user st).2 = api_calls st ++ added
          /\ forallb reaction_remove_request added = true).
Proof.
  split; [|split]; intros.
  - apply on_member_join_sends.
  - apply on_reaction_add_sends.
  - apply on_reaction_remove_sends.
Qed.










(** X15. A rule with a [server_id] runs for events of that server only: if
    the entry is truthy and reads, as a string, as the decimal number [n]
    (the int [n] itself, or the str of it), then whenever a handler matches the
    rule, the id of the event's guild is [n]. *)
Theorem scoped_rule_stays_in_its_server (rule : dict) (server_id : pyval) (n : Z) :
  dict_lookup "server_id" rule = Some server_id ->
  truthy server_id = true ->
  py_str py server_id = str_of_Z n ->
  (forall member,
     member_join_match py member rule = true -> guild_id (member_guild member) = n)
  /\ (forall reaction emoji_str,
        reaction_match py reaction emoji_str rule = inr true ->
        guild_id (msg_guild (reaction_message reaction)) = n)
  /\ (forall reaction emoji_str,
        reaction_remove_match py reaction emoji_str rule = inr true ->
        guild_id (msg_guild (reaction_message reaction)) = n).
Proof.
  intros Hlook Htruthy Hstr.
  assert (Hscope : forall g, other_server py g (dict_get rule "server_id" VNone) = false ->
                             guild_id g = n).
  { intros g. unfold other_server, dict_get. rewrite Hlook, Htruthy, Hstr. simpl.
    destruct (String.eqb_spec (str_of_Z (guild_id g)) (str_of_Z n)) as [Heq|]; [|done].
    intros _. by apply str_of_Z_inj. }
  assert (Hadd : forall reaction emoji_str,
             reaction_match py reaction emoji_str rule = inr true ->
             guild_id (msg_guild (reaction_message reaction)) = n).
  { intros reaction emoji_str. unfold reaction_match.
    destruct (negb (truthy (dict_get rule "enabled" (VBool true)))); [done|].
    destruct (py_ne_str (dict_get rule "trigger_type" VNone) "reaction_added"); [done|].
    cbv zeta.
    destruct (other_server py (msg_guild (reaction_message reaction))
                (dict_get rule "server_id" VNone)) eqn:Hother; [done|].
    intros _. by apply Hscope. }
  split; [|split].
  - intros member. unfold member_join_match.
    destruct (negb (truthy (dict_get rule "enabled" (VBool true)))); [done|].
    destruct (py_ne_str (dict_get rule "trigger_type" VNone) "member_join"); [done|].
    cbv zeta.
    destruct (other_server py (member_guild member) (dict_get rule "server_id" VNone))
      eqn:Hother; [done|].
    intros _. by apply Hscope.
  - exact Hadd.
  - intros reaction emoji_str. unfold reaction_remove_match. unfold_M.
    destruct (reaction_match py reaction emoji_str rule) as [e|[]] eqn:Hm; try done.
    intros _. by eapply Hadd.
Qed.

End Handlers.

(** ** The detectors and the action loop *)

Lemma filter_sublist {A} (f : A -> bool) (l : list A) : sublist (List.filter f l) l.
Proof.
  induction l as [|x l IH]; simpl; [constructor|].
  destruct (f x); by constructor.
Qed.

Lemma filter_sublist_impl {A} (f g : A -> bool) (l : list A) :
  (forall x, f x = true -> g x = true) -> sublist (List.filter f l) (List.filter g l).
Proof.
  intros Hfg. induction l as [|x l IH]; simpl; [constructor|].
  destruct (f x) eqn:Hf.
  - rewrite (Hfg x Hf). by constructor.
  - destruct (g x); [by constructor|done].
Qed.

Lemma filter_all {A} (f : A -> bool) (l : list A) :
  (forall x, f x = true) -> List.filter f l = l.
Proof. intros Hf. induction l as [|x l IH]; simpl; [done|]. by rewrite Hf, IH. Qed.

Lemma with_calls_twice st c1 c2 : with_calls (with_calls st c1) c2 = with_calls st c2.
Proof. by destruct st. Qed.

Lemma with_calls_same st : with_calls st (api_calls st) = st.
Proof. by destruct st. Qed.

Lemma api_calls_with_calls st c : api_calls (with_calls st c) = c.
Proof. by destruct st. Qed.

Section Detectors.

Context (py : Python) (discord : Discord).

Lemma count_message_lookup counts msg key :
  default 0 (count_message py counts msg !! key)
  = default 0 (counts !! key) + (if bool_decide (repeat_key py msg = Some key) then 1 else 0).
Proof.
  unfold count_message. destruct (repeat_key py msg) as [k|] eqn:Hk.
  - destruct (decide (k = key)) as [->|Hne].
    + by rewrite lookup_insert_eq, bool_decide_eq_true_2.
    + rewrite lookup_insert_ne by done. rewrite bool_decide_eq_false_2 by congruence. lia.
  - rewrite bool_decide_eq_false_2 by done. lia.
Qed.

(** The [Counter] holds, for each key, the number of messages with it. *)
Lemma counter_counts counts messages key :
  default 0 (foldl (count_message py) counts messages !! key)
  = default 0 (counts !! key) + same_key_count py key messages.
Proof.
  revert counts. induction messages as [|msg rest IH]; intros counts; simpl.
  - unfold same_key_count. simpl. lia.
  - rewrite IH, count_message_lookup. unfold same_key_count. simpl.
    destruct (bool_decide _); simpl length; lia.
Qed.

Lemma repeated_message_as_filter (repeat_threshold : Z) (messages : list Message) :
  repeated_message py repeat_threshold messages
  = List.filter (repeated py repeat_threshold messages) messages.
Proof.
  unfold repeated_message, repeated. apply List.filter_ext. intros msg.
  destruct (repeat_key py msg); [|done]. by rewrite counter_counts, lookup_empty.
Qed.

(** X16. [repeated_message] flags, in the order of the window, exactly the
    messages whose normalized content is not empty and is shared, author and
    stripped lower-case content together, by at least [repeat_threshold]
    messages of the window, the message itself counted. *)
Theorem repeated_message_counts (repeat_threshold : Z) (messages : list Message) :
  repeated_message py repeat_threshold messages
  = List.filter (repeated py repeat_threshold messages) messages
  /\ forall msg,
       In msg (repeated_message py repeat_threshold messages) <->
       In msg messages
       /\ lower py (strip py (content_or_empty msg)) <> ""
       /\ repeat_threshold
          <= same_key_count py (message_author_id msg,
                                lower py (strip py (content_or_empty msg))) messages.
Proof.
  pose proof (repeated_message_as_filter repeat_threshold messages) as Heq.
  split; [exact Heq|].
  intros msg. rewrite Heq, filter_In. unfold repeated, repeat_key.
  destruct (String.eqb_spec (lower py (strip py (content_or_empty msg))) "") as [Hempty|Hfull];
    simpl.
  - split; [intros [_ ?]; discriminate | intros (_ & ? & _); done].
  - rewrite Z.leb_le. split; [intros (? & ?) | intros (? & _ & ?)]; auto.
Qed.

(** X17. Every detector returns messages of the window, in the order of the
    window; a pattern type that is none of the four raises [ValueError].
    Raising a threshold never flags more messages, and a link or mention
    threshold of zero or less flags the whole window. *)
Theorem detectors_select_from_window (arguments : dict) (messages : list Message) :
  (forall pattern_type matches,
     scan py pattern_type arguments messages = inr matches -> sublist matches messages)
  /\ (forall pattern_type,
        ~ In pattern_type ["repeated_message"; "link_spam"; "mention_spam"; "caps_spam"] ->
        scan py pattern_type arguments messages = inl (mkExn "ValueError" "Unknown pattern_type"))
  /\ (forall a b, a <= b ->
        sublist (repeated_message py b messages) (repeated_message py a messages)
        /\ sublist (link_spam b messages) (link_spam a messages)
        /\ sublist (mention_spam b messages) (mention_spam a messages))
  /\ (forall a, a <= 0 -> link_spam a messages = messages /\ mention_spam a messages = messages).
Proof.
  split; [|split; [|split]].
  - intros pattern_type matches. unfold scan. unfold_M.
    destruct (String.eqb pattern_type "repeated_message").
    { destruct (py_int py _); [done|]. intros [= <-]. apply filter_sublist. }
    destruct (String.eqb pattern_type "link_spam").
    { destruct (py_int py _); [done|]. intros [= <-]. apply filter_sublist. }
    destruct (String.eqb pattern_type "mention_spam").
    { destruct (py_int py _); [done|]. intros [= <-]. apply filter_sublist. }
    destruct (String.eqb pattern_type "caps_spam"); [|done].
    destruct (py_float py _); [done|]. destruct (py_int py _); [done|].
    rewrite caps_spam_as_filter. intros [= <-]. apply filter_sublist.
  - intros pattern_type Hnone. unfold scan. simpl in Hnone.
    destruct (String.eqb_spec pattern_type "repeated_message"); [subst; tauto|].
    destruct (String.eqb_spec pattern_type "link_spam"); [subst; tauto|].
    destruct (String.eqb_spec pattern_type "mention_spam"); [subst; tauto|].
    destruct (String.eqb_spec pattern_type "caps_spam"); [subst; tauto|done].
  - intros a b Hab. split; [|split].
    + rewrite !repeated_message_as_filter.
      apply filter_sublist_impl. intros msg. unfold repeated.
      destruct (repeat_key py msg); [|done]. rewrite !Z.leb_le. lia.
    + apply filter_sublist_impl. intros msg. rewrite !Z.leb_le. lia.
    + apply filter_sublist_impl. intros msg. cbv zeta. rewrite !Z.leb_le. lia.
  - intros a Ha. split; apply filter_all; intros msg; cbv zeta; apply Z.leb_le; lia.
Qed.

End Detectors.

Lemma forallb_weaken {A} (f g : A -> bool) (l : list A) :
  (forall x, f x = true -> g x = true) -> forallb f l = true -> forallb g l = true.
Proof.
  intros Hfg. induction l as [|x l IH]; simpl; [done|].
  rewrite !andb_true_iff. intros [? ?]. auto.
Qed.

Lemma delete_of_cons msg matches c :
  delete_of matches c = true -> delete_of (msg :: matches) c = true.
Proof.
  destruct c; simpl; try done. rewrite !andb_true_iff. intros [-> ->].
  by rewrite orb_true_r.
Qed.

Lemma timeout_of_cons msg matches c :
  timeout_of matches c = true -> timeout_of (msg :: matches) c = true.
Proof.
  destruct c; simpl; try done. rewrite !andb_true_iff. intros [-> ->].
  by rewrite orb_true_r.
Qed.

Section ActionLoop.

Context (py : Python) (discord : Discord).

Lemma moderate_delete arguments matches acc st :
  exists acc',
    moderate py discord "delete" arguments acc matches st
    = (inr acc',
       with_calls st
         (api_calls st
          ++ map (fun msg => CDelete (message_id msg) "Auto-moderated via MCP") matches))
    /\ applied acc' + Z.of_nat (length (errors acc'))
       = applied acc + Z.of_nat (length (errors acc)) + Z.of_nat (length matches)
    /\ applied acc <= applied acc'
    /\ (length (errors acc) <= length (errors acc'))%nat
    /\ timed_out acc' = timed_out acc.
Proof.
  revert acc st. induction matches as [|msg rest IH]; intros acc st.
  - exists acc. simpl. rewrite app_nil_r, with_calls_same. repeat split; lia.
  - simpl moderate. unfold moderate_message. simpl String.eqb. cbv iota. unfold_M.
    destruct (message_delete discord (api_calls st) msg "Auto-moderated via MCP") as [e|];
      simpl.
    + match goal with
      | |- context [moderate _ _ _ _ ?a _ ?s] =>
          destruct (IH a s) as (acc' & Heq & Hsum & Hle & Herr & Hto)
      end.
      rewrite Heq. exists acc'.
      rewrite with_calls_twice, api_calls_with_calls, <- app_assoc.
      simpl in *. rewrite length_app in *. simpl in *. repeat split; auto; lia.
    + match goal with
      | |- context [moderate _ _ _ _ ?a _ ?s] =>
          destruct (IH a s) as (acc' & Heq & Hsum & Hle & Herr & Hto)
      end.
      rewrite Heq. exists acc'.
      rewrite with_calls_twice, api_calls_with_calls, <- app_assoc.
      simpl in *. repeat split; auto; lia.
Qed.

Lemma moderate_timeout_missing arguments matches acc st :
  dict_mem "timeout_minutes" arguments = false ->
  moderate py discord "timeout" arguments acc matches st
  = (inr (mkApplied (applied acc)
            (errors acc
             ++ map (fun msg => str_of_Z (message_id msg)
                                +:+ ": timeout_minutes required for timeout action") matches)
            (timed_out acc)),
     st).
Proof.
  intros Hmissing. revert acc. induction matches as [|msg rest IH]; intros acc.
  - simpl. rewrite app_nil_r. by destruct acc.
  - simpl moderate. unfold moderate_message. simpl String.eqb. cbv iota.
    rewrite Hmissing. unfold_M. simpl. rewrite IH. simpl. by rewrite <- app_assoc.
Qed.

Lemma moderate_timeout arguments matches acc st :
  NoDup (timed_out acc) ->
  exists acc' writes,
    moderate py discord "timeout" arguments acc matches st
    = (inr acc', with_calls st (api_calls st ++ writes))
    /\ forallb (timeout_of matches) writes = true
    /\ NoDup (timed_out acc')
    /\ applied acc' - applied acc
       = Z.of_nat (length (timed_out acc')) - Z.of_nat (length (timed_out acc)).
Proof.
  revert acc st. induction matches as [|msg rest IH]; intros acc st Hnodup.
  - exists acc, []. simpl. rewrite app_nil_r, with_calls_same. repeat split; auto; lia.
  - assert (Hstep : exists acc1 writes1,
               try_except (moderate_message py discord "timeout" arguments acc msg)
                 (fun exc =>
                    mret (mkApplied (applied acc)
                            (errors acc ++ [str_of_Z (message_id msg) +:+ ": " +:+ exn_text exc])
                            (timed_out acc))) st
               = (inr acc1, with_calls st (api_calls st ++ writes1))
               /\ forallb (timeout_of (msg :: rest)) writes1 = true
               /\ NoDup (timed_out acc1)
               /\ applied acc1 - applied acc
                  = Z.of_nat (length (timed_out acc1)) - Z.of_nat (length (timed_out acc))).
    { unfold moderate_message. simpl String.eqb. cbv iota. unfold py_index, dict_mem.
      unfold_M.
      destruct (dict_lookup "timeout_minutes" arguments) as [tm|]; simpl.
      2:{ eexists _, []. rewrite app_nil_r, with_calls_same.
          split; [reflexivity|]. simpl. repeat split; auto; lia. }
      destruct (message_author_is_member msg) eqn:Hmember; simpl.
      2:{ eexists _, []. rewrite app_nil_r, with_calls_same.
          split; [reflexivity|]. simpl. repeat split; auto; lia. }
      destruct (existsb (Z.eqb (message_author_id msg)) (timed_out acc)) eqn:Hseen; simpl.
      { eexists _, []. rewrite app_nil_r, with_calls_same.
        split; [reflexivity|]. simpl. repeat split; auto; lia. }
      destruct (minutes py tm) as [e|m]; simpl.
      { eexists _, []. rewrite app_nil_r, with_calls_same.
        split; [reflexivity|]. simpl. repeat split; auto; lia. }
      destruct (author_timeout discord (api_calls st) msg tm "Auto-moderated via MCP")
        as [e|]; simpl.
      - eexists _, [_]. split; [reflexivity|]. simpl.
        rewrite Z.eqb_refl, Hmember. simpl. repeat split; auto; lia.
      - eexists _, [_]. split; [reflexivity|]. simpl.
        rewrite Z.eqb_refl, Hmember. simpl. repeat split; try lia.
        constructor; [|done]. intros Hin. apply list_elem_of_In in Hin.
        assert (existsb (Z.eqb (message_author_id msg)) (timed_out acc) = true); [|congruence].
        apply existsb_exists. exists (message_author_id msg). split; [done|apply Z.eqb_refl]. }
    destruct Hstep as (acc1 & writes1 & Heq1 & Hw1 & Hnodup1 & Hcount1).
    destruct (IH acc1 (with_calls st (api_calls st ++ writes1)) Hnodup1)
      as (acc' & writes & Heq & Hw & Hnodup' & Hcount).
    exists acc', (writes1 ++ writes). split.
    + simpl moderate. unfold mbind, M_bind, bind. rewrite Heq1. simpl. rewrite Heq.
      by rewrite with_calls_twice, api_calls_with_calls, <- app_assoc.
    + rewrite forallb_app, Hw1. simpl. repeat split; auto; [|lia].
      eapply forallb_weaken; [|exact Hw]. apply timeout_of_cons.
Qed.

(** The scan sends its two reads and touches nothing else; what it hands on
    is the [dry_run] of the arguments and one of the three actions. *)
Lemma moderation_scan_shape arguments st :
  exists reads,
    (moderation_scan py discord arguments st).2 = with_calls st (api_calls st ++ reads)
    /\ forallb scan_request reads = true
    /\ (length reads <= 2)%nat
    /\ forall sc,
         (moderation_scan py discord arguments st).1 = inr (Some sc) ->
         scan_dry_run sc = dict_get arguments "dry_run" (VBool true)
         /\ existsb (String.eqb (scan_action sc)) ["delete"; "timeout"; "report"] = true.
Proof.
  unfold moderation_scan, py_index. unfold_M.
  destruct (dict_lookup "channel_id" arguments) as [channel_id|]; simpl.
  2:{ exists []. rewrite app_nil_r, with_calls_same. repeat split; simpl; try done; lia. }
  destruct (py_int py channel_id) as [e|cid]; simpl.
  { exists []. rewrite app_nil_r, with_calls_same. repeat split; simpl; try done; lia. }
  destruct (fetch_channel discord (api_calls st) cid) as [e|channel]; simpl.
  { exists [CFetchChannel cid]. repeat split; simpl; try done; lia. }
  destruct (channel_has_history channel); simpl.
  2:{ exists [CFetchChannel cid]. repeat split; simpl; try done; lia. }
  destruct (dict_lookup "pattern_type" arguments) as [pattern_type|]; simpl.
  2:{ exists [CFetchChannel cid]. repeat split; simpl; try done; lia. }
  destruct (strip_lower py pattern_type) as [e|pattern]; simpl.
  { exists [CFetchChannel cid]. repeat split; simpl; try done; lia. }
  destruct (py_int py (dict_get arguments "limit" (VInt 200))) as [e|limit]; simpl.
  { exists [CFetchChannel cid]. repeat split; simpl; try done; lia. }
  destruct (strip_lower py (dict_get arguments "action" (VStr "report"))) as [e|action]; simpl.
  { exists [CFetchChannel cid]. repeat split; simpl; try done; lia. }
  assert (Hreads : forallb scan_request
                     [CFetchChannel cid; CHistory (id_of_channel channel) (limit `min` 1000)]
                   = true).
  { simpl. rewrite andb_true_r. apply Z.leb_le. lia. }
  rewrite with_calls_twice, <- app_assoc. simpl app.
  destruct (channel_history discord _ channel _) as [e|messages]; simpl.
  { eexists. split; [reflexivity|]. split; [exact Hreads|]. split; [simpl; lia|done]. }
  destruct (scan py pattern arguments messages) as [e|matches]; simpl.
  { eexists. split; [reflexivity|]. split; [exact Hreads|]. split; [simpl; lia|done]. }
  destruct (negb _) eqn:Hact; simpl.
  { eexists. split; [reflexivity|]. split; [exact Hreads|]. split; [simpl; lia|done]. }
  eexists. split; [reflexivity|]. split; [exact Hreads|]. split; [simpl; lia|].
  intros sc [= <-]. simpl. split; [reflexivity|]. by apply negb_false_iff in Hact.
Qed.

Lemma deletes_of_matches matches :
  forallb (fun c => delete_of matches c || timeout_of matches c)
          (map (fun msg => CDelete (message_id msg) "Auto-moderated via MCP") matches)
  = true.
Proof.
  apply forallb_forall. intros c Hin. apply in_map_iff in Hin as (msg & <- & Hin).
  simpl. rewrite orb_false_r, andb_true_r. apply existsb_exists.
  exists msg. split; [done|apply Z.eqb_refl].
Qed.

(** X18. With the action [delete], the loop asks for the deletion of every
    matched message, once each and in the order of the matches, whether or not
    an earlier deletion failed; nothing else is sent and nothing else in the
    state changes.  Each message counts once, as applied or as an error. *)
Theorem delete_accounting (arguments : dict) (matches : list Message) (acc : Applied)
    (st : State) :
  exists acc',
    moderate py discord "delete" arguments acc matches st
    = (inr acc',
       with_calls st
         (api_calls st
          ++ map (fun msg => CDelete (message_id msg) "Auto-moderated via MCP") matches))
    /\ applied acc' + Z.of_nat (length (errors acc'))
       = applied acc + Z.of_nat (length (errors acc)) + Z.of_nat (length matches)
    /\ applied acc <= applied acc'
    /\ (length (errors acc) <= length (errors acc'))%nat.
Proof.
  destruct (moderate_delete arguments matches acc st) as (acc' & ? & ? & ? & ? & _). eauto.
Qed.

(** X19. With the action [timeout] and no [timeout_minutes] among the
    arguments, the loop sends nothing and times nobody out: it records one
    error for each matched message, in order, and applies nothing. *)
Theorem timeout_requires_minutes (arguments : dict) (matches : list Message) (acc : Applied)
    (st : State) :
  dict_mem "timeout_minutes" arguments = false ->
  moderate py discord "timeout" arguments acc matches st
  = (inr (mkApplied (applied acc)
            (errors acc
             ++ map (fun msg => str_of_Z (message_id msg)
                                +:+ ": timeout_minutes required for timeout action") matches)
            (timed_out acc)),
     st).
Proof. apply moderate_timeout_missing. Qed.






(** X21. [auto_moderate_by_pattern] changes nothing in the module but the
    list of requests.  It first sends at most two reads, the channel and a
    window of its history of at most 1000 messages.  Anything it sends after
    them is sent only when [dry_run] (true when absent) is falsy and the action
    is [delete] or [timeout], and is then the deletion of a matched message or
    the timeout of the author of one. *)
Theorem moderation_writes_are_gated (arguments : dict) (st : State) :
  let r := auto_moderate_by_pattern py discord arguments st in
  exists reads writes,
    r.2 = with_calls st (api_calls st ++ reads ++ writes)
    /\ forallb scan_request reads = true
    /\ (length reads <= 2)%nat
    /\ (writes <> [] ->
        truthy (dict_get arguments "dry_run" (VBool true)) = false
        /\ exists sc out,
             r.1 = inr (Some sc, out)
             /\ (scan_action sc = "delete" \/ scan_action sc = "timeout")
             /\ forallb (fun c => delete_of (scan_matches sc) c || timeout_of (scan_matches sc) c)
                        writes = true).
Proof.
  cbv zeta.
  destruct (moderation_scan_shape arguments st) as (reads & Hst & Hreads & Hlen & Hsc).
  assert (Hquiet : forall (r1 : Exn + (option Scan * list Content)),
             exists reads0 writes,
               with_calls st (api_calls st ++ reads)
               = with_calls st (api_calls st ++ reads0 ++ writes)
               /\ forallb scan_request reads0 = true
               /\ (length reads0 <= 2)%nat
               /\ (writes <> [] ->
                   truthy (dict_get arguments "dry_run" (VBool true)) = false
                   /\ exists sc out,
                        r1 = inr (Some sc, out)
                        /\ (scan_action sc = "delete" \/ scan_action sc = "timeout")
                        /\ forallb (fun c => delete_of (scan_matches sc) c
                                             || timeout_of (scan_matches sc) c)
                                   writes = true)).
  { intros r1. exists reads, []. rewrite app_nil_r. repeat split; auto; done. }
  unfold auto_moderate_by_pattern, mbind, M_bind, bind.
  destruct (moderation_scan py discord arguments st) as [[e|[sc|]] st1];
    simpl in Hst, Hsc; subst st1; simpl; [apply Hquiet| |apply Hquiet].
  destruct (Hsc sc eq_refl) as (Hdry & Hact). clear Hsc.
  destruct sc as [action dry matches]. simpl in *. subst dry.
  destruct (String.eqb_spec action "report") as [->|Hreport]; simpl; [apply Hquiet|].
  destruct (truthy (dict_get arguments "dry_run" (VBool true))) eqn:Hlive; simpl;
    [apply Hquiet|].
  assert (action = "delete" \/ action = "timeout") as Haction.
  { destruct (String.eqb_spec action "delete"); [by left|].
    destruct (String.eqb_spec action "timeout"); [by right|].
    destruct (String.eqb_spec action "report"); [done|discriminate]. }
  destruct Haction as [->| ->].
  - destruct (moderate_delete arguments matches (mkApplied 0 [] [])
                (with_calls st (api_calls st ++ reads))) as (acc' & Heq & _).
    rewrite Heq, with_calls_twice, api_calls_with_calls, <- app_assoc. simpl.
    exists reads, (map (fun msg => CDelete (message_id msg) "Auto-moderated via MCP") matches).
    split; [reflexivity|]. split; [done|]. split; [done|]. intros _. split; [done|].
    eexists _, _. split; [reflexivity|]. split; [by left|]. apply deletes_of_matches.
  - destruct (moderate_timeout arguments matches (mkApplied 0 [] [])
                (with_calls st (api_calls st ++ reads)) (NoDup_nil_2 (A:=Z)))
      as (acc' & writes & Heq & Hw & _).
    rewrite Heq, with_calls_twice, api_calls_with_calls, <- app_assoc. simpl.
    exists reads, writes.
    split; [reflexivity|]. split; [done|]. split; [done|]. intros _. split; [done|].
    eexists _, _. split; [reflexivity|]. split; [by right|].
    eapply forallb_weaken; [|exact Hw]. intros c Hc. simpl. rewrite Hc. apply orb_true_r.
Qed.

End ActionLoop.

(** ** Without a client, without a member *)

Section Openings.

Context (py : Python) (discord : Discord).

(** X22. While the client is not set, as at import and after
    [on_disconnect], nothing runs: the three handlers return at once and every
    tool call raises [RuntimeError], all of them leaving the state as it was.
    [on_ready] sets the client and [on_disconnect] unsets it. *)
Theorem nothing_runs_without_client (st : State) :
  discord_client st = false ->
  (forall member, on_member_join py discord member st = (inr tt, st))
  /\ (forall reaction user, on_reaction_add py discord reaction user st = (inr tt, st))
  /\ (forall reaction user, on_reaction_remove py discord reaction user st = (inr tt, st))
  /\ (forall now created_at name arguments,
        call_tool py discord now created_at name arguments st
        = (inl (mkExn "RuntimeError" "Discord client not ready"), st))
  /\ discord_client initial = false
  /\ (forall s, discord_client (on_disconnect s).2 = false)
  /\ (forall bot_name s, discord_client (on_ready bot_name s).2 = true).
Proof.
  intros Hclient. repeat split; intros;
    unfold on_member_join, on_reaction_add, on_reaction_remove, reacting_member, call_tool;
    unfold_M; by rewrite ?Hclient.
Qed.

(** X23. A reaction in a channel that is not a text channel is dropped
    without a request.  When the fetch of the reacting member raises, whatever
    the exception, the handlers return normally: the fetch is the only request
    sent, nothing is logged and no rule is looked at. *)
Theorem reaction_without_member (reaction : Reaction) (user : User) (st : State) :
  discord_client st = true ->
  user_bot user = false ->
  let guild := msg_guild (reaction_message reaction) in
  (msg_in_text_channel (reaction_message reaction) = false ->
   on_reaction_add py discord reaction user st = (inr tt, st)
   /\ on_reaction_remove py discord reaction user st = (inr tt, st))
  /\ (forall e,
        msg_in_text_channel (reaction_message reaction) = true ->
        fetch_member discord (api_calls st) guild (user_id user) = inl e ->
        let st' := with_calls st (api_calls st ++ [CFetchMember (guild_id guild) (user_id user)]) in
        on_reaction_add py discord reaction user st = (inr tt, st')
        /\ on_reaction_remove py discord reaction user st = (inr tt, st')).
Proof.
  intros Hclient Hbot guild. split.
  - intros Htext. unfold on_reaction_add, on_reaction_remove, reacting_member. unfold_M.
    by rewrite Hclient, Hbot, Htext.
  - intros e Htext Hfetch. cbv zeta.
    unfold on_reaction_add, on_reaction_remove, reacting_member. unfold_M.
    rewrite Hclient, Hbot, Htext. simpl. fold guild. by rewrite Hfetch.
Qed.

Lemma parse_timestamp_some (v : pyval) :
  v <> VNone ->
  exists r : Exn + Z,
    parse_timestamp py v = match r with inl e => inl e | inr t => inr (Some t) end.
Proof.
  intros Hv. destruct v as [|b|z|f|s|l|d]; [done|..]; simpl; unfold_M.
  - destruct (fromtimestamp py (VBool b)) as [e|t]; [by exists (inl e)|by exists (inr t)].
  - destruct (fromtimestamp py (VInt z)) as [e|t]; [by exists (inl e)|by exists (inr t)].
  - destruct (fromtimestamp py (VFloat f)) as [e|t]; [by exists (inl e)|by exists (inr t)].
  - destruct (isdigit py (strip py s)).
    + destruct (int_of_str py s) as [e|n]; [by exists (inl e)|].
      destruct (fromtimestamp py (VInt n)) as [e|t]; [by exists (inl e)|by exists (inr t)].
    + destruct (fromisoformat py _) as [e|t]; [by exists (inl e)|by exists (inr t)].
  - by exists (inl (mkExn "ValueError" "Invalid timestamp format")).
  - by exists (inl (mkExn "ValueError" "Invalid timestamp format")).
Qed.

(** X24. How the due time of a task is resolved.  A truthy [run_at] wins:
    the result is what [parse_timestamp] makes of it, and [delay_seconds] is
    not looked at.  A [run_at] that is absent or falsy ([None], [0], the empty
    str) counts as absent: the time is then the clock's reading plus
    [delay_seconds], and without [delay_seconds] the call raises
    [ValueError]. *)
Theorem run_at_takes_precedence (now : Z) (args : dict) :
  (forall v,
     dict_lookup "run_at" args = Some v -> truthy v = true ->
     exists r : Exn + Z,
       parse_timestamp py v = match r with inl e => inl e | inr t => inr (Some t) end
       /\ resolve_run_at py now args = r)
  /\ (truthy (dict_get args "run_at" VNone) = false ->
      forall delay,
        dict_lookup "delay_seconds" args = Some delay ->
        resolve_run_at py now args
        = match py_float py delay with
          | inl e => inl e
          | inr seconds => add_seconds py now seconds
          end)
  /\ (truthy (dict_get args "run_at" VNone) = false ->
      dict_lookup "delay_seconds" args = None ->
      resolve_run_at py now args
      = inl (mkExn "ValueError" "run_at or delay_seconds is required")).
Proof.
  split; [|split].
  - intros v Hlook Htruthy.
    destruct (parse_timestamp_some v) as (r & Hr); [by intros ->|].
    exists r. split; [exact Hr|].
    unfold resolve_run_at, dict_mem, dict_get. rewrite Hlook, Htruthy. simpl.
    rewrite Hr. unfold_M. by destruct r.
  - intros Hfalsy delay Hdelay. unfold resolve_run_at, dict_mem.
    rewrite Hfalsy, andb_false_r. unfold dict_get at 1. rewrite Hdelay. unfold_M.
    destruct (py_float py delay) as [e|seconds]; [done|].
    by destruct (add_seconds py now seconds).
  - intros Hfalsy Hdelay. unfold resolve_run_at, dict_mem.
    by rewrite Hfalsy, andb_false_r, Hdelay.
Qed.

(** *** The loop of bulk_add_roles *)

Lemma bulk_add_role_step guild role reason tally user_id st :
  exists tally' added,
    bulk_add_role py discord guild role reason tally user_id st
    = (inr tally', with_calls st (api_calls st ++ added))
    /\ forallb (bulk_request guild role reason) added = true
    /\ (length added <= 2)%nat
    /\ ((success_ids tally' = success_ids tally
         /\ exists line, failed tally' = failed tally ++ [line])
        \/ (failed tally' = failed tally
            /\ exists id, success_ids tally' = success_ids tally ++ [id]
            /\ exists mid, last added = Some (CAddRoles mid (id_of_role role) reason))).
Proof.
  unfold bulk_add_role. unfold_M.
  destruct (py_int py user_id) as [e|uid]; simpl.
  { eexists _, []. rewrite app_nil_r, with_calls_same. split; [reflexivity|]. simpl.
    repeat split; [lia|]. left. eauto. }
  destruct (fetch_member discord (api_calls st) guild uid) as [e|member]; simpl.
  { eexists _, [_]. split; [reflexivity|]. simpl. rewrite Z.eqb_refl.
    repeat split; [lia|]. left. eauto. }
  destruct (add_roles discord _ member role reason) as [e|]; simpl.
  - eexists _, [_; _]. rewrite with_calls_twice, <- app_assoc. split; [reflexivity|].
    simpl. rewrite !Z.eqb_refl, String.eqb_refl. repeat split; [lia|]. left. eauto.
  - eexists _, [_; _]. rewrite with_calls_twice, <- app_assoc. split; [reflexivity|].
    simpl. rewrite !Z.eqb_refl, String.eqb_refl. repeat split; [lia|]. right. eauto.
Qed.

Lemma bulk_add_roles_loop_tally guild role reason tally user_ids st :
  exists tally' added,
    bulk_add_roles_loop py discord guild role reason tally user_ids st
    = (inr tally', with_calls st (api_calls st ++ added))
    /\ forallb (bulk_request guild role reason) added = true
    /\ (length added <= 2 * length user_ids)%nat
    /\ (length (success_ids tally') + length (failed tally')
        = length (success_ids tally) + length (failed tally) + length user_ids)%nat
    /\ (length (success_ids tally) <= length (success_ids tally'))%nat.
Proof.
  revert tally st. induction user_ids as [|user_id rest IH]; intros tally st.
  - exists tally, []. simpl. rewrite app_nil_r, with_calls_same. repeat split; lia.
  - destruct (bulk_add_role_step guild role reason tally user_id st)
      as (tally1 & added1 & Heq1 & Hreq1 & Hlen1 & Hcase).
    destruct (IH tally1 (with_calls st (api_calls st ++ added1)))
      as (tally' & added & Heq & Hreq & Hlen & Hsum & Hmono).
    exists tally', (added1 ++ added). split.
    + simpl bulk_add_roles_loop. unfold mbind, M_bind, bind. rewrite Heq1. simpl. rewrite Heq.
      by rewrite with_calls_twice, api_calls_with_calls, <- app_assoc.
    + rewrite forallb_app, Hreq1, Hreq, length_app. simpl length.
      destruct Hcase as [(Hs & line & Hf)|(Hf & id & Hs & _)];
        rewrite Hs, Hf in *; rewrite ?length_app in *; simpl in *; repeat split; lia.
Qed.

(** X25. The loop of [bulk_add_roles] never raises and counts every user id
    once, as a success or as a failure, so the two numbers add up to the number
    of ids; a failure for one id does not keep the later ones from being
    tried.  It sends at most two requests for each id, and only fetches of
    members of the guild and additions of the one role, with the given reason;
    nothing else in the state changes. *)
Theorem bulk_add_roles_accounting (guild : Guild) (role : Role) (reason : string)
    (user_ids : list pyval) (st : State) :
  exists tally added,
    bulk_add_roles_loop py discord guild role reason (mkTally [] []) user_ids st
    = (inr tally, with_calls st (api_calls st ++ added))
    /\ (length (success_ids tally) + length (failed tally) = length user_ids)%nat
    /\ forallb (bulk_request guild role reason) added = true
    /\ (length added <= 2 * length user_ids)%nat.
Proof.
  destruct (bulk_add_roles_loop_tally guild role reason (mkTally [] []) user_ids st)
    as (tally & added & Heq & Hreq & Hlen & Hsum & _).
  exists tally, added. simpl in Hsum. repeat split; auto.
Qed.

End Openings.

(** ** Reaction roles *)

Section ReactionRoles.

Context (py : Python) (discord : Discord).

Lemma py_eq_str_true v s : py_eq_str v s = true -> v = VStr s.
Proof.
  destruct v; simpl; try discriminate. intros H. by apply String.eqb_eq in H as ->.
Qed.

(** X26. What a match of a reaction rule implies.  The rule is enabled and
    its trigger type is [reaction_added]; its payload is a dict; if it names an
    emoji (a truthy [trigger_value]), the reaction's emoji is that one; and if
    its payload names a message (a truthy [message_id]), the reaction sits on
    that message: the two ids read the same as strings, so an int [message_id]
    is the id of the message. *)
Theorem reaction_rule_filters (reaction : Reaction) (emoji_str : string) (rule : dict) :
  reaction_match py reaction emoji_str rule = inr true ->
  truthy (dict_get rule "enabled" (VBool true)) = true
  /\ dict_get rule "trigger_type" VNone = VStr "reaction_added"
  /\ (truthy (dict_get rule "trigger_value" (VStr "")) = true ->
      dict_get rule "trigger_value" (VStr "") = VStr emoji_str)
  /\ exists payload,
       dict_get rule "action_payload" (VDict []) = VDict payload
       /\ (truthy (dict_get payload "message_id" VNone) = true ->
           py_str py (dict_get payload "message_id" VNone)
           = str_of_Z (msg_id (reaction_message reaction)))
       /\ (forall n,
             dict_get payload "message_id" VNone = VInt n -> n <> 0 ->
             msg_id (reaction_message reaction) = n).
Proof.
  unfold reaction_match, py_ne_str.
  destruct (truthy (dict_get rule "enabled" (VBool true))); simpl; [|done].
  destruct (py_eq_str (dict_get rule "trigger_type" VNone) "reaction_added") eqn:Htype;
    simpl; [|done].
  destruct (other_server py _ _); [done|].
  destruct (truthy (dict_get rule "trigger_value" (VStr ""))) eqn:Hvalue; simpl.
  - destruct (py_eq_str (dict_get rule "trigger_value" (VStr "")) emoji_str) eqn:Hemoji;
      simpl; [|done].
    destruct (dict_get rule "action_payload" (VDict [])) as [| | | | | |payload]; try done.
    simpl. unfold_M.
    destruct (truthy (dict_get payload "message_id" VNone)) eqn:Hmsg; simpl.
    + destruct (String.eqb_spec (str_of_Z (msg_id (reaction_message reaction)))
                  (py_str py (dict_get payload "message_id" VNone))) as [Heq|]; [|done].
      intros _. split; [done|]. split; [by apply py_eq_str_true|].
      split; [intros _; by apply py_eq_str_true|].
      exists payload. split; [done|]. split; [done|].
      intros n Hn _. rewrite Hn in Heq. simpl in Heq. by apply str_of_Z_inj in Heq.
    + intros _. split; [done|]. split; [by apply py_eq_str_true|].
      split; [intros _; by apply py_eq_str_true|].
      exists payload. split; [done|]. split; [intros ?; congruence|].
      intros n Hn Hne. rewrite Hn in Hmsg. simpl in Hmsg.
      apply negb_false_iff, Z.eqb_eq in Hmsg. done.
  - destruct (dict_get rule "action_payload" (VDict [])) as [| | | | | |payload]; try done.
    simpl. unfold_M.
    destruct (truthy (dict_get payload "message_id" VNone)) eqn:Hmsg; simpl.
    + destruct (String.eqb_spec (str_of_Z (msg_id (reaction_message reaction)))
                  (py_str py (dict_get payload "message_id" VNone))) as [Heq|]; [|done].
      intros _. split; [done|]. split; [by apply py_eq_str_true|]. split; [done|].
      exists payload. split; [done|]. split; [done|].
      intros n Hn _. rewrite Hn in Heq. simpl in Heq. by apply str_of_Z_inj in Heq.
    + intros _. split; [done|]. split; [by apply py_eq_str_true|]. split; [done|].
      exists payload. split; [done|]. split; [intros ?; congruence|].
      intros n Hn Hne. rewrite Hn in Hmsg. simpl in Hmsg.
      apply negb_false_iff, Z.eqb_eq in Hmsg. done.
Qed.

(** X27. The reaction handlers check the member's roles before they act.  For
    an [assign_role] rule whose role the guild has: on an addition, a member
    who holds the role is left alone, with no request and no log record, and a
    member who lacks it gets one request for it; on a removal, a member who
    lacks the role is left alone, and a member who holds it gets one request to
    take it away. *)
Theorem reaction_roles_check_membership (reaction : Reaction) (member : Member)
    (emoji_str rule_id : string) (rule payload : dict) (rid : Z) (role : Role) (st : State) :
  dict_get rule "action_type" VNone = VStr "assign_role" ->
  dict_get rule "action_payload" (VDict []) = VDict payload ->
  truthy (dict_get payload "role_id" VNone) = true ->
  py_int py (dict_get payload "role_id" VNone) = inr rid ->
  get_role (msg_guild (reaction_message reaction)) rid = Some role ->
  let added := reaction_add_action py discord reaction member emoji_str rule_id rule st in
  let removed := reaction_remove_action py discord reaction member rule_id rule st in
  let name := py_str py (dict_get rule "name" (VStr rule_id)) in
  (role_in role (member_roles member) = true ->
   added = (inr tt, st)
   /\ api_calls removed.2
      = api_calls st ++ [CRemoveRoles (member_id member) (id_of_role role)
                                      ("Reaction role removed: " +:+ name)])
  /\ (role_in role (member_roles member) = false ->
      removed = (inr tt, st)
      /\ api_calls added.2
         = api_calls st ++ [CAddRoles (member_id member) (id_of_role role)
                                      ("Reaction role: " +:+ name)]).
Proof.
  intros Htype Hpayload Htruthy Hint Hrole. cbv zeta.
  unfold reaction_add_action, reaction_remove_action. rewrite Htype, Hpayload. simpl.
  unfold_M. simpl. rewrite Htruthy, Hint, Hrole.
  split; intros Hheld; rewrite Hheld; simpl; (split; [reflexivity|]); destruct st; simpl.
  - by destruct (remove_roles _ _ _ _ _).
  - by destruct (add_roles _ _ _ _ _).
Qed.

End ReactionRoles.

(** ** Runs on the executable instance *)

Import Instance.

Lemma disabled_rule_never_matched_witness :
  truthy (dict_get (role_rule false true) "enabled" (VBool true)) = false
  /\ reaction_match ascii_python thumbs_up "👍" (role_rule false true) = inr false.
Proof.
  split; [reflexivity|].
  apply (disabled_rule_never_matched ascii_python friendly "1" (role_rule false true)).
  reflexivity.
Defined.

Lemma remove_on_unreact_filter_witness :
  reaction_remove_match ascii_python thumbs_up "👍" (role_rule true true) = inr true
  /\ reaction_remove_match ascii_python thumbs_up "👍" (role_rule true false) = inr false.
Proof.
  split; [reflexivity|].
  eapply (remove_on_unreact_filter ascii_python friendly thumbs_up (role_rule true false));
    reflexivity.
Defined.

Lemma bot_reactions_ignored_witness :
  user_bot a_bot = true
  /\ on_reaction_add ascii_python friendly thumbs_up a_bot ready = (inr tt, ready).
Proof.
  split; [reflexivity|].
  apply (bot_reactions_ignored ascii_python friendly thumbs_up a_bot ready). reflexivity.
Defined.



(** The end-to-end example of the specification: the rule is created, [bob]
    joins, and one embed reading "Welcome bob!" goes to channel 1. *)
Lemma placeholders_by_handler_witness :
  let welcomed := with_rule welcome_rule ready in
  let rule := stored "1" "welcome" "member_join" "send_message" VNone
                     [("channel_id", VStr "1"); ("content", VStr "Welcome {username}!")] true in
  automation_rules welcomed = [("1", rule)]
  /\ api_calls (member_join_action ascii_python friendly bob "1" rule welcomed).2
     = api_calls welcomed
       ++ [CFetchChannel 1;
           CSend 1 (mkEmbed "Welcome!"
                      (str_replace
                         (str_replace (str_replace "Welcome {username}!" "{user}" "<@42>")
                                      "{username}" "bob")
                         "{server}" "Rocq Club")
                      0x5865F2 None None)]
  /\ api_calls (on_member_join ascii_python friendly bob welcomed).2
     = [CFetchChannel 1; CSend 1 (mkEmbed "Welcome!" "Welcome bob!" 0x5865F2 None None)]
  /\ log (on_member_join ascii_python friendly bob welcomed).2
     = [(INFO, "Logged in as bot"); (INFO, "Executed automation rule 1: sent welcome message")].
Proof.
  intros welcomed rule.
  split; [reflexivity|]. split; [|split; reflexivity].
  apply (proj1 (placeholders_by_handler ascii_python friendly "1" rule
                  [("channel_id", VStr "1"); ("content", VStr "Welcome {username}!")]
                  "Welcome {username}!" 1 (mkChannel 1 true) welcomed
                  eq_refl eq_refl eq_refl eq_refl eq_refl eq_refl)).
Defined.

(** C8 as stated fails: on a reaction addition [{server}] is not replaced,
    though the event has a guild.  The rule's content is
    "{username} reacted in {server}"; the embed sent reads
    "alice reacted in {server}", which is not the content with the four
    placeholders replaced. *)
Lemma placeholders_counterexample :
  let st := (on_reaction_add ascii_python friendly thumbs_up alice (with_rule echo_rule ready)).2 in
  api_calls st
  = [ CFetchMember 1 5; CFetchChannel 1;
      CSend 1 (mkEmbed "Reaction Event" "alice reacted in {server}" 0x5865F2 None
                       (Some "Reaction: 👍")) ]
  /\ render_placeholders "{username} reacted in {server}" "<@5>" "alice" "Rocq Club" "👍"
     = "alice reacted in Rocq Club"
  /\ "alice reacted in {server}"
     <> render_placeholders "{username} reacted in {server}" "<@5>" "alice" "Rocq Club" "👍".
Proof.
  split; [reflexivity|]. split; [reflexivity|]. discriminate.
Qed.

(** C7 at the failing input: the rule that assigns role 7 is dispatched
    twice for the same member, with a Discord that gives the role the first
    time and refuses a second request.  [on_member_join] does not look at the
    member's roles: for [bob_with_role], who holds the role after the first
    dispatch, it requests the role again, and the second dispatch is logged as
    a failure of the rule.  [on_reaction_add] looks first: its second
    dispatch fetches the member, sends no request and logs nothing.  With a
    Discord that refuses nothing, [on_member_join] still sends the request for
    the role the member holds.  [on_reaction_remove], for a member who lacks
    the role, only fetches the member. *)
Theorem assign_role_on_join_unguarded :
  let joined_once := on_member_join ascii_python revoking bob (with_rule greeter_rule ready) in
  let joined_twice := on_member_join ascii_python revoking bob_with_role joined_once.2 in
  let reacted_once := on_reaction_add ascii_python revoking thumbs_up alice
                        (with_rule reaction_role_rule ready) in
  let reacted_twice := on_reaction_add ascii_python revoking thumbs_up alice reacted_once.2 in
  let unreacted := on_reaction_remove ascii_python friendly thumbs_up alice
                     (with_rule reaction_role_rule ready) in
  let failure :=
    (ERROR, "Error executing automation rule 1: "
            +:+ "403 Forbidden (error code: 50013): Missing Permissions") in
  joined_once
  = (inr tt,
     with_log (with_calls (with_rule greeter_rule ready)
                 [CAddRoles 42 7 "Automation rule: greeter"])
       [(INFO, "Logged in as bot"); (INFO, "Executed automation rule 1: assigned role")])
  /\ omap (get_role guild) (roles_after 42 (api_calls joined_once.2) [])
     = member_roles bob_with_role
  /\ role_in member_role (member_roles bob_with_role) = true
  /\ joined_twice
     = (inr tt,
        with_log (with_calls (with_rule greeter_rule ready)
                    [ CAddRoles 42 7 "Automation rule: greeter";
                      CAddRoles 42 7 "Automation rule: greeter" ])
          [ (INFO, "Logged in as bot"); (INFO, "Executed automation rule 1: assigned role");
            failure ])
  /\ reacted_once
     = (inr tt,
        with_log (with_calls (with_rule reaction_role_rule ready)
                    [CFetchMember 1 5; CAddRoles 5 7 "Reaction role: roles"])
          [ (INFO, "Logged in as bot");
            (INFO, "Executed automation rule 1: assigned role Member to alice") ])
  /\ reacted_twice
     = (inr tt,
        with_calls reacted_once.2
          [CFetchMember 1 5; CAddRoles 5 7 "Reaction role: roles"; CFetchMember 1 5])
  /\ api_calls (on_member_join ascii_python friendly bob_with_role
                  (with_rule greeter_rule ready)).2
     = [CAddRoles 42 7 "Automation rule: greeter"]
  /\ api_calls (on_reaction_add ascii_python friendly thumbs_up alice
                  (on_reaction_add ascii_python friendly thumbs_up alice
                     (with_rule reaction_role_rule ready)).2).2
     = [CFetchMember 1 5; CAddRoles 5 7 "Reaction role: roles"; CFetchMember 1 5]
  /\ fetch_member friendly [] guild 5 = inr (mkMember 5 "alice" "<@5>" [] guild None)
  /\ unreacted = (inr tt, with_calls (with_rule reaction_role_rule ready) [CFetchMember 1 5]).
Proof.
  intros joined_once joined_twice reacted_once reacted_twice unreacted failure.
  repeat (split; [reflexivity|]). reflexivity.
Qed.

(** A wake for task "1" in a state whose store is empty: nothing is sent, and
    the coroutine has finished. *)
Lemma cancelled_task_dropped_witness :
  let st := with_runners ready [mkRunner "1" "send_message" (VDict []) Sleeping] in
  scheduled_tasks st !! "1" = None
  /\ (run_scheduled_task_wake 0 "1" st).2
     = with_runners ready [mkRunner "1" "send_message" (VDict []) Finished].
Proof.
  intros st. split; [reflexivity|].
  apply (cancelled_task_dropped 0 "1" st). reflexivity.
Defined.

(** [caps_spam] on three messages: the one in capitals is flagged, the one
    without letters is passed over, the one in lower case is not flagged. *)
Example caps_spam_run :
  caps_spam ascii_python default_caps_ratio 15 [shouting; digits; calm] = inr [shouting].
Proof. vm_compute. reflexivity. Qed.

(** A scheduled message is submitted, its coroutine wakes, and its callable
    returns: the status goes scheduled, running, completed, and a further turn
    of the loop leaves it completed. *)
Lemma task_lifecycle_witness :
  reachable ascii_python friendly task_done
  /\ task_status <$> scheduled_tasks task_submitted !! "1" = Some "scheduled"
  /\ task_status <$> scheduled_tasks task_running !! "1" = Some "running"
  /\ task_status <$> scheduled_tasks task_done !! "1" = Some "completed"
  /\ lifecycle_step task_done (on_member_join ascii_python friendly bob task_done).2.
Proof.
  assert (Hreach : reachable ascii_python friendly task_done).
  { unfold reachable.
    eapply rtc_l; [apply (step_ready _ _ "bot")|].
    eapply rtc_l; [apply (step_tool _ _ 0 0 "send_scheduled_message" later)|].
    eapply rtc_l;
      [apply (step_wake _ _ 0 (mkRunner "1" "send_message" later_payload Sleeping));
       reflexivity|].
    eapply rtc_l;
      [apply (step_finish _ _ 0 0 0 (mkRunner "1" "send_message" later_payload Awaiting));
       reflexivity|].
    apply rtc_refl. }
  split; [exact Hreach|]. split; [reflexivity|]. split; [reflexivity|]. split; [reflexivity|].
  apply (proj1 (task_lifecycle ascii_python friendly task_done Hreach)).
  apply step_member_join.
Defined.

(** The payload of [broken_rule] makes the lookup of [message_id] raise; with
    the rule switched off the lookup is not reached. *)
Example disabled_rule_not_evaluated :
  reaction_match ascii_python thumbs_up "👍" (broken_rule true)
  = inl (mkExn "AttributeError" "'int' object has no attribute 'get'")
  /\ reaction_match ascii_python thumbs_up "👍" (broken_rule false) = inr false.
Proof. split; reflexivity. Qed.

Example str_replace_run : str_replace "a{user}b{user}" "{user}" "<@42>" = "a<@42>b<@42>".
Proof. reflexivity. Qed.

Example count_links_run :
  count_links "see http://a.example and https://b.example, not ftp://c" = 2%nat.
Proof. reflexivity. Qed.

(** Reaction roles are idempotent on a Discord that keeps the roles it was
    asked for: after two additions the member holds role 7 once, and after
    two removals the role was taken back once. *)
Example reaction_role_twice :
  let added := (on_reaction_add ascii_python friendly thumbs_up alice
                  (on_reaction_add ascii_python friendly thumbs_up alice
                     (with_rule reaction_role_rule ready)).2).2 in
  let removed := (on_reaction_remove ascii_python friendly thumbs_up alice
                    (on_reaction_remove ascii_python friendly thumbs_up alice added).2).2 in
  roles_after 5 (api_calls added) [] = [7]
  /\ roles_after 5 (api_calls removed) [] = []
  /\ log removed
     = [ (INFO, "Logged in as bot");
         (INFO, "Executed automation rule 1: assigned role Member to alice");
         (INFO, "Executed automation rule 1: removed role Member from alice") ].
Proof. split; [reflexivity|]. split; reflexivity. Qed.

(** *** Runs for the further properties *)

(** The turns that lead to [ready], [task_submitted], [task_running] and
    [task_done]. *)
Ltac run_ready := eapply rtc_l; [apply (step_ready _ _ "bot")|].
Ltac run_submit :=
  eapply rtc_l; [apply (step_tool _ _ 0 0 "send_scheduled_message" later)|].
Ltac run_wake :=
  eapply rtc_l;
    [apply (step_wake _ _ 0 (mkRunner "1" "send_message" later_payload Sleeping)); reflexivity|].
Ltac run_finish :=
  eapply rtc_l;
    [apply (step_finish _ _ 0 0 0 (mkRunner "1" "send_message" later_payload Awaiting));
     reflexivity|].

(** The first rule created after [on_ready] is stored under "1", enabled. *)
Lemma created_rule_is_last_witness :
  reachable ascii_python friendly ready
  /\ exists rule,
       automation_rules (with_rule welcome_rule ready) = automation_rules ready ++ [("1", rule)]
       /\ dict_lookup "enabled" rule = Some (VBool true).
Proof.
  assert (Hreach : reachable ascii_python friendly ready).
  { unfold reachable. run_ready. apply rtc_refl. }
  split; [exact Hreach|].
  destruct (created_rule_is_last ascii_python friendly created_at welcome_rule ready _ _
              Hreach eq_refl) as (rule & Hrules & _ & _ & _ & Henabled & _).
  exists rule. split; [exact Hrules | exact Henabled].
Defined.

(** A call without [name] raises and leaves the counter at 1. *)
Lemma rejected_rule_uses_an_id_witness :
  dict_mem "name" [("trigger_type", VStr "member_join")]
  && dict_mem "trigger_type" [("trigger_type", VStr "member_join")]
  && dict_mem "action_type" [("trigger_type", VStr "member_join")] = false
  /\ exists e,
       exn_class e = "KeyError"
       /\ create_automation_rule ascii_python created_at [("trigger_type", VStr "member_join")]
            ready
          = (inl e, with_rule_counter ready 1).
Proof.
  split; [reflexivity|].
  apply (rejected_rule_uses_an_id ascii_python created_at
           [("trigger_type", VStr "member_join")] ready).
  reflexivity.
Defined.

Lemma rules_only_appended_witness :
  let created :=
    (call_tool ascii_python friendly 0 0 "create_automation_rule" (VDict welcome_rule) ready).2 in
  reachable ascii_python friendly ready
  /\ rtc (step ascii_python friendly) ready created
  /\ exists added, automation_rules created = automation_rules ready ++ added.
Proof.
  intros created.
  assert (Hreach : reachable ascii_python friendly ready).
  { unfold reachable. run_ready. apply rtc_refl. }
  assert (Hrun : rtc (step ascii_python friendly) ready created).
  { eapply rtc_l; [apply (step_tool _ _ 0 0 "create_automation_rule" (VDict welcome_rule))|].
    apply rtc_refl. }
  split; [exact Hreach|]. split; [exact Hrun|].
  exact (rules_only_appended ascii_python friendly ready created Hreach Hrun).
Defined.

Lemma rule_store_wellformed_witness :
  let created :=
    (call_tool ascii_python friendly 0 0 "create_automation_rule" (VDict welcome_rule) ready).2 in
  reachable ascii_python friendly created
  /\ NoDup (map fst (automation_rules created)).
Proof.
  intros created.
  assert (Hreach : reachable ascii_python friendly created).
  { unfold reachable. run_ready.
    eapply rtc_l; [apply (step_tool _ _ 0 0 "create_automation_rule" (VDict welcome_rule))|].
    apply rtc_refl. }
  split; [exact Hreach|].
  exact (proj1 (rule_store_wellformed ascii_python friendly created Hreach)).
Defined.

Lemma task_store_wellformed_witness :
  reachable ascii_python friendly task_done
  /\ forall n,
       1 <= n <= scheduled_task_counter task_done ->
       is_Some (scheduled_tasks task_done !! str_of_Z n).
Proof.
  assert (Hreach : reachable ascii_python friendly task_done).
  { unfold reachable. run_ready. run_submit. run_wake. run_finish. apply rtc_refl. }
  split; [exact Hreach|].
  exact (proj1 (proj2 (task_store_wellformed ascii_python friendly task_done Hreach))).
Defined.

(** The record of the scheduled message keeps what was written at its
    submission while it runs to its end. *)
Lemma task_record_immutable_witness :
  let t := mkTask "1" "send_message" "1700000000000000" "0" "scheduled" later_payload
                  None None in
  reachable ascii_python friendly task_submitted
  /\ rtc (step ascii_python friendly) task_submitted task_done
  /\ scheduled_tasks task_submitted !! "1" = Some t
  /\ exists t', scheduled_tasks task_done !! "1" = Some t' /\ same_record t t'.
Proof.
  intros t.
  assert (Hreach : reachable ascii_python friendly task_submitted).
  { unfold reachable. run_ready. run_submit. apply rtc_refl. }
  assert (Hrun : rtc (step ascii_python friendly) task_submitted task_done).
  { run_wake. run_finish. apply rtc_refl. }
  split; [exact Hreach|]. split; [exact Hrun|]. split; [reflexivity|].
  exact (task_record_immutable ascii_python friendly task_submitted task_done "1" t
           Hreach Hrun eq_refl).
Defined.

(** Once completed, the record is the same after a further event. *)
Lemma finished_task_frozen_witness :
  let t := mkTask "1" "send_message" "1700000000000000" "0" "completed" later_payload
                  (Some "send_message done") None in
  let st' := (on_member_join ascii_python friendly bob task_done).2 in
  reachable ascii_python friendly task_done
  /\ rtc (step ascii_python friendly) task_done st'
  /\ scheduled_tasks task_done !! "1" = Some t
  /\ terminal (task_status t)
  /\ scheduled_tasks st' !! "1" = Some t.
Proof.
  intros t st'.
  assert (Hreach : reachable ascii_python friendly task_done).
  { unfold reachable. run_ready. run_submit. run_wake. run_finish. apply rtc_refl. }
  assert (Hrun : rtc (step ascii_python friendly) task_done st').
  { eapply rtc_l; [apply (step_member_join _ _ bob)|]. apply rtc_refl. }
  assert (Hterminal : terminal (task_status t)) by (left; reflexivity).
  split; [exact Hreach|]. split; [exact Hrun|]. split; [reflexivity|].
  split; [exact Hterminal|].
  exact (finished_task_frozen ascii_python friendly task_done st' "1" t
           Hreach Hrun eq_refl Hterminal).
Defined.

Lemma outcome_matches_status_witness :
  let t := mkTask "1" "send_message" "1700000000000000" "0" "completed" later_payload
                  (Some "send_message done") None in
  reachable ascii_python friendly task_done
  /\ scheduled_tasks task_done !! "1" = Some t
  /\ (task_status t = "completed" -> task_error t = None).
Proof.
  intros t.
  assert (Hreach : reachable ascii_python friendly task_done).
  { unfold reachable. run_ready. run_submit. run_wake. run_finish. apply rtc_refl. }
  split; [exact Hreach|]. split; [reflexivity|].
  exact (proj1 (proj2 (outcome_matches_status ascii_python friendly task_done "1" t
                         Hreach eq_refl))).
Defined.

Lemma task_can_progress_witness :
  let t := mkTask "1" "send_message" "1700000000000000" "0" "scheduled" later_payload
                  None None in
  reachable ascii_python friendly task_submitted
  /\ scheduled_tasks task_submitted !! "1" = Some t
  /\ exists st', step ascii_python friendly task_submitted st'
                 /\ scheduled_tasks st' !! "1" = Some (set_status "running" t).
Proof.
  intros t.
  assert (Hreach : reachable ascii_python friendly task_submitted).
  { unfold reachable. run_ready. run_submit. apply rtc_refl. }
  split; [exact Hreach|]. split; [reflexivity|].
  exact (proj1 (task_can_progress ascii_python friendly task_submitted "1" t Hreach eq_refl)
               eq_refl).
Defined.

(** The scheduled message, once due, calls [send_message] with its payload. *)
Lemma due_task_runs_its_tool_witness :
  let r := mkRunner "1" "send_message" later_payload Awaiting in
  reachable ascii_python friendly task_running
  /\ runners task_running !! 0%nat = Some r
  /\ runner_pc r = Awaiting
  /\ discord_client task_running = true
  /\ exists t,
       scheduled_tasks task_running !! "1" = Some t
       /\ api_calls task_done = api_calls task_running ++ [CTool (task_type t) (task_payload t)].
Proof.
  intros r.
  assert (Hreach : reachable ascii_python friendly task_running).
  { unfold reachable. run_ready. run_submit. run_wake. apply rtc_refl. }
  split; [exact Hreach|]. split; [reflexivity|]. split; [reflexivity|]. split; [reflexivity|].
  destruct (due_task_runs_its_tool ascii_python friendly 0 0 0%nat r task_running
              Hreach eq_refl eq_refl eq_refl) as (t & Hlook & Hcalls & _).
  exists t. split; [exact Hlook | exact Hcalls].
Defined.

(** The same task, due after a disconnection, fails without a request. *)
Lemma due_task_while_disconnected_witness :
  let r := mkRunner "1" "send_message" later_payload Awaiting in
  let t := mkTask "1" "send_message" "1700000000000000" "0" "running" later_payload
                  None None in
  let st := (on_disconnect task_running).2 in
  let st' := (run_scheduled_task_finish ascii_python friendly 0 0 0 r st).2 in
  discord_client st = false
  /\ scheduled_tasks st !! "1" = Some t
  /\ api_calls st' = api_calls st
  /\ scheduled_tasks st'
     = <["1" := set_error "Discord client not ready" (set_status "failed" t)]>
         (scheduled_tasks st).
Proof.
  intros r t st st'.
  split; [reflexivity|]. split; [reflexivity|].
  destruct (due_task_while_disconnected ascii_python friendly 0 0 0%nat r st t
              eq_refl eq_refl) as (_ & Hcalls & Htasks & _).
  split; [exact Hcalls | exact Htasks].
Defined.


(** A join rule for server 1 matches [bob], who joins server 1. *)
Lemma scoped_rule_stays_in_its_server_witness :
  let rule := [("server_id", VInt 1); ("trigger_type", VStr "member_join")] in
  dict_lookup "server_id" rule = Some (VInt 1)
  /\ truthy (VInt 1) = true
  /\ py_str ascii_python (VInt 1) = str_of_Z 1
  /\ member_join_match ascii_python bob rule = true
  /\ guild_id (member_guild bob) = 1.
Proof.
  intros rule.
  split; [reflexivity|]. split; [reflexivity|]. split; [reflexivity|]. split; [reflexivity|].
  exact (proj1 (scoped_rule_stays_in_its_server ascii_python rule (VInt 1) 1
                  eq_refl eq_refl eq_refl) bob eq_refl).
Defined.

Lemma timeout_requires_minutes_witness :
  dict_mem "timeout_minutes" [] = false
  /\ moderate ascii_python friendly "timeout" [] (mkApplied 0 [] []) [shouting] ready
     = (inr (mkApplied 0 ["100: timeout_minutes required for timeout action"] []), ready).
Proof.
  split; [reflexivity|].
  exact (timeout_requires_minutes ascii_python friendly [] [shouting] (mkApplied 0 [] []) ready
           eq_refl).
Defined.

Lemma nothing_runs_without_client_witness :
  discord_client initial = false
  /\ forall member, on_member_join ascii_python friendly member initial = (inr tt, initial).
Proof.
  split; [reflexivity|].
  exact (proj1 (nothing_runs_without_client ascii_python friendly initial eq_refl)).
Defined.

(** A reaction in a thread is dropped. *)
Lemma reaction_without_member_witness :
  let in_thread := mkReaction "👍" (mkReactedMessage 99 guild false) in
  discord_client ready = true
  /\ user_bot alice = false
  /\ msg_in_text_channel (reaction_message in_thread) = false
  /\ on_reaction_add ascii_python friendly in_thread alice ready = (inr tt, ready).
Proof.
  intros in_thread.
  split; [reflexivity|]. split; [reflexivity|]. split; [reflexivity|].
  exact (proj1 (proj1 (reaction_without_member ascii_python friendly in_thread alice ready
                         eq_refl eq_refl) eq_refl)).
Defined.

(** The loop of [bulk_add_roles] on two ids, the second of which is not a
    number: one success, one failure, and the requests of the first only. *)
Example bulk_add_roles_run :
  bulk_add_roles_loop ascii_python friendly guild member_role "welcome" (mkTally [] [])
    [VStr "5"; VStr "five"] ready
  = (inr (mkTally ["5"] ["five: invalid literal for int()"]),
     with_calls ready [CFetchMember 1 5; CAddRoles 5 7 "welcome"]).
Proof. reflexivity. Qed.

(** A window in which one author repeats a message three times, in different
    case and spacing, among other messages. *)
Example repeated_message_run :
  let again := mkMessage 103 5 true (Some "  Please STOP spamming me ") [] [] in
  let third := mkMessage 104 5 true (Some "PLEASE STOP SPAMMING ME") [] [] in
  let other := mkMessage 105 6 true (Some "please stop spamming me") [] [] in
  repeated_message ascii_python 3 [calm; other; again; shouting; third]
  = [calm; again; third].
Proof. vm_compute. reflexivity. Qed.

(** The action loop with the action [timeout] on six matches, of authors 5,
    5, 8, 5, 6 and 6, where author 8 is not a member and Discord refuses the
    first request: author 5 is asked for twice and timed out once, author 6
    once, and two are applied. *)
Example timeout_run :
  moderate ascii_python moody "timeout" [("timeout_minutes", VInt 10)] (mkApplied 0 [] [])
    [shouting; digits; departed; calm; other; other] ready
  = (inr (mkApplied 2 ["100: 403 Forbidden (error code: 50013): Missing Permissions"] [6; 5]),
     with_calls ready
       (map (timeout_call (VInt 10)) [(shouting, Some forbidden); (digits, None); (other, None)])).
Proof. reflexivity. Qed.

(** The reaction-role rule "1" matches a thumbs-up, and names that emoji. *)
Lemma reaction_rule_filters_witness :
  reaction_match ascii_python thumbs_up "👍" (role_rule true true) = inr true
  /\ dict_get (role_rule true true) "trigger_value" (VStr "") = VStr "👍".
Proof.
  split; [reflexivity|].
  exact (proj1 (proj2 (proj2 (reaction_rule_filters ascii_python thumbs_up "👍"
                                (role_rule true true) eq_refl))) eq_refl).
Defined.

(** [bob_with_role] holds role 7: an addition leaves him alone. *)
Lemma reaction_roles_check_membership_witness :
  let payload := [("role_id", VStr "7"); ("remove_on_unreact", VBool true)] in
  dict_get (role_rule true true) "action_type" VNone = VStr "assign_role"
  /\ dict_get (role_rule true true) "action_payload" (VDict []) = VDict payload
  /\ truthy (dict_get payload "role_id" VNone) = true
  /\ py_int ascii_python (dict_get payload "role_id" VNone) = inr 7
  /\ get_role (msg_guild (reaction_message thumbs_up)) 7 = Some member_role
  /\ role_in member_role (member_roles bob_with_role) = true
  /\ reaction_add_action ascii_python friendly thumbs_up bob_with_role "👍" "1"
       (role_rule true true) ready
     = (inr tt, ready).
Proof.
  intros payload.
  split; [reflexivity|]. split; [reflexivity|]. split; [reflexivity|].
  split; [reflexivity|]. split; [reflexivity|]. split; [reflexivity|].
  exact (proj1 (proj1 (reaction_roles_check_membership ascii_python friendly thumbs_up
                         bob_with_role "👍" "1" (role_rule true true) payload 7 member_role
                         ready eq_refl eq_refl eq_refl eq_refl eq_refl) eq_refl)).
Defined.
